(** * Care Coordinator appointment form: scheduling and form synchronisation

    A shallow embedding of the scheduling part of the front-end controller
    [CareCoordinatorApp]: the availability catalogue, appointment type
    inference, time-slot generation, fuzzy option matching, the two-pass
    form update and the submission-time validation.

    Conventions.
    - JavaScript strings are modelled by [string] (8-bit characters; the
      case mapping is the ASCII one).
    - JavaScript numbers that hold minutes are [Z]; a computation that can
      yield [NaN] returns [option Z] with [None] for [NaN].
    - The form is the part of the document the controller reads and writes;
      handlers are computations in a small state / log / exception monad. *)

From Stdlib Require Import ZArith String Ascii List Bool Lia.
From Stdlib Require Import DecimalString.
Import ListNotations.

Local Open Scope string_scope.
Local Open Scope Z_scope.

(** ** JavaScript string and number primitives *)

Module JS.

(** [String.prototype.toLowerCase], ASCII letters. *)
Definition lowerChar (c : ascii) : ascii :=
  let n := nat_of_ascii c in
  if andb (Nat.leb 65 n) (Nat.leb n 90) then ascii_of_nat (n + 32) else c.

Fixpoint toLowerCase (s : string) : string :=
  match s with
  | EmptyString => EmptyString
  | String c s' => String (lowerChar c) (toLowerCase s')
  end.

(** [s.startsWith(pre)] *)
Fixpoint startsWith (s pre : string) {struct pre} : bool :=
  match pre with
  | EmptyString => true
  | String c pre' =>
      match s with
      | EmptyString => false
      | String d s' => andb (Ascii.eqb c d) (startsWith s' pre')
      end
  end.

(** [s.includes(sub)]: [sub] occurs in [s] as a contiguous substring,
    that is, some suffix of [s] starts with [sub]. *)
Fixpoint includes (s sub : string) : bool :=
  orb (startsWith s sub)
      match s with
      | EmptyString => false
      | String _ s' => includes s' sub
      end.

(** What a single-line text input keeps of an assigned string: the line
    feeds and carriage returns are dropped. *)
Fixpoint stripLineBreaks (s : string) : string :=
  match s with
  | EmptyString => EmptyString
  | String c s' =>
      if orb (Ascii.eqb c "010") (Ascii.eqb c "013") then stripLineBreaks s'
      else String c (stripLineBreaks s')
  end.

(** [s.split(sep)] for a one-character separator. *)
Fixpoint split (sep : ascii) (s : string) : list string :=
  match s with
  | EmptyString => [EmptyString]
  | String c s' =>
      if Ascii.eqb c sep then EmptyString :: split sep s'
      else match split sep s' with
           | [] => [String c EmptyString]
           | hd :: tl => String c hd :: tl
           end
  end.

(** [l.join(sep)]. *)
Fixpoint join (sep : string) (l : list string) : string :=
  match l with
  | [] => EmptyString
  | [x] => x
  | x :: rest => x ++ sep ++ join sep rest
  end.

Definition isSpace (c : ascii) : bool :=
  let n := nat_of_ascii c in
  orb (Nat.eqb n 32) (andb (Nat.leb 9 n) (Nat.leb n 13)).

Fixpoint trimStart (s : string) : string :=
  match s with
  | EmptyString => EmptyString
  | String c s' => if isSpace c then trimStart s' else s
  end.

Fixpoint trimEnd (s : string) : string :=
  match s with
  | EmptyString => EmptyString
  | String c s' =>
      match trimEnd s' with
      | EmptyString => if isSpace c then EmptyString else String c EmptyString
      | t => String c t
      end
  end.

(** [s.trim()], ASCII white space. *)
Definition trim (s : string) : string := trimEnd (trimStart s).

Fixpoint repeatChar (n : nat) (c : ascii) : string :=
  match n with
  | O => EmptyString
  | S n' => String c (repeatChar n' c)
  end.

(** [s.padStart(n, c)] for a one-character filler. *)
Definition padStart (n : nat) (c : ascii) (s : string) : string :=
  repeatChar (n - String.length s) c ++ s.

(** [Number(s)] on the unsigned decimal fragment: a string of decimal
    digits denotes its value and the empty string denotes [0]; on every
    other string of this model the result is [None] ([NaN]). *)
Definition Number (s : string) : option Z :=
  option_map Z.of_uint (NilEmpty.uint_of_string s).

(** [n.toString()] for an integer. *)
Definition toString (n : Z) : string :=
  NilZero.string_of_int (Z.to_int n).

(** Truthiness of a string: non-empty. *)
Definition truthy (s : string) : bool :=
  match s with EmptyString => false | _ => true end.

(** Decimal digits. *)
Definition isDigit (c : ascii) : bool :=
  let n := nat_of_ascii c in andb (Nat.leb 48 n) (Nat.leb n 57).

Definition digitValue (c : ascii) : Z := Z.of_nat (nat_of_ascii c) - 48.

Definition digits : list ascii :=
  ["0"; "1"; "2"; "3"; "4"; "5"; "6"; "7"; "8"; "9"]%char.

(** [n.toString().padStart(2, '0')] *)
Definition pad2 (n : Z) : string := padStart 2 "0" (toString n).

(** Two digits denote their decimal value, and padding prints it back. *)
Definition twoDigitCheck (a b : ascii) : bool :=
  let s := String a (String b EmptyString) in
  let n := 10 * digitValue a + digitValue b in
  andb (match Number s with Some k => k =? n | None => false end)
       (String.eqb (pad2 n) s).

End JS.

(** ** Time of day *)

(** [parseTime]: "09:00" to minutes since midnight.  The destructuring
    [[hours, minutes]] takes the first two pieces; a missing piece is
    [undefined] and the sum is [NaN]. *)
Definition parseTime (timeString : string) : option Z :=
  let parts := map JS.Number (JS.split ":" timeString) in
  match nth_error parts 0, nth_error parts 1 with
  | Some (Some hours), Some (Some minutes) => Some (hours * 60 + minutes)
  | _, _ => None
  end.

(** [formatTime]: minutes since midnight to "09:00". [Math.floor (m / 60)]
    is the floor quotient and [%] the truncated remainder. *)
Definition formatTime (minutes : Z) : string :=
  let hours := minutes / 60 in
  let mins := Z.rem minutes 60 in
  JS.padStart 2 "0" (JS.toString hours) ++ ":" ++ JS.padStart 2 "0" (JS.toString mins).

(** The loop of [generateTimeSlots]:
    [while (currentTime < endTime) { push; currentTime += 30 }].
    The fuel bounds the number of iterations; [slotLoop_unfold] below shows
    that the fuel given by [timeSlots] never runs out. *)
Fixpoint slotLoop (fuel : nat) (currentTime endTime : Z) : list string :=
  match fuel with
  | O => []
  | S fuel' =>
      if currentTime <? endTime
      then formatTime currentTime :: slotLoop fuel' (currentTime + 30) endTime
      else []
  end.

Definition timeSlots (startTime endTime : Z) : list string :=
  slotLoop (Z.to_nat (endTime - startTime)) startTime endTime.

(** Comparison with [NaN] is false, so the loop body never runs. *)
Definition slotsBetween (startTime endTime : option Z) : list string :=
  match startTime, endTime with
  | Some s, Some e => timeSlots s e
  | _, _ => []
  end.

(** ** Availability catalogue *)

Record Hours := { start : string; finish : string }.

(** One segment of a split schedule. *)
Record Segment := {
  seg_days : list string;
  seg_hours : Hours;
  seg_location : string
}.

(** An entry of [doctorAvailability].  A simple entry has [hours] and
    [location]; a split entry has [schedule], and its [days] is the value of
    the getter that lists the combined days. *)
Record Availability := {
  days : list string;
  hours : option Hours;
  location : option string;
  schedule : option (list Segment)
}.

Definition simple (d : list string) (s e : string) (loc : string) : Availability :=
  {| days := d; hours := Some {| start := s; finish := e |};
     location := Some loc; schedule := None |}.

Definition doctorAvailability : list (string * Availability) :=
  [ ("Grey, Meredith",
      simple ["monday"; "tuesday"; "wednesday"; "thursday"; "friday"]
             "09:00" "17:00" "Sloan Primary Care");
    ("House, Gregory",
      {| days := ["monday"; "tuesday"; "wednesday"; "thursday"; "friday"];
         hours := None;
         location := None;
         schedule := Some
           [ {| seg_days := ["monday"; "tuesday"; "wednesday"];
                seg_hours := {| start := "09:00"; finish := "17:00" |};
                seg_location := "PPTH Orthopedics" |};
             {| seg_days := ["thursday"; "friday"];
                seg_hours := {| start := "09:00"; finish := "17:00" |};
                seg_location := "Jefferson Hospital" |} ] |});
    ("Yang, Cristina",
      simple ["monday"; "tuesday"; "wednesday"; "thursday"; "friday"]
             "09:00" "17:00" "Seattle Grace Cardiac Surgery");
    ("Perry, Chris",
      simple ["monday"; "tuesday"; "wednesday"]
             "09:00" "17:00" "Sacred Heart Surgical Department");
    ("Brennan, Temperance",
      simple ["tuesday"; "wednesday"; "thursday"]
             "10:00" "16:00" "Jefferson Hospital") ].

(** Property lookup [obj[key]] on an object literal, [None] for
    [undefined]. *)
Fixpoint lookup {A : Type} (key : string) (obj : list (string * A)) : option A :=
  match obj with
  | [] => None
  | (k, v) :: rest => if String.eqb k key then Some v else lookup key rest
  end.

(** [array.includes(x)] on an array of strings. *)
Definition arrayIncludes (l : list string) (x : string) : bool :=
  existsb (String.eqb x) l.

(** [schedule.find(s => s.days.includes(dayName))]. *)
Definition scheduleForDay (segments : list Segment) (dayName : string) : option Segment :=
  find (fun s => arrayIncludes (seg_days s) dayName) segments.

(** ** Patient record *)

Record Appointment := {
  apt_date : string;
  apt_provider : string;
  apt_status : string
}.

(** [appointments] is [None] when the property is absent. *)
Record Patient := {
  patient_name : string;
  appointments : option (list Appointment)
}.

(** ** The booking form *)

Record OptionEl := { value : string; textContent : string }.

(** A [<select>]: its options, the value it reports (the value of the
    selected option, empty when nothing is selected) and its [disabled]
    flag. *)
Record SelectEl := {
  options : list OptionEl;
  sel_value : string;
  sel_disabled : bool
}.

(** Some option of the select has the value [v]. *)
Definition hasOption (v : string) (el : SelectEl) : bool :=
  existsb (fun o => String.eqb (value o) v) (options el).

(** Assigning [select.value = v] selects the first option whose value is
    [v]; when there is none, no option stays selected and the value reads
    as the empty string. *)
Definition selectSetValue (v : string) (el : SelectEl) : SelectEl :=
  {| options := options el;
     sel_value := if hasOption v el then v else "";
     sel_disabled := sel_disabled el |}.

(** Assigning [select.innerHTML] replaces the options; the first option
    becomes the selected one. *)
Definition selectSetInnerHTML (opts : list OptionEl) (el : SelectEl) : SelectEl :=
  {| options := opts;
     sel_value := match opts with [] => "" | o :: _ => value o end;
     sel_disabled := sel_disabled el |}.

(** [select.appendChild(option)]: the selection is kept. *)
Definition selectAppend (o : OptionEl) (el : SelectEl) : SelectEl :=
  {| options := options el ++ [o];
     sel_value := sel_value el;
     sel_disabled := sel_disabled el |}.

Definition selectSetDisabled (b : bool) (el : SelectEl) : SelectEl :=
  {| options := options el; sel_value := sel_value el; sel_disabled := b |}.

(** An [<input type="date">]: value, [disabled], [min], [max], and the day
    list of the input listener installed by [addDateValidation], if any. *)
Record DateInput := {
  date_value : string;
  date_disabled : bool;
  date_min : string;
  date_max : string;
  date_validation : option (list string)
}.

Record Form := {
  first_name : string;
  last_name : string;
  dob : string;
  doctor : SelectEl;
  appointment_type : SelectEl;
  appointment_location : SelectEl;
  appointment_date : DateInput;
  appointment_time : SelectEl;
  (** the other elements of the page that carry an id, with their [value]
      property *)
  others : list (string * string)
}.

Definition with_first_name (v : string) (f : Form) : Form :=
  {| first_name := v; last_name := last_name f; dob := dob f; doctor := doctor f;
     appointment_type := appointment_type f;
     appointment_location := appointment_location f;
     appointment_date := appointment_date f; appointment_time := appointment_time f;
     others := others f |}.

Definition with_last_name (v : string) (f : Form) : Form :=
  {| first_name := first_name f; last_name := v; dob := dob f; doctor := doctor f;
     appointment_type := appointment_type f;
     appointment_location := appointment_location f;
     appointment_date := appointment_date f; appointment_time := appointment_time f;
     others := others f |}.

Definition with_dob (v : string) (f : Form) : Form :=
  {| first_name := first_name f; last_name := last_name f; dob := v; doctor := doctor f;
     appointment_type := appointment_type f;
     appointment_location := appointment_location f;
     appointment_date := appointment_date f; appointment_time := appointment_time f;
     others := others f |}.

Definition with_doctor (v : SelectEl) (f : Form) : Form :=
  {| first_name := first_name f; last_name := last_name f; dob := dob f; doctor := v;
     appointment_type := appointment_type f;
     appointment_location := appointment_location f;
     appointment_date := appointment_date f; appointment_time := appointment_time f;
     others := others f |}.

Definition with_type (v : SelectEl) (f : Form) : Form :=
  {| first_name := first_name f; last_name := last_name f; dob := dob f;
     doctor := doctor f; appointment_type := v;
     appointment_location := appointment_location f;
     appointment_date := appointment_date f; appointment_time := appointment_time f;
     others := others f |}.

Definition with_location (v : SelectEl) (f : Form) : Form :=
  {| first_name := first_name f; last_name := last_name f; dob := dob f;
     doctor := doctor f; appointment_type := appointment_type f;
     appointment_location := v;
     appointment_date := appointment_date f; appointment_time := appointment_time f;
     others := others f |}.

Definition with_date (v : DateInput) (f : Form) : Form :=
  {| first_name := first_name f; last_name := last_name f; dob := dob f;
     doctor := doctor f; appointment_type := appointment_type f;
     appointment_location := appointment_location f;
     appointment_date := v; appointment_time := appointment_time f;
     others := others f |}.

Definition with_time (v : SelectEl) (f : Form) : Form :=
  {| first_name := first_name f; last_name := last_name f; dob := dob f;
     doctor := doctor f; appointment_type := appointment_type f;
     appointment_location := appointment_location f;
     appointment_date := appointment_date f; appointment_time := v;
     others := others f |}.

Definition with_others (v : list (string * string)) (f : Form) : Form :=
  {| first_name := first_name f; last_name := last_name f; dob := dob f;
     doctor := doctor f; appointment_type := appointment_type f;
     appointment_location := appointment_location f;
     appointment_date := appointment_date f; appointment_time := appointment_time f;
     others := v |}.

Definition dateSet (v : string) (d : DateInput) : DateInput :=
  {| date_value := v; date_disabled := date_disabled d; date_min := date_min d;
     date_max := date_max d; date_validation := date_validation d |}.

Definition dateSetDisabled (b : bool) (d : DateInput) : DateInput :=
  {| date_value := date_value d; date_disabled := b; date_min := date_min d;
     date_max := date_max d; date_validation := date_validation d |}.

Definition dateSetRestrictions (lo hi : string) (availableDays : list string)
    (d : DateInput) : DateInput :=
  {| date_value := date_value d; date_disabled := date_disabled d; date_min := lo;
     date_max := hi; date_validation := Some availableDays |}.

(** Controller state: the loaded patient and the page. *)
Record App := {
  currentPatient : option Patient;
  form : Form
}.

(** ** Host environment

    What the controller obtains from the browser's [Date] and from the date
    input, taken as given: the clock, calendar arithmetic on time values
    (milliseconds), parsing and weekday naming of dates, and the check that
    a date input applies to an assigned value. *)
Record Browser := {
  (** [new Date()] *)
  now : Z;
  (** [d.setFullYear(d.getFullYear() - n)] *)
  yearsBefore : Z -> Z -> Z;
  (** [d.setHours(0, 0, 0, 0)] *)
  startOfDay : Z -> Z;
  (** [d.setDate(d.getDate() + n)] *)
  addDays : Z -> Z -> Z;
  (** [d.setMonth(d.getMonth() + n)] *)
  addMonths : Z -> Z -> Z;
  (** [d.toISOString().split('T')[0]] *)
  toISODate : Z -> string;
  (** [new Date(s)]: its time value, [None] for an invalid date *)
  dateTime : string -> option Z;
  (** [d.toLocaleDateString('en-US', { weekday: 'long' })] *)
  weekdayLong : option Z -> string;
  (** a date input keeps an assigned value only if it is a valid date
      string, and otherwise becomes empty *)
  validDateString : string -> bool;
  (** [form.reset()] *)
  resetForm : Form -> Form
}.

(** ** Effects *)

Inductive LogMsg :=
| ErrorDisplayed (message : string)
| SuccessMessage (message : string)
| FormCleared
| DoctorSelected (doctorName : string)
| AutoSetType (v : string)
| LocationNotAutoSet (doctorName : string)
| AutoSetLocation (loc doctorName : string)
| NoAvailabilityData (doctorName : string)
| DateRestrictionsSet (doctorName : string) (availableDays : list string)
| ValidDateSelected (doctorName selectedDate dayName : string)
| AutoSetLocationForHouse (dayName loc : string)
| GeneratedTimeSlots (n : nat) (doctorName hoursStart hoursEnd : string)
| UpdatingForm (formUpdates : list (string * string))
| TryingToUpdate (field v : string)
| FoundElement (field current : string)
| FuzzyMatched (v matched : string)
| NoFuzzyMatch (v : string)
| EnabledDateField
| DateFieldSet (v : string) (disabled : bool)
| EnabledTimeField
| UpdatedField (field v : string)
| FieldNotFound (field : string)
| TriggeringDoctorHandler
| SkippingDoctorHandler
| TriggeringDateHandler
| RestoredTime (aiSetTime : string)
| UpdatedFormFields (fields : list string)
| ExactMatchFound (searchValue : string)
| CaseInsensitiveMatchFound (searchValue : string)
| SubstringMatchFound (searchValue text : string)
| ReverseSubstringMatchFound (text searchValue : string)
| NoMatchFound (searchValue : string) (texts : list string)
| BookingAppointment (data : list (string * string))
| PatientInfoPrefilled
| UserMessageSent (message : string)
| RawResponseObject
| AssistantResponseReceived
| FormUpdatesDetected (formUpdates : list (string * string))
| NoFormUpdatesFound
| ErrorInChat.

Inductive Event :=
| Log (m : LogMsg)                          (* [logActivity] *)
| Alert (message : string)                  (* [alert] *)
| Notification (fields : list string)       (* [showFormUpdateNotification] *)
| ChatMessage (sender content : string).    (* [addMessage] *)

(** How a call ends: normally with a value, or by a [TypeError] raised when
    a property of [undefined] is read. *)
Inductive Completion (A : Type) :=
| Normal (a : A)
| Thrown.

Arguments Normal {A} a.
Arguments Thrown {A}.

(** A computation reads and writes the controller state and emits events. *)
Definition M (A : Type) : Type := App -> Completion A * App * list Event.

Definition ret {A : Type} (a : A) : M A := fun s => (Normal a, s, []).

Definition bind {A B : Type} (m : M A) (k : A -> M B) : M B :=
  fun s =>
    match m s with
    | (Normal a, s', ev) =>
        match k a s' with
        | (r, s'', ev') => (r, s'', (ev ++ ev')%list)
        end
    | (Thrown, s', ev) => (Thrown, s', ev)
    end.

Definition throwTypeError {A : Type} : M A := fun s => (Thrown, s, []).

Definition emit (e : Event) : M unit := fun s => (Normal tt, s, [e]).

Definition getForm : M Form := fun s => (Normal (form s), s, []).

Definition getPatient : M (option Patient) := fun s => (Normal (currentPatient s), s, []).

Definition modifyForm (g : Form -> Form) : M unit :=
  fun s => (Normal tt, {| currentPatient := currentPatient s; form := g (form s) |}, []).

Definition when (b : bool) (m : M unit) : M unit := if b then m else ret tt.

Declare Scope js_scope.
Delimit Scope js_scope with js.
Notation "x <- m ;; k" := (bind m (fun x => k))
  (at level 61, m at next level, right associativity) : js_scope.
Notation "m ;; k" := (bind m (fun _ => k))
  (at level 61, right associativity) : js_scope.
Local Open Scope js_scope.

(** The three projections of a run. *)
Definition completion {A : Type} (r : Completion A * App * list Event) : Completion A :=
  fst (fst r).
Definition finalState {A : Type} (r : Completion A * App * list Event) : App :=
  snd (fst r).
Definition events {A : Type} (r : Completion A * App * list Event) : list Event :=
  snd r.

Definition logActivity (m : LogMsg) : M unit := emit (Log m).

Definition showError (message : string) : M unit :=
  logActivity (ErrorDisplayed message) ;;
  emit (Alert message).

Definition showSuccessMessage (message : string) : M unit :=
  logActivity (SuccessMessage message) ;;
  emit (Alert message).

(** ** Elements addressed by id *)

Inductive Element :=
| FirstNameEl | LastNameEl | DobEl | DoctorEl | TypeEl | LocationEl | DateEl | TimeEl
| OtherEl (id : string).

Inductive Tag := SELECT | INPUT | OTHER.

(** [document.getElementById(id)], [None] for [null]. *)
Definition getElementById (id : string) (f : Form) : option Element :=
  if String.eqb id "first-name" then Some FirstNameEl
  else if String.eqb id "last-name" then Some LastNameEl
  else if String.eqb id "dob" then Some DobEl
  else if String.eqb id "doctor" then Some DoctorEl
  else if String.eqb id "appointment-type" then Some TypeEl
  else if String.eqb id "appointment-location" then Some LocationEl
  else if String.eqb id "appointment-date" then Some DateEl
  else if String.eqb id "appointment-time" then Some TimeEl
  else if existsb (fun p => String.eqb (fst p) id) (others f) then Some (OtherEl id)
  else None.

Definition tagName (e : Element) : Tag :=
  match e with
  | DoctorEl | TypeEl | LocationEl | TimeEl => SELECT
  | FirstNameEl | LastNameEl | DobEl | DateEl => INPUT
  | OtherEl _ => OTHER
  end.

Definition isSelect (t : Tag) : bool :=
  match t with SELECT => true | _ => false end.

(** [element.value] *)
Definition elementValue (e : Element) (f : Form) : string :=
  match e with
  | FirstNameEl => first_name f
  | LastNameEl => last_name f
  | DobEl => dob f
  | DoctorEl => sel_value (doctor f)
  | TypeEl => sel_value (appointment_type f)
  | LocationEl => sel_value (appointment_location f)
  | DateEl => date_value (appointment_date f)
  | TimeEl => sel_value (appointment_time f)
  | OtherEl id => match lookup id (others f) with Some v => v | None => "" end
  end.

(** [element.options] *)
Definition elementOptions (e : Element) (f : Form) : list OptionEl :=
  match e with
  | DoctorEl => options (doctor f)
  | TypeEl => options (appointment_type f)
  | LocationEl => options (appointment_location f)
  | TimeEl => options (appointment_time f)
  | _ => []
  end.

(** [element.disabled]; the flag is followed for the date and the time
    field, the only ones the controller disables. *)
Definition elementDisabled (e : Element) (f : Form) : bool :=
  match e with
  | DateEl => date_disabled (appointment_date f)
  | TimeEl => sel_disabled (appointment_time f)
  | _ => false
  end.

Definition elementSetDisabled (e : Element) (b : bool) (f : Form) : Form :=
  match e with
  | DateEl => with_date (dateSetDisabled b (appointment_date f)) f
  | TimeEl => with_time (selectSetDisabled b (appointment_time f)) f
  | _ => f
  end.

Fixpoint assign (key v : string) (obj : list (string * string)) : list (string * string) :=
  match obj with
  | [] => []
  | (k, w) :: rest =>
      if String.eqb k key then (k, v) :: rest else (k, w) :: assign key v rest
  end.

Section Controller.

Variable browser : Browser.

(** What a date input holds after [input.value = v]. *)
Definition sanitizeDate (v : string) : string :=
  if validDateString browser v then v else "".

(** [element.value = v] *)
Definition elementSetValue (e : Element) (v : string) (f : Form) : Form :=
  match e with
  | FirstNameEl => with_first_name (JS.stripLineBreaks v) f
  | LastNameEl => with_last_name (JS.stripLineBreaks v) f
  | DobEl => with_dob (sanitizeDate v) f
  | DoctorEl => with_doctor (selectSetValue v (doctor f)) f
  | TypeEl => with_type (selectSetValue v (appointment_type f)) f
  | LocationEl => with_location (selectSetValue v (appointment_location f)) f
  | DateEl => with_date (dateSet (sanitizeDate v) (appointment_date f)) f
  | TimeEl => with_time (selectSetValue v (appointment_time f)) f
  | OtherEl id => with_others (assign id v (others f)) f
  end.

(** [new Date(s).toLocaleDateString('en-US', { weekday: 'long' }).toLowerCase()] *)
Definition dayNameOf (selectedDate : string) : string :=
  JS.toLowerCase (weekdayLong browser (dateTime browser selectedDate)).

(** *** Submission *)

Definition getAppointmentFormData (f : Form) : list (string * string) :=
  [ ("firstName", JS.trim (first_name f));
    ("lastName", JS.trim (last_name f));
    ("dob", dob f);
    ("doctor", sel_value (doctor f));
    ("appointmentType", sel_value (appointment_type f));
    ("location", sel_value (appointment_location f));
    ("date", date_value (appointment_date f));
    ("time", sel_value (appointment_time f)) ].

Definition required : list string :=
  ["firstName"; "lastName"; "dob"; "doctor"; "appointmentType"; "location"; "date"; "time"].

(** Truthiness of [data[field]]; [undefined] is falsy. *)
Definition truthyProp (data : list (string * string)) (field : string) : bool :=
  match lookup field data with
  | Some v => JS.truthy v
  | None => false
  end.

Definition missingFields (data : list (string * string)) : list string :=
  filter (fun field => negb (truthyProp data field)) required.

(** [new Date(data.date) < today], false when the date is invalid. *)
Definition dateIsPast (data : list (string * string)) : bool :=
  let appointmentDate :=
    match lookup "date" data with
    | Some d => dateTime browser d
    | None => None
    end in
  let today := startOfDay browser (now browser) in
  match appointmentDate with
  | Some t => t <? today
  | None => false
  end.

Definition validateAppointmentForm (data : list (string * string)) : M bool :=
  let missing := missingFields data in
  if Nat.ltb 0 (List.length missing) then
    showError ("Please fill in all required fields: " ++ JS.join ", " missing) ;;
    ret false
  else if dateIsPast data then
    showError "Appointment date cannot be in the past" ;;
    ret false
  else ret true.

Definition timePlaceholder (text : string) : list OptionEl :=
  [ {| value := ""; textContent := text |} ].

Definition clearAppointmentForm : M unit :=
  modifyForm (resetForm browser) ;;
  modifyForm (fun f => with_date (dateSetDisabled true (appointment_date f)) f) ;;
  modifyForm (fun f => with_time (selectSetDisabled true (appointment_time f)) f) ;;
  modifyForm (fun f =>
    with_time (selectSetInnerHTML (timePlaceholder "Select time") (appointment_time f)) f) ;;
  logActivity FormCleared.

(** The answer of the booking service. *)
Record BookingResponse := {
  success : bool;
  appointmentId : string;
  error : option string
}.

(** [formData.field] inside a template string. *)
Definition prop (data : list (string * string)) (field : string) : string :=
  match lookup field data with Some v => v | None => "undefined" end.

(** The duration announced for a booked appointment. *)
Definition appointmentDuration (appointmentType : string) : string :=
  if String.eqb appointmentType "NEW" then "30" else "15".

(** [bookAppointment], with the awaited answer of the booking service as
    an argument. *)
Definition bookAppointment (response : BookingResponse) : M unit :=
  f <- getForm ;;
  let formData := getAppointmentFormData f in
  valid <- validateAppointmentForm formData ;;
  if negb valid then ret tt
  else
    logActivity (BookingAppointment formData) ;;
    if success response then
      showSuccessMessage
        ("Appointment booked successfully! Appointment ID: " ++ appointmentId response) ;;
      let duration := appointmentDuration (prop formData "appointmentType") in
      emit (ChatMessage "assistant"
        ("Great! I've successfully booked a " ++ prop formData "appointmentType"
         ++ " appointment for " ++ prop formData "firstName" ++ " "
         ++ prop formData "lastName" ++ " with " ++ prop formData "doctor"
         ++ " at " ++ prop formData "location" ++ " on " ++ prop formData "date"
         ++ " at " ++ prop formData "time" ++ " for " ++ duration ++ " minutes.")) ;;
      clearAppointmentForm
    else
      showError (match error response with
                 | Some e => if JS.truthy e then e else "Failed to book appointment"
                 | None => "Failed to book appointment"
                 end).

(** *** Provider selection *)

(** The callback of [appointments?.some(...)]: the entry names the
    doctor's family name and is dated no earlier than five years ago. *)
Definition seenWithinFiveYears (doctorName : string) (apt : Appointment) : bool :=
  let aptDate := dateTime browser (apt_date apt) in
  let fiveYearsAgo := yearsBefore browser 5 (now browser) in
  andb (JS.includes (apt_provider apt) (hd "" (JS.split "," doctorName)))
       match aptDate with
       | Some t => fiveYearsAgo <=? t
       | None => false
       end.

(** [hasSeenDoctor]; an absent [appointments] gives [undefined], which is
    falsy. *)
Definition hasSeenDoctor (p : Patient) (doctorName : string) : bool :=
  match appointments p with
  | Some apts => existsb (seenWithinFiveYears doctorName) apts
  | None => false
  end.

Definition autoSetAppointmentType (doctorName : string) : M unit :=
  patient <- getPatient ;;
  match patient with
  | None => ret tt
  | Some p =>
      (if hasSeenDoctor p doctorName then
         modifyForm (fun f => with_type (selectSetValue "ESTABLISHED" (appointment_type f)) f)
       else
         modifyForm (fun f => with_type (selectSetValue "NEW" (appointment_type f)) f)) ;;
      f <- getForm ;;
      logActivity (AutoSetType (sel_value (appointment_type f)))
  end.

Definition doctorLocationMap : list (string * string) :=
  [ ("Grey, Meredith", "Sloan Primary Care");
    ("Yang, Cristina", "Seattle Grace Cardiac Surgery");
    ("Perry, Chris", "Sacred Heart Surgical Department");
    ("Brennan, Temperance", "Jefferson Hospital") ].

Definition autoSetLocation (doctorName : string) : M unit :=
  if String.eqb doctorName "House, Gregory" then
    modifyForm (fun f => with_location (selectSetValue "" (appointment_location f)) f) ;;
    logActivity (LocationNotAutoSet doctorName)
  else
    match lookup doctorName doctorLocationMap with
    | Some loc =>
        if JS.truthy loc then
          modifyForm (fun f => with_location (selectSetValue loc (appointment_location f)) f) ;;
          logActivity (AutoSetLocation loc doctorName)
        else ret tt
    | None => ret tt
    end.

(** [setupDateRestrictions]; the help text below the input is
    presentation and is left out. *)
Definition setupDateRestrictions (doctorName : string) : M unit :=
  match lookup doctorName doctorAvailability with
  | None => logActivity (NoAvailabilityData doctorName)
  | Some availability =>
      let tomorrow := addDays browser 1 (now browser) in
      let maxDate := addMonths browser 3 (now browser) in
      modifyForm (fun f =>
        with_date (dateSetRestrictions (toISODate browser tomorrow)
                     (toISODate browser maxDate) (days availability)
                     (appointment_date f)) f) ;;
      logActivity (DateRestrictionsSet doctorName (days availability))
  end.

Definition handleDoctorSelection : M unit :=
  f <- getForm ;;
  let selectedDoctor := sel_value (doctor f) in
  if negb (JS.truthy selectedDoctor) then
    modifyForm (fun f => with_date (dateSetDisabled true (appointment_date f)) f) ;;
    modifyForm (fun f => with_time (selectSetDisabled true (appointment_time f)) f) ;;
    modifyForm (fun f => with_date (dateSet "" (appointment_date f)) f) ;;
    modifyForm (fun f =>
      with_time (selectSetInnerHTML (timePlaceholder "Select time") (appointment_time f)) f)
  else
    logActivity (DoctorSelected selectedDoctor) ;;
    autoSetAppointmentType selectedDoctor ;;
    autoSetLocation selectedDoctor ;;
    setupDateRestrictions selectedDoctor ;;
    modifyForm (fun f => with_date (dateSetDisabled false (appointment_date f)) f) ;;
    modifyForm (fun f =>
      with_time (selectSetInnerHTML (timePlaceholder "Select a date first")
                   (appointment_time f)) f) ;;
    modifyForm (fun f => with_time (selectSetDisabled true (appointment_time f)) f).

(** *** Date selection and time slots *)

(** [availability.schedule[0].hours]; [None] when the read fails. *)
Definition firstSegmentHours (availability : Availability) : option Hours :=
  match schedule availability with
  | Some (s :: _) => Some (seg_hours s)
  | _ => None
  end.

(** The [hours] that [generateTimeSlots] picks: the segment of the day for
    the split schedule (the first segment when no segment has the day),
    else the entry's own hours; [None] when a property of [undefined] is
    read on the way. *)
Definition slotHours (doctorName dayName : string) (availability : Availability)
  : option Hours :=
  if andb (String.eqb doctorName "House, Gregory") (JS.truthy dayName) then
    match schedule availability with
    | None => None
    | Some segments =>
        match scheduleForDay segments dayName with
        | Some s => Some (seg_hours s)
        | None => firstSegmentHours availability
        end
    end
  else
    match hours availability with
    | Some h => Some h
    | None => firstSegmentHours availability
    end.

(** A value that must be defined: reading through [undefined] throws. *)
Definition defined {A : Type} (o : option A) : M A :=
  match o with
  | Some a => ret a
  | None => throwTypeError
  end.

Definition slotOption (slot : string) : OptionEl :=
  {| value := slot; textContent := slot |}.

(** The slot list for the given hours. *)
Definition slotsOf (h : Hours) : list string :=
  slotsBetween (parseTime (start h)) (parseTime (finish h)).

Definition generateTimeSlots (doctorName dayName : string) : M unit :=
  match lookup doctorName doctorAvailability with
  | None => ret tt
  | Some availability =>
      modifyForm (fun f =>
        with_time (selectSetInnerHTML (timePlaceholder "Select time") (appointment_time f)) f) ;;
      hours <- defined (slotHours doctorName dayName availability) ;;
      let slots := slotsOf hours in
      modifyForm (fun f =>
        with_time (fold_left (fun el slot => selectAppend (slotOption slot) el)
                     slots (appointment_time f)) f) ;;
      modifyForm (fun f => with_time (selectSetDisabled false (appointment_time f)) f) ;;
      logActivity (GeneratedTimeSlots (List.length slots) doctorName (start hours) (finish hours))
  end.

(** The time select after slot generation for the hours [h]. *)
Definition regenerated (h : Hours) : SelectEl :=
  {| options := (timePlaceholder "Select time" ++ map slotOption (slotsOf h))%list;
     sel_value := "";
     sel_disabled := false |}.

Definition handleDateSelection : M unit :=
  f <- getForm ;;
  let selectedDoctor := sel_value (doctor f) in
  let selectedDate := date_value (appointment_date f) in
  if orb (negb (JS.truthy selectedDoctor)) (negb (JS.truthy selectedDate)) then ret tt
  else
    let dayName := dayNameOf selectedDate in
    match lookup selectedDoctor doctorAvailability with
    | None => throwTypeError
    | Some availability =>
        if negb (arrayIncludes (days availability) dayName) then
          showError (selectedDoctor ++ " is not available on " ++ dayName
                     ++ "s. Available days: " ++ JS.join ", " (days availability)) ;;
          modifyForm (fun f => with_date (dateSet "" (appointment_date f)) f) ;;
          modifyForm (fun f => with_time (selectSetDisabled true (appointment_time f)) f)
        else
          logActivity (ValidDateSelected selectedDoctor selectedDate dayName) ;;
          (if String.eqb selectedDoctor "House, Gregory" then
             match schedule availability with
             | None => throwTypeError
             | Some segments =>
                 match scheduleForDay segments dayName with
                 | Some s =>
                     modifyForm (fun f =>
                       with_location
                         (selectSetValue (seg_location s) (appointment_location f)) f) ;;
                     logActivity (AutoSetLocationForHouse dayName (seg_location s))
                 | None => ret tt
                 end
             end
           else ret tt) ;;
          generateTimeSlots selectedDoctor dayName
    end.

(** *** Fuzzy matching of an option *)

Definition exactMatch (searchValue : string) (o : OptionEl) : bool :=
  orb (String.eqb (value o) searchValue) (String.eqb (textContent o) searchValue).

Definition caseInsensitiveMatch (searchValue : string) (o : OptionEl) : bool :=
  orb (String.eqb (JS.toLowerCase (value o)) (JS.toLowerCase searchValue))
      (String.eqb (JS.toLowerCase (textContent o)) (JS.toLowerCase searchValue)).

Definition substringMatch (searchValue : string) (o : OptionEl) : bool :=
  orb (JS.includes (JS.toLowerCase (value o)) (JS.toLowerCase searchValue))
      (JS.includes (JS.toLowerCase (textContent o)) (JS.toLowerCase searchValue)).

Definition reverseSubstringMatch (searchValue : string) (o : OptionEl) : bool :=
  orb (JS.includes (JS.toLowerCase searchValue) (JS.toLowerCase (value o)))
      (JS.includes (JS.toLowerCase searchValue) (JS.toLowerCase (textContent o))).

Definition findMatchingOption (opts : list OptionEl) (searchValue : string)
  : M (option OptionEl) :=
  match find (exactMatch searchValue) opts with
  | Some m => logActivity (ExactMatchFound searchValue) ;; ret (Some m)
  | None =>
  match find (caseInsensitiveMatch searchValue) opts with
  | Some m => logActivity (CaseInsensitiveMatchFound searchValue) ;; ret (Some m)
  | None =>
  match find (substringMatch searchValue) opts with
  | Some m =>
      logActivity (SubstringMatchFound searchValue (textContent m)) ;; ret (Some m)
  | None =>
  match find (reverseSubstringMatch searchValue) opts with
  | Some m =>
      logActivity (ReverseSubstringMatchFound (textContent m) searchValue) ;; ret (Some m)
  | None =>
      logActivity (NoMatchFound searchValue (map textContent opts)) ;; ret None
  end end end end.

(** *** Applying a batch of updates *)

(** The local variables of [updateAppointmentForm] that the first pass
    fills in. *)
Record Locals := {
  updatedFields : list string;
  needsDoctorHandler : bool;
  needsDateHandler : bool
}.

(** The body of the first pass for one entry of the batch.  The green
    flash of the element is presentation and is left out. *)
Definition updateField (acc : Locals) (entry : string * string) : M Locals :=
  let field := fst entry in
  let v := snd entry in
  logActivity (TryingToUpdate field v) ;;
  f <- getForm ;;
  match getElementById field f with
  | Some element =>
      logActivity (FoundElement field (elementValue element f)) ;;
      (if andb (isSelect (tagName element))
               (orb (String.eqb field "appointment-location") (String.eqb field "doctor"))
       then
         matchedOption <- findMatchingOption (elementOptions element f) v ;;
         match matchedOption with
         | Some o =>
             modifyForm (elementSetValue element (value o)) ;;
             logActivity (FuzzyMatched v (value o))
         | None =>
             modifyForm (elementSetValue element v) ;;
             logActivity (NoFuzzyMatch v)
         end
       else if String.eqb field "appointment-date" then
         when (elementDisabled element f)
              (modifyForm (elementSetDisabled element false) ;;
               logActivity EnabledDateField) ;;
         modifyForm (elementSetValue element v) ;;
         f' <- getForm ;;
         logActivity (DateFieldSet (elementValue element f') (elementDisabled element f'))
       else
         modifyForm (elementSetValue element v)) ;;
      f1 <- getForm ;;
      when (andb (String.eqb field "appointment-time") (elementDisabled element f1))
           (modifyForm (elementSetDisabled element false) ;;
            logActivity EnabledTimeField) ;;
      f2 <- getForm ;;
      logActivity (UpdatedField field (elementValue element f2)) ;;
      ret {| updatedFields := (updatedFields acc ++ [field])%list;
             needsDoctorHandler :=
               if String.eqb field "doctor" then true else needsDoctorHandler acc;
             needsDateHandler :=
               if String.eqb field "doctor" then needsDateHandler acc
               else if String.eqb field "appointment-date" then true
               else needsDateHandler acc |}
  | None =>
      logActivity (FieldNotFound field) ;;
      ret acc
  end.

(** [Object.entries(formUpdates).forEach(...)] *)
Fixpoint firstPass (acc : Locals) (entries : list (string * string)) : M Locals :=
  match entries with
  | [] => ret acc
  | entry :: rest =>
      acc' <- updateField acc entry ;;
      firstPass acc' rest
  end.

(** The second pass, rule by rule: the doctor rule, then the date rule,
    then the notification. *)
Definition doctorRule (formUpdates : list (string * string)) (acc : Locals) : M unit :=
  if andb (needsDoctorHandler acc) (negb (truthyProp formUpdates "appointment-location"))
  then
    logActivity TriggeringDoctorHandler ;;
    handleDoctorSelection
  else if needsDoctorHandler acc then
    logActivity SkippingDoctorHandler ;;
    f <- getForm ;;
    when (JS.truthy (sel_value (doctor f)))
         (setupDateRestrictions (sel_value (doctor f)) ;;
          modifyForm (fun f => with_date (dateSetDisabled false (appointment_date f)) f))
  else ret tt.

Definition dateRule (formUpdates : list (string * string)) (acc : Locals) : M unit :=
  if needsDateHandler acc then
    logActivity TriggeringDateHandler ;;
    let aiSetTime := lookup "appointment-time" formUpdates in
    handleDateSelection ;;
    match aiSetTime with
    | Some t =>
        when (JS.truthy t)
             (modifyForm (elementSetValue TimeEl t) ;;
              logActivity (RestoredTime t))
    | None => ret tt
    end
  else ret tt.

Definition notifyUpdated (acc : Locals) : M unit :=
  when (Nat.ltb 0 (List.length (updatedFields acc)))
       (emit (Notification (updatedFields acc)) ;;
        logActivity (UpdatedFormFields (updatedFields acc))).

Definition secondPass (formUpdates : list (string * string)) (acc : Locals) : M unit :=
  doctorRule formUpdates acc ;;
  dateRule formUpdates acc ;;
  notifyUpdated acc.

(** [formUpdates] is the list of the entries of the object, in the order
    of [Object.entries], for an object whose values are strings.  What
    the code does with a value that is not a string, such as the
    [TypeError] of [toLowerCase] in the matcher on a null or a number, is
    not part of this model. *)
Definition updateAppointmentForm (formUpdates : list (string * string)) : M unit :=
  logActivity (UpdatingForm formUpdates) ;;
  acc <- firstPass {| updatedFields := []; needsDoctorHandler := false;
                      needsDateHandler := false |} formUpdates ;;
  secondPass formUpdates acc.

(** *** The first pass read as a function on the form

    [matchedOption] is the option [findMatchingOption] returns,
    [applyEntry] the form [updateField] leaves and [stepLocals] the local
    variables after it; [updateField_run] proves that they are. *)

Definition matchedOption (opts : list OptionEl) (searchValue : string) : option OptionEl :=
  match find (exactMatch searchValue) opts with
  | Some m => Some m
  | None =>
  match find (caseInsensitiveMatch searchValue) opts with
  | Some m => Some m
  | None =>
  match find (substringMatch searchValue) opts with
  | Some m => Some m
  | None => find (reverseSubstringMatch searchValue) opts
  end end end.

Definition applyEntry (entry : string * string) (f : Form) : Form :=
  let field := fst entry in
  let v := snd entry in
  match getElementById field f with
  | Some element =>
      let f1 :=
        if andb (isSelect (tagName element))
                (orb (String.eqb field "appointment-location") (String.eqb field "doctor"))
        then
          match matchedOption (elementOptions element f) v with
          | Some o => elementSetValue element (value o) f
          | None => elementSetValue element v f
          end
        else if String.eqb field "appointment-date" then
          elementSetValue element v
            (if elementDisabled element f then elementSetDisabled element false f else f)
        else elementSetValue element v f in
      if andb (String.eqb field "appointment-time") (elementDisabled element f1)
      then elementSetDisabled element false f1
      else f1
  | None => f
  end.

Definition stepLocals (acc : Locals) (field : string) (f : Form) : Locals :=
  match getElementById field f with
  | Some _ =>
      {| updatedFields := (updatedFields acc ++ [field])%list;
         needsDoctorHandler :=
           if String.eqb field "doctor" then true else needsDoctorHandler acc;
         needsDateHandler :=
           if String.eqb field "doctor" then needsDateHandler acc
           else if String.eqb field "appointment-date" then true
           else needsDateHandler acc |}
  | None => acc
  end.

(** The form and the local variables after the entries of a batch. *)
Fixpoint applyEntries (entries : list (string * string)) (f : Form) : Form :=
  match entries with
  | [] => f
  | entry :: rest => applyEntries rest (applyEntry entry f)
  end.

Fixpoint stepAll (acc : Locals) (entries : list (string * string)) (f : Form) : Locals :=
  match entries with
  | [] => acc
  | entry :: rest => stepAll (stepLocals acc (fst entry) f) rest (applyEntry entry f)
  end.

End Controller.

(** The state with another form. *)
Definition setForm (f : Form) (s : App) : App :=
  {| currentPatient := currentPatient s; form := f |}.

(** The user picks [d] in the date input; the change handler runs on the
    resulting state. *)
Definition dateInputChanged (d : string) (s : App) : App :=
  setForm (with_date (dateSet d (appointment_date (form s))) (form s)) s.

Definition emptyLocals : Locals :=
  {| updatedFields := []; needsDoctorHandler := false; needsDateHandler := false |}.

(** ** A reference environment

    A browser whose local time zone is UTC and whose [Date] parses ISO
    dates [YYYY-MM-DD] only, together with a page in the shape the
    controller expects.  They serve to run the controller on concrete
    inputs. *)

Module Reference.

(** Days from 1970-01-01 to the given civil date (proleptic Gregorian). *)
Definition daysFromCivil (y m d : Z) : Z :=
  let y' := if m <=? 2 then y - 1 else y in
  let era := y' / 400 in
  let yoe := y' - era * 400 in
  let mp := (m + 9) mod 12 in
  let doy := (153 * mp + 2) / 5 + d - 1 in
  let doe := yoe * 365 + yoe / 4 - yoe / 100 + doy in
  era * 146097 + doe - 719468.

(** The civil date [(y, m, d)] of a day number. *)
Definition civilFromDays (z : Z) : Z * Z * Z :=
  let z' := z + 719468 in
  let era := z' / 146097 in
  let doe := z' - era * 146097 in
  let yoe := (doe - doe / 1460 + doe / 36524 - doe / 146096) / 365 in
  let doy := doe - (365 * yoe + yoe / 4 - yoe / 100) in
  let mp := (5 * doy + 2) / 153 in
  let d := doy - (153 * mp + 2) / 5 + 1 in
  let m := if mp <? 10 then mp + 3 else mp - 9 in
  let y := yoe + era * 400 in
  ((if m <=? 2 then y + 1 else y), m, d).

Definition msPerDay : Z := 86400000.

Definition isLeap (y : Z) : bool :=
  andb (y mod 4 =? 0) (orb (negb (y mod 100 =? 0)) (y mod 400 =? 0)).

Definition daysInMonth (y m : Z) : Z :=
  if m =? 2 then (if isLeap y then 29 else 28)
  else if orb (orb (m =? 4) (m =? 6)) (orb (m =? 9) (m =? 11)) then 30
  else 31.

(** [YYYY-MM-DD] to a civil date. *)
Definition parseISO (s : string) : option (Z * Z * Z) :=
  match s with
  | String y1 (String y2 (String y3 (String y4 (String s1 (String m1 (String m2
      (String s2 (String d1 (String d2 EmptyString))))))))) =>
      if andb (forallb JS.isDigit [y1; y2; y3; y4; m1; m2; d1; d2])
              (andb (Ascii.eqb s1 "-") (Ascii.eqb s2 "-"))
      then
        let y := 1000 * JS.digitValue y1 + 100 * JS.digitValue y2
                 + 10 * JS.digitValue y3 + JS.digitValue y4 in
        let m := 10 * JS.digitValue m1 + JS.digitValue m2 in
        let d := 10 * JS.digitValue d1 + JS.digitValue d2 in
        if andb (andb (1 <=? y) (andb (1 <=? m) (m <=? 12)))
                (andb (1 <=? d) (d <=? daysInMonth y m))
        then Some (y, m, d) else None
      else None
  | _ => None
  end.

Definition timeOfCivil (c : Z * Z * Z) (msOfDay : Z) : Z :=
  match c with
  | (y, m, d) => daysFromCivil y m d * msPerDay + msOfDay
  end.

Definition weekdayNames : list string :=
  ["Sunday"; "Monday"; "Tuesday"; "Wednesday"; "Thursday"; "Friday"; "Saturday"].


Definition utc (clock : Z) : Browser :=
  {| now := clock;
     yearsBefore := fun n t =>
       match civilFromDays (t / msPerDay) with
       | (y, m, d) => timeOfCivil (y - n, m, d) (t mod msPerDay)
       end;
     startOfDay := fun t => t - t mod msPerDay;
     addDays := fun n t => t + n * msPerDay;
     addMonths := fun n t =>
       match civilFromDays (t / msPerDay) with
       | (y, m, d) =>
           let k := m - 1 + n in
           timeOfCivil (y + k / 12, k mod 12 + 1, d) (t mod msPerDay)
       end;
     toISODate := fun t =>
       match civilFromDays (t / msPerDay) with
       | (y, m, d) => JS.padStart 4 "0" (JS.toString y) ++ "-" ++ JS.pad2 m ++ "-" ++ JS.pad2 d
       end;
     dateTime := fun s => option_map (fun c => timeOfCivil c 0) (parseISO s);
     weekdayLong := fun t =>
       match t with
       | Some ms => nth (Z.to_nat ((ms / msPerDay + 4) mod 7)) weekdayNames "Invalid Date"
       | None => "Invalid Date"
       end;
     validDateString := fun s => match parseISO s with Some _ => true | None => false end;
     resetForm := fun f =>
       {| first_name := ""; last_name := ""; dob := "";
          doctor := selectSetInnerHTML (options (doctor f)) (doctor f);
          appointment_type := selectSetInnerHTML (options (appointment_type f))
                                (appointment_type f);
          appointment_location := selectSetInnerHTML (options (appointment_location f))
                                    (appointment_location f);
          appointment_date := dateSet "" (appointment_date f);
          appointment_time := selectSetInnerHTML (options (appointment_time f))
                                (appointment_time f);
          others := others f |} |}.

(** The browser of a time zone at the fixed offset of [zone] minutes east
    of UTC (negative to the west), without daylight saving.  Local time is
    UTC time plus the offset.  A date-only string is parsed as midnight
    UTC and [toISOString] prints the UTC date, as in [utc]; [setHours],
    [setDate], [setMonth], [setFullYear] and the weekday of
    [toLocaleDateString] work on local time. *)
Definition zoned (zone clock : Z) : Browser :=
  let offset := zone * 60000 in
  {| now := clock;
     yearsBefore := fun n t =>
       match civilFromDays ((t + offset) / msPerDay) with
       | (y, m, d) => timeOfCivil (y - n, m, d) ((t + offset) mod msPerDay) - offset
       end;
     startOfDay := fun t => t - (t + offset) mod msPerDay;
     addDays := fun n t => t + n * msPerDay;
     addMonths := fun n t =>
       match civilFromDays ((t + offset) / msPerDay) with
       | (y, m, d) =>
           let k := m - 1 + n in
           timeOfCivil (y + k / 12, k mod 12 + 1, d) ((t + offset) mod msPerDay) - offset
       end;
     toISODate := toISODate (utc clock);
     dateTime := dateTime (utc clock);
     weekdayLong := fun t =>
       match t with
       | Some ms =>
           nth (Z.to_nat (((ms + offset) / msPerDay + 4) mod 7)) weekdayNames "Invalid Date"
       | None => "Invalid Date"
       end;
     validDateString := validDateString (utc clock);
     resetForm := resetForm (utc clock) |}.

(** Monday 3 November 2025, 12:00 UTC. *)
Definition clock : Z := timeOfCivil (2025, 11, 3) 43200000.

Definition browser : Browser := utc clock.

Definition opt (v : string) : OptionEl := {| value := v; textContent := v |}.

Definition emptySelect (placeholder : string) (values : list string) : SelectEl :=
  {| options := {| value := ""; textContent := placeholder |} :: map opt values;
     sel_value := "";
     sel_disabled := false |}.

Definition page : Form :=
  {| first_name := "John"; last_name := "Doe"; dob := "1975-01-01";
     doctor := emptySelect "Select doctor" (map fst doctorAvailability);
     appointment_type := emptySelect "Select type" ["NEW"; "ESTABLISHED"];
     appointment_location :=
       emptySelect "Select location"
         ["Sloan Primary Care"; "PPTH Orthopedics"; "Jefferson Hospital";
          "Seattle Grace Cardiac Surgery"; "Sacred Heart Surgical Department"];
     appointment_date :=
       {| date_value := ""; date_disabled := true; date_min := ""; date_max := "";
          date_validation := None |};
     appointment_time :=
       {| options := [ {| value := ""; textContent := "Select time" |} ];
          sel_value := ""; sel_disabled := true |};
     others := [("patient-id", "1"); ("chat-input", "")] |}.

Definition johnDoe : Patient :=
  {| patient_name := "John Doe";
     appointments := Some
       [ {| apt_date := "2018-03-05"; apt_provider := "Dr. Meredith Grey";
            apt_status := "completed" |};
         {| apt_date := "2024-08-12"; apt_provider := "Dr. Gregory House";
            apt_status := "completed" |} ] |}.

Definition app : App := {| currentPatient := Some johnDoe; form := page |}.

(** The page once a doctor is selected. *)
Definition selected (doctorName : string) : App :=
  {| currentPatient := Some johnDoe;
     form := with_doctor (selectSetValue doctorName (doctor page)) page |}.

End Reference.

(** ** Specification-side notions

    Definitions that follow the wording of the specification; the theorems
    below compare them with the functions of the controller. *)

Module Spec.

(** [sub] occurs in [s]. *)
Definition isSubstring (sub s : string) : Prop :=
  exists pre post, s = pre ++ sub ++ post.

(** A zero-padded ["HH:MM"] with hours 00..23 and minutes 00..59. *)
Definition isHHMM (s : string) : bool :=
  match s with
  | String a (String b (String c (String d (String e EmptyString)))) =>
      andb (forallb JS.isDigit [a; b; d; e])
           (andb (Ascii.eqb c ":")
                 (andb (10 * JS.digitValue a + JS.digitValue b <=? 23)
                       (10 * JS.digitValue d + JS.digitValue e <=? 59)))
  | _ => false
  end.

(** Ceiling and floor of [n / 30]. *)
Definition ceil30 (n : Z) : Z := (n + 29) / 30.
Definition floor30 (n : Z) : Z := n / 30.

(** The length the specification gives for a slot sequence. *)
Definition statedLength (startTime endTime : Z) : Z :=
  if endTime <=? startTime then 0
  else if (endTime - startTime) mod 30 =? 0 then ceil30 (endTime - startTime)
  else floor30 (endTime - startTime).

(** The slots [start, start + 30, ...] below [endTime]. *)
Definition slotSequence (startTime endTime : Z) : list string :=
  map (fun i => formatTime (startTime + 30 * Z.of_nat i))
      (seq 0 (Z.to_nat (ceil30 (endTime - startTime)))).

(** The four tiers of the field matcher, for a candidate and an option. *)
Definition tier1 (c : string) (o : OptionEl) : Prop :=
  value o = c \/ textContent o = c.

Definition tier2 (c : string) (o : OptionEl) : Prop :=
  JS.toLowerCase (value o) = JS.toLowerCase c
  \/ JS.toLowerCase (textContent o) = JS.toLowerCase c.

Definition tier3 (c : string) (o : OptionEl) : Prop :=
  isSubstring (JS.toLowerCase c) (JS.toLowerCase (value o))
  \/ isSubstring (JS.toLowerCase c) (JS.toLowerCase (textContent o)).

Definition tier4 (c : string) (o : OptionEl) : Prop :=
  isSubstring (JS.toLowerCase (value o)) (JS.toLowerCase c)
  \/ isSubstring (JS.toLowerCase (textContent o)) (JS.toLowerCase c).

(** [o] is the first option of [opts], in catalogue order, with [P]. *)
Definition firstWith (P : OptionEl -> Prop) (opts : list OptionEl) (o : OptionEl) : Prop :=
  exists before after,
    opts = (before ++ o :: after)%list /\ P o /\ forall x, In x before -> ~ P x.

Definition noneWith (P : OptionEl -> Prop) (opts : list OptionEl) : Prop :=
  forall x, In x opts -> ~ P x.

(** The result the matcher must give. *)
Definition resolution (c : string) (opts : list OptionEl) (r : option OptionEl) : Prop :=
  match r with
  | Some o =>
      firstWith (tier1 c) opts o
      \/ (noneWith (tier1 c) opts /\ firstWith (tier2 c) opts o)
      \/ (noneWith (tier1 c) opts /\ noneWith (tier2 c) opts /\ firstWith (tier3 c) opts o)
      \/ (noneWith (tier1 c) opts /\ noneWith (tier2 c) opts /\ noneWith (tier3 c) opts
          /\ firstWith (tier4 c) opts o)
  | None =>
      noneWith (tier1 c) opts /\ noneWith (tier2 c) opts
      /\ noneWith (tier3 c) opts /\ noneWith (tier4 c) opts
  end.

(** [fam] is the part of [doctorName] before its first comma (all of it
    when there is none). *)
Definition familyName (doctorName fam : string) : Prop :=
  ~ isSubstring "," fam
  /\ (doctorName = fam \/ exists rest, doctorName = fam ++ "," ++ rest).

(** The history of a patient, empty when absent. *)
Definition history (p : Patient) : list Appointment :=
  match appointments p with Some l => l | None => [] end.

(** The entry is dated within five years of the clock of [b]. *)
Definition withinFiveYears (b : Browser) (apt : Appointment) : Prop :=
  exists t, dateTime b (apt_date apt) = Some t /\ yearsBefore b 5 (now b) <= t.

(** The field of the submitted data is empty or absent. *)
Definition emptyField (data : list (string * string)) (field : string) : Prop :=
  lookup field data = None \/ lookup field data = Some "".

(** The calendar day that the date string [YYYY-MM-DD] names, counted in
    days from 1 January 1970. *)
Definition dayNumber (date : string) : option Z :=
  match Reference.parseISO date with
  | Some (y, m, d) => Some (Reference.daysFromCivil y m d)
  | None => None
  end.

(** The weekday of a calendar day; 1 January 1970 was a Thursday. *)
Definition weekdayOfDay (n : Z) : string :=
  nth (Z.to_nat ((n + 4) mod 7)) Reference.weekdayNames "".

(** The calendar day that the instant [t] falls on for a clock [zone]
    minutes east of UTC: today, when [t] is now. *)
Definition localDay (zone t : Z) : Z := (t + zone * 60000) / Reference.msPerDay.


(** The events other than log lines. *)
Definition visible (evs : list Event) : list Event :=
  filter (fun e => match e with Log _ => false | _ => true end) evs.

End Spec.

(** ** Further functions of the controller *)

Section Further.

Variable browser : Browser.

(** The input listener that [addDateValidation] installs on the date
    input: the custom validity message it sets for the value [v], empty
    when the date is accepted.  The colours it sets are presentation. *)
Definition validateDate (availableDays : list string) (v : string) : string :=
  let dayName := dayNameOf browser v in
  if negb (arrayIncludes availableDays dayName)
  then "Doctor not available on " ++ dayName ++ "s"
  else "".

(** The date of birth for the date input, from [MM/DD/YYYY]:
    [[month, day, year] = dob.split('/')] and the template
    [`${year}-${month.padStart(2, '0')}-${day.padStart(2, '0')}`].
    [None] when [day] is [undefined] and [padStart] is read from it; a
    missing [year] prints as "undefined". *)
Definition convertDob (dob : string) : option string :=
  let parts := JS.split "/" dob in
  match nth_error parts 0, nth_error parts 1 with
  | Some month, Some day =>
      let year := match nth_error parts 2 with Some y => y | None => "undefined" end in
      Some (year ++ "-" ++ JS.padStart 2 "0" month ++ "-" ++ JS.padStart 2 "0" day)
  | _, _ => None
  end.

(** [prefillPatientInfo].  The name is split at spaces and its first two
    pieces are used; [dob] is the [dob] property of the patient record
    ([None] when absent), which [Patient] does not carry. *)
Definition prefillPatientInfo (dob : option string) : M unit :=
  patient <- getPatient ;;
  match patient with
  | None => ret tt
  | Some p =>
      let parts := JS.split " " (patient_name p) in
      modifyForm (elementSetValue browser FirstNameEl (nth 0 parts "")) ;;
      modifyForm (elementSetValue browser LastNameEl (nth 1 parts "")) ;;
      match dob with
      | Some d =>
          when (JS.truthy d)
               (iso <- defined (convertDob d) ;;
                modifyForm (elementSetValue browser DobEl iso))
      | None => ret tt
      end ;;
      logActivity PatientInfoPrefilled
  end.

(** [toLocaleDateString('en-US', { weekday: 'long', month: 'short',
    day: 'numeric' })] of a time value, as the browser prints it. *)
Variable formatDay : Z -> string.

(** The loop of [getNextAvailableDate] over the day offsets: the
    first day, counted from [tomorrow], whose weekday is available. *)
Fixpoint nextAvailableFrom (tomorrow : Z) (availableDays : list string) (offsets : list nat)
  : string :=
  match offsets with
  | [] => "Check calendar"
  | i :: rest =>
      let checkDate := addDays browser (Z.of_nat i) tomorrow in
      let dayName := JS.toLowerCase (weekdayLong browser (Some checkDate)) in
      if arrayIncludes availableDays dayName then formatDay checkDate
      else nextAvailableFrom tomorrow availableDays rest
  end.

Definition getNextAvailableDate (availableDays : list string) : string :=
  nextAvailableFrom (addDays browser 1 (now browser)) availableDays (seq 0 14).

(** *** A turn of the chat *)

(** [try { body } catch (error) { handler }]: the handler runs on the
    state the body left when it threw. *)
Definition tryCatch {A : Type} (body handler : M A) : M A :=
  fun s =>
    match body s with
    | (Thrown, s', ev) =>
        match handler s' with
        | (r, s'', ev') => (r, s'', (ev ++ ev')%list)
        end
    | r => r
    end.

(** What [sendChatMessage] resolves to: the reply of the chat service, or
    an object with [error] only when the request failed. *)
Record ChatResponse := {
  chat_error : option string;
  reply : string;
  form_updates : option (list (string * string))
}.

(** [addMessage]: the message appended to the chat. *)
Definition addMessage (sender content : string) : M unit :=
  emit (ChatMessage sender content).

(** [sendMessage], given what the chat service answers.  The request
    itself, with the log lines of [sendChatMessage], and the typing
    indicator are left out. *)
Definition sendMessage (response : ChatResponse) : M unit :=
  f <- getForm ;;
  input <- defined (getElementById "chat-input" f) ;;
  let message := JS.trim (elementValue input f) in
  if negb (JS.truthy message) then ret tt
  else
    patient <- getPatient ;;
    match patient with
    | None => showError "Please load a patient first"
    | Some _ =>
        addMessage "user" message ;;
        modifyForm (elementSetValue browser input "") ;;
        logActivity (UserMessageSent message) ;;
        tryCatch
          (logActivity RawResponseObject ;;
           if match chat_error response with Some e => JS.truthy e | None => false end
           then
             addMessage "assistant"
               ("Sorry, I encountered an error: "
                ++ match chat_error response with Some e => e | None => "" end)
           else
             addMessage "assistant" (reply response) ;;
             logActivity AssistantResponseReceived ;;
             match form_updates response with
             | Some formUpdates =>
                 logActivity (FormUpdatesDetected formUpdates) ;;
                 updateAppointmentForm browser formUpdates
             | None => logActivity NoFormUpdatesFound
             end)
          (logActivity ErrorInChat ;;
           addMessage "assistant"
             "Sorry, I encountered a connection error. Please try again.")
    end.

End Further.

(** The batch fields that name an element of the page, in batch order. *)
Definition foundFields (batch : list (string * string)) (f : Form) : list string :=
  filter (fun field => match getElementById field f with Some _ => true | None => false end)
         (map fst batch).

(** The doctor select offers, and holds, only doctors of the catalogue (or
    the empty value). *)
Definition catalogued (v : string) : bool :=
  orb (String.eqb v "")
      (match lookup v doctorAvailability with Some _ => true | None => false end).

Definition doctorsCatalogued (f : Form) : bool :=
  andb (catalogued (sel_value (doctor f)))
       (forallb (fun o => catalogued (value o)) (options (doctor f))).

(** All characters of the string are white space. *)
Fixpoint blank (s : string) : bool :=
  match s with
  | EmptyString => true
  | String c rest => andb (JS.isSpace c) (blank rest)
  end.

(** The string holds no occurrence of the character. *)
Fixpoint without (sep : ascii) (s : string) : bool :=
  match s with
  | EmptyString => true
  | String c rest => andb (negb (Ascii.eqb c sep)) (without sep rest)
  end.

(** * Theorems *)

(** ** Time of day: parsing and formatting *)

Section TimeOfDay.

Import JS.

Lemma isDigit_enum (c : ascii) : isDigit c = true -> In c digits.
Proof.
  destruct c as [[] [] [] [] [] [] [] []]; cbv; intros H;
    try discriminate H; tauto.
Qed.

Lemma isDigit_not_colon (c : ascii) : isDigit c = true -> Ascii.eqb c ":" = false.
Proof.
  intros H. apply isDigit_enum in H.
  repeat (destruct H as [<- | H]; [reflexivity |]). destruct H.
Qed.

Lemma twoDigits (a b : ascii) :
  isDigit a = true -> isDigit b = true ->
  let s := String a (String b EmptyString) in
  let n := 10 * digitValue a + digitValue b in
  0 <= n < 100 /\ JS.Number s = Some n /\ pad2 n = s.
Proof.
  intros Ha Hb.
  assert (Hall : forallb (fun x => forallb (twoDigitCheck x) digits) digits = true)
    by (vm_compute; reflexivity).
  rewrite forallb_forall in Hall.
  specialize (Hall a (isDigit_enum a Ha)). rewrite forallb_forall in Hall.
  specialize (Hall b (isDigit_enum b Hb)).
  unfold twoDigitCheck in Hall. apply andb_true_iff in Hall as [Hn Hp].
  cbv zeta. split; [| split].
  - apply isDigit_enum in Ha, Hb.
    assert (0 <= digitValue a <= 9)
      by (repeat (destruct Ha as [<- | Ha]; [cbv; split; discriminate |]); destruct Ha).
    assert (0 <= digitValue b <= 9)
      by (repeat (destruct Hb as [<- | Hb]; [cbv; split; discriminate |]); destruct Hb).
    lia.
  - destruct (JS.Number _) as [k |]; [| discriminate].
    apply Z.eqb_eq in Hn. now subst.
  - now apply String.eqb_eq.
Qed.

(** Every number below 100 prints as two digits. *)
Lemma pad2_digits (n : Z) :
  0 <= n < 100 ->
  exists a b, isDigit a = true /\ isDigit b = true
              /\ pad2 n = String a (String b EmptyString)
              /\ 10 * digitValue a + digitValue b = n.
Proof.
  intros Hn.
  assert (Hall : forallb (fun k =>
             match pad2 (Z.of_nat k) with
             | String a (String b EmptyString) =>
                 andb (andb (isDigit a) (isDigit b))
                      (10 * digitValue a + digitValue b =? Z.of_nat k)
             | _ => false
             end) (seq 0 100) = true) by (vm_compute; reflexivity).
  rewrite forallb_forall in Hall.
  specialize (Hall (Z.to_nat n)). rewrite Z2Nat.id in Hall by lia.
  assert (Hin : In (Z.to_nat n) (seq 0 100)) by (apply in_seq; lia).
  specialize (Hall Hin).
  destruct (pad2 n) as [| a [| b [| ? ?]]]; try discriminate.
  apply andb_true_iff in Hall as [Hd Hv]. apply andb_true_iff in Hd as [Ha Hb].
  exists a, b. repeat split; auto. now apply Z.eqb_eq.
Qed.

Lemma parseTime_HHMM (a b c d : ascii) :
  isDigit a = true -> isDigit b = true -> isDigit c = true -> isDigit d = true ->
  parseTime (String a (String b (String ":" (String c (String d EmptyString)))))
  = Some ((10 * digitValue a + digitValue b) * 60 + (10 * digitValue c + digitValue d)).
Proof.
  intros Ha Hb Hc Hd.
  destruct (twoDigits a b Ha Hb) as (_ & Hab & _).
  destruct (twoDigits c d Hc Hd) as (_ & Hcd & _).
  unfold parseTime. cbn [JS.split].
  rewrite (isDigit_not_colon a Ha), (isDigit_not_colon b Hb),
    (isDigit_not_colon c Hc), (isDigit_not_colon d Hd).
  cbn [Ascii.eqb Bool.eqb map nth_error].
  change (Ascii.eqb ":" ":") with true. cbn iota.
  cbn [map nth_error]. rewrite Hab, Hcd. reflexivity.
Qed.

Lemma formatTime_pad2 (h m : Z) :
  0 <= h -> 0 <= m < 60 -> formatTime (h * 60 + m) = pad2 h ++ ":" ++ pad2 m.
Proof.
  intros Hh Hm. unfold formatTime, pad2.
  rewrite Z.rem_mod_nonneg by lia.
  replace ((h * 60 + m) / 60) with h by (apply Z.div_unique with m; lia).
  replace ((h * 60 + m) mod 60) with m by (apply Z.mod_unique with h; lia).
  reflexivity.
Qed.

End TimeOfDay.

(** C10. Parsing and formatting a time of day are mutually inverse: a
    number of minutes from 0 to 1439 is recovered from its formatted text,
    and a zero-padded "HH:MM" text with hours 00..23 and minutes 00..59 is
    recovered from the minutes it parses to. *)
Theorem parse_format_inverse (m : Z) (s : string) :
  0 <= m <= 1439 ->
  Spec.isHHMM s = true ->
  parseTime (formatTime m) = Some m
  /\ option_map formatTime (parseTime s) = Some s.
Proof.
  intros Hm Hs. split.
  - assert (Hdm := Z.div_mod m 60 ltac:(lia)).
    assert (Hr := Z.mod_pos_bound m 60 ltac:(lia)).
    assert (Hq : 0 <= m / 60 < 100).
    { split; [apply Z.div_pos; lia | apply Z.div_lt_upper_bound; lia]. }
    replace m with (m / 60 * 60 + m mod 60) at 1 by lia.
    rewrite formatTime_pad2 by lia.
    destruct (pad2_digits (m / 60) Hq) as (a & b & Ha & Hb & -> & Hab).
    destruct (pad2_digits (m mod 60) ltac:(lia)) as (c & d & Hc & Hd & -> & Hcd).
    cbn [append]. rewrite parseTime_HHMM by assumption. f_equal. lia.
  - destruct s as [| a [| b [| c [| d [| e [| ? ?]]]]]]; try discriminate Hs.
    cbn [Spec.isHHMM forallb] in Hs.
    repeat (apply andb_true_iff in Hs; destruct Hs as [? Hs]).
    repeat match goal with
           | H : andb _ _ = true |- _ => apply andb_true_iff in H; destruct H
           end.
    match goal with H : Ascii.eqb c ":" = true |- _ => apply Ascii.eqb_eq in H; subst c end.
    rewrite parseTime_HHMM by assumption. cbn [option_map]. f_equal.
    destruct (twoDigits a b) as (? & _ & Hab); try assumption.
    destruct (twoDigits d e) as (? & _ & Hde); try assumption.
    rewrite formatTime_pad2 by lia. cbv zeta in Hab, Hde. rewrite Hab, Hde. reflexivity.
Qed.

Lemma parse_format_inverse_witness :
  parseTime (formatTime 570) = Some 570
  /\ option_map formatTime (parseTime "09:30") = Some "09:30".
Proof.
  apply (parse_format_inverse 570 "09:30"); [lia | reflexivity].
Defined.

(** ** Slot generation *)

Section Slots.

Lemma ceil30_step (s e : Z) :
  s < e -> Z.to_nat (Spec.ceil30 (e - s)) = S (Z.to_nat (Spec.ceil30 (e - (s + 30)))).
Proof.
  intros H. unfold Spec.ceil30.
  replace (e - s + 29) with (e - (s + 30) + 29 + 1 * 30) by lia.
  rewrite Z.div_add by lia.
  assert (0 <= (e - (s + 30) + 29) / 30) by (apply Z.div_pos; lia).
  lia.
Qed.

Lemma ceil30_nonpos (s e : Z) : e <= s -> Z.to_nat (Spec.ceil30 (e - s)) = 0%nat.
Proof.
  intros H. unfold Spec.ceil30.
  assert ((e - s + 29) / 30 <= 0); [| lia].
  assert ((e - s + 29) / 30 < 1); [| lia].
  apply Z.div_lt_upper_bound; lia.
Qed.

Lemma ceil30_le (s e : Z) :
  (Z.to_nat (Spec.ceil30 (e - s)) <= Z.to_nat (e - s))%nat.
Proof.
  destruct (Z_lt_le_dec s e) as [H | H].
  - unfold Spec.ceil30.
    assert ((e - s + 29) / 30 <= e - s); [| lia].
    apply Z.div_le_upper_bound; lia.
  - rewrite ceil30_nonpos by assumption. lia.
Qed.

Lemma slotSequence_step (s e : Z) :
  s < e -> Spec.slotSequence s e = formatTime s :: Spec.slotSequence (s + 30) e.
Proof.
  intros H. unfold Spec.slotSequence. rewrite ceil30_step by assumption.
  cbn [seq map]. f_equal.
  - f_equal. lia.
  - rewrite <- seq_shift, map_map. apply map_ext. intros i. f_equal. lia.
Qed.

Lemma slotSequence_empty (s e : Z) : e <= s -> Spec.slotSequence s e = [].
Proof.
  intros H. unfold Spec.slotSequence. now rewrite ceil30_nonpos.
Qed.

(** With enough fuel the loop yields the whole sequence. *)
Lemma slotLoop_enough (fuel : nat) :
  forall s e,
    (Z.to_nat (Spec.ceil30 (e - s)) <= fuel)%nat ->
    slotLoop fuel s e = Spec.slotSequence s e.
Proof.
  induction fuel as [| fuel IH]; intros s e Hfuel.
  - destruct (Z_lt_le_dec s e) as [H | H].
    + rewrite ceil30_step in Hfuel by assumption. lia.
    + now rewrite slotSequence_empty.
  - cbn [slotLoop]. destruct (Z.ltb_spec s e) as [H | H].
    + rewrite slotSequence_step by assumption. f_equal. apply IH.
      rewrite ceil30_step in Hfuel by assumption. lia.
    + now rewrite slotSequence_empty.
Qed.

Lemma timeSlots_sequence (s e : Z) : timeSlots s e = Spec.slotSequence s e.
Proof. apply slotLoop_enough, ceil30_le. Qed.

(** The fuel of [timeSlots] never runs out: the list obeys the equation
    of the [while] loop. *)
Lemma slotLoop_unfold (s e : Z) :
  timeSlots s e = if s <? e then formatTime s :: timeSlots (s + 30) e else [].
Proof.
  rewrite !timeSlots_sequence. destruct (Z.ltb_spec s e).
  - now apply slotSequence_step.
  - now apply slotSequence_empty.
Qed.

Lemma ceil30_floor30 (n : Z) :
  Spec.ceil30 n = Spec.floor30 n + (if n mod 30 =? 0 then 0 else 1).
Proof.
  unfold Spec.ceil30, Spec.floor30.
  assert (Hn := Z.div_mod n 30 ltac:(lia)).
  assert (Hr := Z.mod_pos_bound n 30 ltac:(lia)).
  destruct (Z.eqb_spec (n mod 30) 0) as [H0 | H0].
  - rewrite Z.add_0_r. apply eq_sym, Z.div_unique with 29; lia.
  - apply eq_sym, Z.div_unique with (n mod 30 - 1); lia.
Qed.

End Slots.

(** C4, as the code has it.  Slot generation starts at the segment's start
    and emits a slot every 30 minutes while the current time is strictly
    below the end; the sequence is empty when start >= end; and its length
    is the ceiling of (end - start) / 30 whenever start < end, which is one
    more than the stated length when (end - start) is not a multiple of
    30. *)
Theorem slot_generation (s e : Z) :
  timeSlots s e = (if s <? e then formatTime s :: timeSlots (s + 30) e else [])
  /\ timeSlots s e = Spec.slotSequence s e
  /\ Z.of_nat (List.length (timeSlots s e)) = (if s <? e then Spec.ceil30 (e - s) else 0)
  /\ Z.of_nat (List.length (timeSlots s e))
     = Spec.statedLength s e
       + (if andb (s <? e) (negb ((e - s) mod 30 =? 0)) then 1 else 0).
Proof.
  assert (Hlen : Z.of_nat (List.length (timeSlots s e))
                 = if s <? e then Spec.ceil30 (e - s) else 0).
  { rewrite timeSlots_sequence. unfold Spec.slotSequence.
    rewrite length_map, length_seq.
    destruct (Z.ltb_spec s e) as [H | H].
    - rewrite Z2Nat.id; [reflexivity |]. unfold Spec.ceil30. apply Z.div_pos; lia.
    - now rewrite ceil30_nonpos. }
  split; [apply slotLoop_unfold |].
  split; [apply timeSlots_sequence |].
  split; [exact Hlen |].
  rewrite Hlen. unfold Spec.statedLength.
  destruct (Z.ltb_spec s e) as [H | H]; destruct (Z.leb_spec e s) as [H' | H'];
    try (exfalso; lia); cbn [andb].
  - rewrite ceil30_floor30.
    destruct (Z.eqb_spec ((e - s) mod 30) 0); cbn [negb]; lia.
  - reflexivity.
Qed.

(** C4, as stated, fails on a segment from 09:00 to 09:45: two slots are
    generated where the stated length is the floor of 45 / 30. *)
Lemma slot_generation_counterexample :
  parseTime "09:00" = Some 540 /\ parseTime "09:45" = Some 585
  /\ slotsBetween (parseTime "09:00") (parseTime "09:45") = ["09:00"; "09:30"]
  /\ Spec.statedLength 540 585 = 1
  /\ Z.of_nat (List.length (timeSlots 540 585)) <> Spec.statedLength 540 585.
Proof.
  repeat split; try reflexivity. vm_compute. discriminate.
Qed.

(** ** Field matcher *)

Section FieldMatcher.

Lemma startsWith_spec (a b : string) :
  JS.startsWith b a = true <-> exists post, b = a ++ post.
Proof.
  revert b. induction a as [| c a IH]; intros b; cbn [JS.startsWith append].
  - split; [intros _; now exists b | reflexivity].
  - destruct b as [| d b].
    + split; [discriminate | intros [post H]; discriminate H].
    + rewrite andb_true_iff, Ascii.eqb_eq, IH. split.
      * intros [-> [post ->]]. now exists post.
      * intros [post H]. injection H as -> ->. split; [reflexivity | now exists post].
Qed.

Lemma includes_spec (s sub : string) :
  JS.includes s sub = true <-> Spec.isSubstring sub s.
Proof.
  unfold Spec.isSubstring. induction s as [| c s IH]; cbn [JS.includes].
  - rewrite orb_false_r, startsWith_spec. split.
    + intros [post H]. now exists EmptyString, post.
    + intros ([| ? ?] & post & H); [now exists post | discriminate H].
  - rewrite orb_true_iff, startsWith_spec, IH. split.
    + intros [[post H] | (pre & post & H)].
      * now exists EmptyString, post.
      * exists (String c pre), post. cbn [append]. now f_equal.
    + intros ([| d pre] & post & H).
      * left. now exists post.
      * right. exists pre, post. cbn [append] in H. congruence.
Qed.

Lemma find_first {A : Type} (p : A -> bool) (l : list A) (o : A) :
  find p l = Some o ->
  exists before after,
    l = (before ++ o :: after)%list /\ p o = true /\ forall x, In x before -> p x = false.
Proof.
  induction l as [| a l IH]; cbn [find]; [discriminate |].
  destruct (p a) eqn:Hpa.
  - intros [= ->]. exists [], l. repeat split; [assumption | intros x []].
  - intros H. destruct (IH H) as (before & after & -> & Hpo & Hbefore).
    exists (a :: before), after. repeat split; [assumption |].
    intros x [<- | Hx]; auto.
Qed.

Variable c : string.

Lemma exactMatch_spec o : exactMatch c o = true <-> Spec.tier1 c o.
Proof.
  unfold exactMatch, Spec.tier1. now rewrite orb_true_iff, !String.eqb_eq.
Qed.

Lemma caseInsensitiveMatch_spec o : caseInsensitiveMatch c o = true <-> Spec.tier2 c o.
Proof.
  unfold caseInsensitiveMatch, Spec.tier2. now rewrite orb_true_iff, !String.eqb_eq.
Qed.

Lemma substringMatch_spec o : substringMatch c o = true <-> Spec.tier3 c o.
Proof.
  unfold substringMatch, Spec.tier3. now rewrite orb_true_iff, !includes_spec.
Qed.

Lemma reverseSubstringMatch_spec o : reverseSubstringMatch c o = true <-> Spec.tier4 c o.
Proof.
  unfold reverseSubstringMatch, Spec.tier4. now rewrite orb_true_iff, !includes_spec.
Qed.

Lemma find_firstWith (p : OptionEl -> bool) (P : OptionEl -> Prop) opts o :
  (forall x, p x = true <-> P x) ->
  find p opts = Some o -> Spec.firstWith P opts o.
Proof.
  intros Hp H. destruct (find_first p opts o H) as (before & after & -> & Ho & Hb).
  exists before, after. repeat split; [now apply Hp |].
  intros x Hx HP. apply Hp in HP. rewrite (Hb x Hx) in HP. discriminate.
Qed.

Lemma find_noneWith (p : OptionEl -> bool) (P : OptionEl -> Prop) opts :
  (forall x, p x = true <-> P x) ->
  find p opts = None -> Spec.noneWith P opts.
Proof.
  intros Hp H x Hx HP. apply Hp in HP.
  rewrite (find_none p opts H x Hx) in HP. discriminate.
Qed.

End FieldMatcher.

(** C3. The matcher applies the four tiers in order (exact; exact up to
    case; candidate inside an option; an option inside the candidate), each
    on the value or the label; the first tier with a hit wins and gives the
    first option in catalogue order; the result is none when no tier hits.
    It leaves the form untouched.  Against the single option "Jefferson
    Hospital", "jefferson" resolves to it and "Mars Clinic" to none. *)
Theorem field_matcher_resolution (opts : list OptionEl) (c : string) (s : App) :
  let jefferson := {| value := "Jefferson Hospital"; textContent := "Jefferson Hospital" |} in
  (exists r, completion (findMatchingOption opts c s) = Normal r /\ Spec.resolution c opts r)
  /\ finalState (findMatchingOption opts c s) = s
  /\ completion (findMatchingOption [jefferson] "jefferson" s) = Normal (Some jefferson)
  /\ completion (findMatchingOption [jefferson] "Mars Clinic" s) = Normal None.
Proof.
  intros jefferson. split; [| split; [| split; reflexivity]].
  - unfold findMatchingOption.
    destruct (find (exactMatch c) opts) as [o |] eqn:H1.
    { exists (Some o). split; [reflexivity |]. left.
      eapply find_firstWith; eauto using exactMatch_spec. }
    apply (find_noneWith _ _ _ (exactMatch_spec c)) in H1.
    destruct (find (caseInsensitiveMatch c) opts) as [o |] eqn:H2.
    { exists (Some o). split; [reflexivity |]. right; left. split; [assumption |].
      eapply find_firstWith; eauto using caseInsensitiveMatch_spec. }
    apply (find_noneWith _ _ _ (caseInsensitiveMatch_spec c)) in H2.
    destruct (find (substringMatch c) opts) as [o |] eqn:H3.
    { exists (Some o). split; [reflexivity |]. right; right; left.
      repeat (split; [assumption |]).
      eapply find_firstWith; eauto using substringMatch_spec. }
    apply (find_noneWith _ _ _ (substringMatch_spec c)) in H3.
    destruct (find (reverseSubstringMatch c) opts) as [o |] eqn:H4.
    { exists (Some o). split; [reflexivity |]. right; right; right.
      repeat (split; [assumption |]).
      eapply find_firstWith; eauto using reverseSubstringMatch_spec. }
    apply (find_noneWith _ _ _ (reverseSubstringMatch_spec c)) in H4.
    exists None. split; [reflexivity |]. repeat split; assumption.
  - unfold findMatchingOption.
    destruct (find (exactMatch c) opts); [reflexivity |].
    destruct (find (caseInsensitiveMatch c) opts); [reflexivity |].
    destruct (find (substringMatch c) opts); [reflexivity |].
    destruct (find (reverseSubstringMatch c) opts); reflexivity.
Qed.

(** ** Availability catalogue *)

(** C8. For every provider of the catalogue with a split schedule, the
    combined working days are exactly the union of the segments' days, and
    each working day lies in exactly one segment, which is the one the
    schedule lookup returns. *)
Theorem split_schedule_unambiguous
    (name : string) (a : Availability) (segments : list Segment) :
  lookup name doctorAvailability = Some a ->
  schedule a = Some segments ->
  (forall d, In d (days a) <-> exists s, In s segments /\ In d (seg_days s))
  /\ (forall d, In d (days a) ->
        exists s, scheduleForDay segments d = Some s
                  /\ In s segments /\ In d (seg_days s)
                  /\ forall s', In s' segments -> In d (seg_days s') -> s' = s).
Proof.
  unfold doctorAvailability. cbn [lookup].
  repeat match goal with
         | |- context [String.eqb ?k name] => destruct (String.eqb k name)
         end;
    intros [= <-]; try discriminate; cbn [schedule days]; intros [= <-].
  split.
  - intros d. split.
    + intros Hd. cbn [In] in Hd.
      repeat (destruct Hd as [<- | Hd];
              [first [ eexists; split; [left; reflexivity | cbn; tauto]
                     | eexists; split; [right; left; reflexivity | cbn; tauto] ] |]).
      destruct Hd.
    + intros (s & Hs & Hd). cbn [In] in Hs.
      repeat (destruct Hs as [<- | Hs]; [cbn in Hd |- *; tauto |]). destruct Hs.
  - intros d Hd. cbn [In] in Hd.
    repeat (destruct Hd as [<- | Hd];
            [eexists; split; [reflexivity |];
             split; [cbn [In]; tauto |];
             split; [cbn; tauto |];
             intros s' Hs' Hin; cbn [In] in Hs';
             repeat (destruct Hs' as [<- | Hs']; [first [reflexivity | cbn in Hin; intuition discriminate] |]);
             destruct Hs' |]).
    destruct Hd.
Qed.

Lemma split_schedule_unambiguous_witness :
  exists a segments,
    lookup "House, Gregory" doctorAvailability = Some a
    /\ schedule a = Some segments
    /\ (forall d, In d (days a) <-> exists s, In s segments /\ In d (seg_days s))
    /\ (forall d, In d (days a) ->
          exists s, scheduleForDay segments d = Some s
                    /\ In s segments /\ In d (seg_days s)
                    /\ forall s', In s' segments -> In d (seg_days s') -> s' = s).
Proof.
  eexists. eexists. split; [reflexivity |]. split; [reflexivity |].
  eapply (split_schedule_unambiguous "House, Gregory"); reflexivity.
Defined.

(** ** Appointment type *)

Section Classifier.

Variable b : Browser.

Lemma no_comma_cons (c : ascii) (fam : string) :
  ~ Spec.isSubstring "," (String c fam) ->
  Ascii.eqb c "," = false /\ ~ Spec.isSubstring "," fam.
Proof.
  intros H. split.
  - destruct (Ascii.eqb_spec c ","%char) as [-> | Hne]; [| reflexivity].
    exfalso. apply H. now exists EmptyString, fam.
  - intros (pre & post & ->). apply H. now exists (String c pre), post.
Qed.

Lemma split_family (fam rest : string) :
  ~ Spec.isSubstring "," fam ->
  JS.split "," fam = [fam]
  /\ JS.split "," (fam ++ "," ++ rest) = fam :: JS.split "," rest.
Proof.
  induction fam as [| c fam IH]; intros H.
  - split; reflexivity.
  - apply no_comma_cons in H as [Hc Hfam]. destruct (IH Hfam) as [IH1 IH2].
    cbn [JS.split append]. rewrite Hc, IH1. cbn [append] in IH2. rewrite IH2.
    split; reflexivity.
Qed.

(** The piece before the first comma is the family name. *)
Lemma split_hd_familyName (doctorName fam : string) :
  Spec.familyName doctorName fam -> hd "" (JS.split "," doctorName) = fam.
Proof.
  intros [Hno [-> | [rest ->]]].
  - now rewrite (proj1 (split_family fam "" Hno)).
  - now rewrite (proj2 (split_family fam rest Hno)).
Qed.

Lemma seenWithinFiveYears_spec (doctorName fam : string) (apt : Appointment) :
  Spec.familyName doctorName fam ->
  seenWithinFiveYears b doctorName apt = true
  <-> Spec.isSubstring fam (apt_provider apt) /\ Spec.withinFiveYears b apt.
Proof.
  intros Hfam. unfold seenWithinFiveYears, Spec.withinFiveYears.
  rewrite (split_hd_familyName _ _ Hfam), andb_true_iff, includes_spec.
  destruct (dateTime b (apt_date apt)) as [t |].
  - rewrite Z.leb_le. split.
    + intros [H1 H2]. split; [assumption | now exists t].
    + intros [H1 (t' & [= <-] & H2)]. now split.
  - split; [intros [_ H]; discriminate H | intros [_ (t' & H & _)]; discriminate H].
Qed.

Lemma hasSeenDoctor_spec (doctorName fam : string) (p : Patient) :
  Spec.familyName doctorName fam ->
  hasSeenDoctor b p doctorName = true
  <-> exists apt, In apt (Spec.history p)
                  /\ Spec.isSubstring fam (apt_provider apt)
                  /\ Spec.withinFiveYears b apt.
Proof.
  intros Hfam. unfold hasSeenDoctor, Spec.history.
  destruct (appointments p) as [apts |].
  - rewrite existsb_exists. split; intros (apt & Hin & H); exists apt;
      (split; [assumption |]); now apply (seenWithinFiveYears_spec _ _ _ Hfam).
  - split; [discriminate | intros (apt & [] & _)].
Qed.

End Classifier.

(** C5. With a patient loaded and a type select offering both values, the
    type is set to ESTABLISHED exactly when some history entry names the
    provider's family name (the part of the identifier before the comma)
    and is dated no earlier than five years before the clock; otherwise it
    is set to NEW, in particular for an empty or absent history.
    ESTABLISHED goes with a duration of 15 and NEW with 30. *)
Theorem appointment_type_classification
    (b : Browser) (doctorName fam : string) (p : Patient) (f : Form) :
  Spec.familyName doctorName fam ->
  hasOption "ESTABLISHED" (appointment_type f) = true ->
  hasOption "NEW" (appointment_type f) = true ->
  let r := autoSetAppointmentType b doctorName {| currentPatient := Some p; form := f |} in
  let chosen := sel_value (appointment_type (form (finalState r))) in
  let seen := exists apt, In apt (Spec.history p)
                          /\ Spec.isSubstring fam (apt_provider apt)
                          /\ Spec.withinFiveYears b apt in
  completion r = Normal tt
  /\ (chosen = "ESTABLISHED" <-> seen)
  /\ (chosen = "NEW" <-> ~ seen)
  /\ (Spec.history p = [] -> chosen = "NEW")
  /\ appointmentDuration "ESTABLISHED" = "15"
  /\ appointmentDuration "NEW" = "30".
Proof.
  intros Hfam HE HN r chosen seen.
  assert (Hspec := hasSeenDoctor_spec b doctorName fam p Hfam). fold seen in Hspec.
  assert (Hchosen : chosen = if hasSeenDoctor b p doctorName then "ESTABLISHED" else "NEW").
  { subst chosen r. unfold autoSetAppointmentType, bind, getPatient. cbn.
    destruct (hasSeenDoctor b p doctorName); cbn; unfold selectSetValue; cbn;
      [now rewrite HE | now rewrite HN]. }
  assert (Hdone : completion r = Normal tt).
  { subst r. unfold autoSetAppointmentType, bind, getPatient. cbn.
    destruct (hasSeenDoctor b p doctorName); reflexivity. }
  split; [exact Hdone |].
  destruct (hasSeenDoctor b p doctorName) eqn:Hseen; rewrite Hchosen.
  - assert (seen) by now apply Hspec.
    repeat split; try tauto; try discriminate.
    intros Hnil. destruct H as (apt & Hin & _). rewrite Hnil in Hin. destruct Hin.
  - assert (~ seen) by (intros Hs; apply Hspec in Hs; discriminate).
    repeat split; try tauto; try discriminate.
Qed.

Lemma appointment_type_classification_witness :
  let r := autoSetAppointmentType Reference.browser "House, Gregory" Reference.app in
  sel_value (appointment_type (form (finalState r))) = "ESTABLISHED"
  <-> exists apt, In apt (Spec.history Reference.johnDoe)
                  /\ Spec.isSubstring "House" (apt_provider apt)
                  /\ Spec.withinFiveYears Reference.browser apt.
Proof.
  refine (proj1 (proj2 (appointment_type_classification
            Reference.browser "House, Gregory" "House" Reference.johnDoe Reference.page
            _ eq_refl eq_refl))).
  split.
  - intros (pre & post & H).
    destruct pre as [| c1 [| c2 [| c3 [| c4 [| c5 [| c6 pre]]]]]]; discriminate H.
  - right. now exists " Gregory".
Defined.

(** ** Submission-time validation *)

Section Validation.

Variable b : Browser.

Lemma truthyProp_false (data : list (string * string)) (field : string) :
  truthyProp data field = false <-> Spec.emptyField data field.
Proof.
  unfold truthyProp, Spec.emptyField.
  destruct (lookup field data) as [[| c v] |]; cbn [JS.truthy].
  - split; [now right | reflexivity].
  - split; [discriminate | intros [H | H]; discriminate H].
  - split; [now left | reflexivity].
Qed.

Lemma missingFields_spec (data : list (string * string)) (field : string) :
  In field (missingFields data) <-> In field required /\ Spec.emptyField data field.
Proof.
  unfold missingFields. rewrite filter_In, negb_true_iff, truthyProp_false. reflexivity.
Qed.

(** The two ways the validation fails, and its success. *)
Lemma validateAppointmentForm_run (data : list (string * string)) (s : App) :
  validateAppointmentForm b data s =
  match missingFields data with
  | _ :: _ =>
      let msg := "Please fill in all required fields: " ++ JS.join ", " (missingFields data) in
      (Normal false, s, [Log (ErrorDisplayed msg); Alert msg])
  | [] =>
      if dateIsPast b data then
        (Normal false, s,
         [Log (ErrorDisplayed "Appointment date cannot be in the past");
          Alert "Appointment date cannot be in the past"])
      else (Normal true, s, [])
  end.
Proof.
  unfold validateAppointmentForm.
  destruct (missingFields data) as [| m ms]; cbn [List.length Nat.ltb Nat.leb].
  - destruct (dateIsPast b data); reflexivity.
  - reflexivity.
Qed.

End Validation.

(** In a zone at or east of UTC a date is past exactly when its day lies
    before today; west of UTC, where midnight UTC of a day falls on the
    evening before, today's date counts as past too. *)
Lemma dateIsPast_zoned (zone clock : Z) (data : list (string * string)) (d : string) (n : Z) :
  -1440 < zone < 1440 ->
  lookup "date" data = Some d -> Spec.dayNumber d = Some n ->
  dateIsPast (Reference.zoned zone clock) data
  = if zone <? 0 then n <=? Spec.localDay zone clock else n <? Spec.localDay zone clock.
Proof.
  intros Hzone Hd Hn. unfold dateIsPast. rewrite Hd.
  unfold Spec.dayNumber in Hn.
  cbn [dateTime startOfDay now Reference.zoned Reference.utc].
  destruct (Reference.parseISO d) as [[[y m] dd] |]; [| discriminate Hn].
  injection Hn as Hn. cbn [option_map Reference.timeOfCivil]. rewrite Hn.
  unfold Spec.localDay, Reference.msPerDay.
  pose proof (Z.div_mod (clock + zone * 60000) 86400000 ltac:(lia)) as Hdiv.
  pose proof (Z.mod_pos_bound (clock + zone * 60000) 86400000 ltac:(lia)) as Hmod.
  destruct (Z.ltb_spec zone 0).
  - destruct (Z.ltb_spec (n * 86400000 + 0)
                (clock - (clock + zone * 60000) mod 86400000)),
             (Z.leb_spec n ((clock + zone * 60000) / 86400000)); try reflexivity; lia.
  - destruct (Z.ltb_spec (n * 86400000 + 0)
                (clock - (clock + zone * 60000) mod 86400000)),
             (Z.ltb_spec n ((clock + zone * 60000) / 86400000)); try reflexivity; lia.
Qed.

(** C7. Validation fails with the list of exactly those required fields
    (first name, last name, date of birth, doctor, type, location, date,
    time) that are empty; with none missing it either fails as a past date
    or succeeds.  It never changes the form, and a failed validation ends
    the booking with the form as it was.  Which dates count as past
    depends on the zone of the browser: at or east of UTC, exactly the
    dates before today; west of UTC, today's date as well, because the
    date is read as midnight UTC and compared with local midnight. *)
Theorem submission_validation
    (b : Browser) (data : list (string * string)) (s : App) (response : BookingResponse) :
  let r := validateAppointmentForm b data s in
  let missing := missingFields data in
  let listed := "Please fill in all required fields: " ++ JS.join ", " missing in
  let past := "Appointment date cannot be in the past" in
  required = ["firstName"; "lastName"; "dob"; "doctor"; "appointmentType"; "location";
              "date"; "time"]
  /\ (forall field, In field missing <-> In field required /\ Spec.emptyField data field)
  /\ finalState r = s
  /\ (missing <> [] ->
      completion r = Normal false /\ events r = [Log (ErrorDisplayed listed); Alert listed])
  /\ (missing = [] ->
      (completion r = Normal false /\ events r = [Log (ErrorDisplayed past); Alert past])
      \/ (completion r = Normal true /\ events r = []))
  /\ (forall zone clock d n,
        -1440 < zone < 1440 -> missing = [] ->
        lookup "date" data = Some d -> Spec.dayNumber d = Some n ->
        let today := Spec.localDay zone clock in
        let rz := validateAppointmentForm (Reference.zoned zone clock) data s in
        let refused := completion rz = Normal false
                       /\ events rz = [Log (ErrorDisplayed past); Alert past] in
        let accepted := completion rz = Normal true /\ events rz = [] in
        (0 <= zone -> (n < today -> refused) /\ (today <= n -> accepted))
        /\ (zone < 0 -> (n <= today -> refused) /\ (today < n -> accepted)))
  /\ (completion (validateAppointmentForm b (getAppointmentFormData (form s)) s)
      = Normal false ->
      finalState (bookAppointment b response s) = s).
Proof.
  intros r missing listed past.
  split; [reflexivity |].
  split; [intros field; apply missingFields_spec |].
  subst r. rewrite validateAppointmentForm_run. fold missing.
  split; [| split; [| split; [| split]]].
  - destruct missing; [destruct (dateIsPast b data) |]; reflexivity.
  - intros Hne. destruct missing; [congruence | split; reflexivity].
  - intros ->. destruct (dateIsPast b data); [left | right]; split; reflexivity.
  - intros zone clock d n Hzone Hmissing Hd Hn today rz refused accepted.
    subst refused accepted rz. rewrite validateAppointmentForm_run.
    fold missing. rewrite Hmissing.
    rewrite (dateIsPast_zoned zone clock data d n Hzone Hd Hn). fold today.
    split; intros Hz.
    + replace (zone <? 0) with false by (symmetry; apply Z.ltb_ge; lia).
      split; intros Hday.
      * replace (n <? today) with true by (symmetry; apply Z.ltb_lt; lia).
        split; reflexivity.
      * replace (n <? today) with false by (symmetry; apply Z.ltb_ge; lia).
        split; reflexivity.
    + replace (zone <? 0) with true by (symmetry; apply Z.ltb_lt; lia).
      split; intros Hday.
      * replace (n <=? today) with true by (symmetry; apply Z.leb_le; lia).
        split; reflexivity.
      * replace (n <=? today) with false by (symmetry; apply Z.leb_gt; lia).
        split; reflexivity.
  - unfold bookAppointment, bind, getForm. cbn [fst snd].
    rewrite validateAppointmentForm_run.
    destruct (missingFields (getAppointmentFormData (form s))); cbn.
    + destruct (dateIsPast b (getAppointmentFormData (form s))); cbn;
        [reflexivity | discriminate].
    + reflexivity.
Qed.

(** Five hours west of UTC, at seven in the morning of 3 November 2025,
    a complete form dated 3 November 2025 is refused as past. *)
Lemma submission_validation_witness :
  let data := [("firstName", "John"); ("lastName", "Doe"); ("dob", "1975-01-01");
               ("doctor", "Grey, Meredith"); ("appointmentType", "NEW");
               ("location", "Sloan Primary Care"); ("date", "2025-11-03");
               ("time", "10:00")] in
  let rz := validateAppointmentForm (Reference.zoned (-300) Reference.clock) data
              Reference.app in
  Spec.dayNumber "2025-11-03" = Some (Spec.localDay (-300) Reference.clock)
  /\ missingFields data = []
  /\ completion rz = Normal false
  /\ events rz = [Log (ErrorDisplayed "Appointment date cannot be in the past");
                  Alert "Appointment date cannot be in the past"].
Proof.
  intros data rz.
  split; [reflexivity |]. split; [reflexivity |].
  pose proof (submission_validation Reference.browser data Reference.app
                {| success := false; appointmentId := ""; error := None |}) as H.
  cbv zeta in H. destruct H as (_ & _ & _ & _ & _ & H & _).
  destruct (H (-300) Reference.clock "2025-11-03" (Spec.localDay (-300) Reference.clock)
              ltac:(lia) eq_refl eq_refl eq_refl) as [_ Hwest].
  destruct (Hwest ltac:(lia)) as [Hrefused _].
  exact (Hrefused ltac:(lia)).
Defined.

(** ** Running the handlers *)

(** Unfold the operations of the monad and reduce the run. *)
Ltac run :=
  unfold bind, logActivity, emit, getForm, getPatient, modifyForm, when, ret,
    throwTypeError, showError, setForm;
  cbn [form currentPatient fst snd app completion finalState events negb andb orb].

Section Runs.

Variable b : Browser.

Lemma bind_run {A B : Type} (m : M A) (k : A -> M B) (s s' : App) (a : A) (ev : list Event) :
  m s = (Normal a, s', ev) ->
  bind m k s = (completion (k a s'), finalState (k a s'), (ev ++ events (k a s'))%list).
Proof.
  intros H. unfold bind, completion, finalState, events. rewrite H.
  now destruct (k a s') as [[r s''] ev'].
Qed.

Lemma visible_app (l1 l2 : list Event) :
  Spec.visible (l1 ++ l2) = (Spec.visible l1 ++ Spec.visible l2)%list.
Proof. apply filter_app. Qed.

Lemma visible_log (m : LogMsg) (l : list Event) :
  Spec.visible (Log m :: l) = Spec.visible l.
Proof. reflexivity. Qed.

Lemma findMatchingOption_run (opts : list OptionEl) (v : string) (s : App) :
  exists evs,
    findMatchingOption opts v s = (Normal (matchedOption opts v), s, evs)
    /\ Spec.visible evs = [].
Proof.
  unfold findMatchingOption, matchedOption.
  destruct (find (exactMatch v) opts); [eexists; split; reflexivity |].
  destruct (find (caseInsensitiveMatch v) opts); [eexists; split; reflexivity |].
  destruct (find (substringMatch v) opts); [eexists; split; reflexivity |].
  destruct (find (reverseSubstringMatch v) opts); eexists; split; reflexivity.
Qed.

(** One entry of the first pass: it ends normally, leaves the form
    [applyEntry] and the locals [stepLocals], and only writes to the log. *)
Lemma updateField_run (acc : Locals) (entry : string * string) (s : App) :
  exists evs,
    updateField b acc entry s
    = (Normal (stepLocals acc (fst entry) (form s)),
       setForm (applyEntry b entry (form s)) s, evs)
    /\ Spec.visible evs = []
    /\ (getElementById (fst entry) (form s) = None ->
        In (Log (FieldNotFound (fst entry))) evs).
Proof.
  destruct entry as [field v]. destruct s as [patient f].
  unfold updateField, applyEntry, stepLocals. run.
  destruct (getElementById field f) as [element |] eqn:Hel; run.
  2:{ eexists. split; [reflexivity |]. split; [reflexivity |]. intros _. cbn. auto. }
  destruct (andb (isSelect (tagName element))
              (orb (String.eqb field "appointment-location") (String.eqb field "doctor")))
    eqn:Hfuzzy; run.
  - destruct (findMatchingOption_run (elementOptions element f) v
                {| currentPatient := patient; form := f |}) as (evm & Hm & Hvm).
    rewrite Hm.
    destruct (matchedOption (elementOptions element f) v) as [o |]; run;
      match goal with
      | |- context [andb (String.eqb field "appointment-time") ?d] =>
          destruct (andb (String.eqb field "appointment-time") d)
      end; run;
      (eexists; split; [reflexivity |]; split; [| discriminate]);
      repeat first [rewrite visible_log | rewrite visible_app | rewrite Hvm];
      reflexivity.
  - destruct (String.eqb field "appointment-date"); run;
      [destruct (elementDisabled element f); run |];
      match goal with
      | |- context [andb (String.eqb field "appointment-time") ?d] =>
          destruct (andb (String.eqb field "appointment-time") d)
      end; run;
      (eexists; split; [reflexivity |]; split; [reflexivity | discriminate]).
Qed.

Lemma firstPass_run (entries : list (string * string)) :
  forall (acc : Locals) (s : App),
  exists evs,
    firstPass b acc entries s
    = (Normal (stepAll b acc entries (form s)),
       setForm (applyEntries b entries (form s)) s, evs)
    /\ Spec.visible evs = [].
Proof.
  induction entries as [| entry rest IH]; intros acc s.
  - exists []. destruct s. split; reflexivity.
  - destruct (updateField_run acc entry s) as (ev1 & H1 & Hv1 & _).
    destruct (IH (stepLocals acc (fst entry) (form s))
                 (setForm (applyEntry b entry (form s)) s)) as (ev2 & H2 & Hv2).
    exists (ev1 ++ ev2)%list. cbn [firstPass stepAll applyEntries].
    rewrite (bind_run _ _ _ _ _ _ H1), H2. split; [reflexivity |].
    rewrite visible_app, Hv1, Hv2. reflexivity.
Qed.

(** A batch: the first pass, then the second pass on its result. *)
Lemma updateAppointmentForm_run (formUpdates : list (string * string)) (s : App) :
  let r2 := secondPass b formUpdates (stepAll b emptyLocals formUpdates (form s))
              (setForm (applyEntries b formUpdates (form s)) s) in
  let ev1 := events (firstPass b emptyLocals formUpdates s) in
  Spec.visible ev1 = []
  /\ updateAppointmentForm b formUpdates s
     = (completion r2, finalState r2,
        (Log (UpdatingForm formUpdates) :: ev1 ++ events r2)%list).
Proof.
  intros r2 ev1. destruct (firstPass_run formUpdates emptyLocals s) as (ev & H1 & Hv1).
  subst ev1. rewrite H1. split; [assumption |].
  unfold updateAppointmentForm. unfold bind at 1, logActivity at 1, emit at 1.
  fold emptyLocals. rewrite (bind_run _ _ _ _ _ _ H1). reflexivity.
Qed.

Lemma truthy_nonempty (v : string) : v <> "" -> JS.truthy v = true.
Proof. destruct v; [congruence | reflexivity]. Qed.

Lemma truthy_true (v : string) : JS.truthy v = true -> v <> "".
Proof. destruct v; [discriminate | discriminate]. Qed.

(** A date outside the doctor's days: the date is cleared, the time select
    is disabled and the error is shown. *)
Lemma handleDateSelection_reject (s : App) (a : Availability) :
  let f := form s in
  let selectedDoctor := sel_value (doctor f) in
  let selectedDate := date_value (appointment_date f) in
  let dayName := dayNameOf b selectedDate in
  let msg := selectedDoctor ++ " is not available on " ++ dayName
             ++ "s. Available days: " ++ JS.join ", " (days a) in
  selectedDoctor <> "" -> selectedDate <> "" ->
  lookup selectedDoctor doctorAvailability = Some a ->
  arrayIncludes (days a) dayName = false ->
  handleDateSelection b s
  = (Normal tt,
     setForm (with_time (selectSetDisabled true (appointment_time f))
                (with_date (dateSet "" (appointment_date f)) f)) s,
     [Log (ErrorDisplayed msg); Alert msg]).
Proof.
  intros f selectedDoctor selectedDate dayName msg Hdoc Hdate Ha Hday.
  unfold handleDateSelection. run. fold f selectedDoctor selectedDate.
  rewrite (truthy_nonempty _ Hdoc), (truthy_nonempty _ Hdate). cbn [negb orb].
  rewrite Ha. fold dayName. rewrite Hday. cbn [negb]. run. reflexivity.
Qed.

End Runs.

(** ** Date selection *)

(** When the day name that the handler computes for the date is not among
    the doctor's days, the date step itself rejects the date: the date
    field is cleared, the error is shown, the time select keeps its options
    and is disabled.  This holds when the user picks the date and when a
    batch sets it. *)
Lemma date_outside_days_rejected
    (b : Browser) (s : App) (a : Availability) (d : string) :
  let selectedDoctor := sel_value (doctor (form s)) in
  let dayName := dayNameOf b d in
  let msg := selectedDoctor ++ " is not available on " ++ dayName
             ++ "s. Available days: " ++ JS.join ", " (days a) in
  selectedDoctor <> "" -> d <> "" -> validDateString b d = true ->
  lookup selectedDoctor doctorAvailability = Some a ->
  arrayIncludes (days a) dayName = false ->
  let r := handleDateSelection b (dateInputChanged d s) in
  let r' := updateAppointmentForm b [("appointment-date", d)] s in
  (completion r = Normal tt
   /\ date_value (appointment_date (form (finalState r))) = ""
   /\ events r = [Log (ErrorDisplayed msg); Alert msg]
   /\ options (appointment_time (form (finalState r))) = options (appointment_time (form s))
   /\ sel_disabled (appointment_time (form (finalState r))) = true)
  /\ (completion r' = Normal tt
      /\ date_value (appointment_date (form (finalState r'))) = ""
      /\ In (Alert msg) (events r')
      /\ options (appointment_time (form (finalState r'))) = options (appointment_time (form s))
      /\ sel_disabled (appointment_time (form (finalState r'))) = true).
Proof.
  intros selectedDoctor dayName msg Hdoc Hd Hvalid Ha Hday r r'. split.
  - subst r. rewrite (handleDateSelection_reject b _ a); try assumption.
    repeat split.
  - subst r'.
    destruct (updateAppointmentForm_run b [("appointment-date", d)] s) as (_ & ->).
    cbn [stepAll applyEntries fst snd]. unfold stepLocals, applyEntry, emptyLocals.
    cbn [getElementById String.eqb Ascii.eqb Bool.eqb fst snd tagName isSelect andb orb
         elementSetValue elementDisabled elementSetDisabled needsDoctorHandler
         needsDateHandler updatedFields].
    unfold sanitizeDate. rewrite Hvalid.
    unfold secondPass, doctorRule, dateRule, notifyUpdated.
    cbn [needsDoctorHandler needsDateHandler updatedFields andb lookup String.eqb Ascii.eqb
         Bool.eqb List.length app Nat.ltb Nat.leb].
    run.
    match goal with
    | |- context [handleDateSelection b ?s1] =>
        rewrite (handleDateSelection_reject b s1 a);
          [| destruct (date_disabled (appointment_date (form s))); assumption ..]
    end.
    run. destruct (date_disabled (appointment_date (form s))); cbn.
    all: repeat split; try reflexivity; apply in_cons, in_or_app; right; cbn; auto.
Qed.

(** ** Unknown fields of a batch *)

Section UnknownField.

Variable b : Browser.

Lemma assign_keys (key v : string) (obj : list (string * string)) :
  map fst (assign key v obj) = map fst obj.
Proof.
  induction obj as [| [k w] rest IH]; [reflexivity |].
  cbn [assign]. destruct (String.eqb k key); cbn [map fst]; [reflexivity | now rewrite IH].
Qed.

Lemma getElementById_keys (id : string) (f f' : Form) :
  map fst (others f) = map fst (others f') ->
  getElementById id f = getElementById id f'.
Proof.
  intros H. unfold getElementById.
  assert (Hex : forall l, existsb (fun p : string * string => String.eqb (fst p) id) l
                          = existsb (fun k => String.eqb k id) (map fst l)).
  { induction l as [| p l IH]; [reflexivity | cbn; now rewrite IH]. }
  now rewrite !Hex, H.
Qed.

Lemma elementSetValue_keys (e : Element) (v : string) (f : Form) :
  map fst (others (elementSetValue b e v f)) = map fst (others f).
Proof. destruct e; cbn; [reflexivity .. | apply assign_keys]. Qed.

Lemma elementSetDisabled_keys (e : Element) (d : bool) (f : Form) :
  map fst (others (elementSetDisabled e d f)) = map fst (others f).
Proof. destruct e; reflexivity. Qed.

(** The first pass never adds or removes an element of the page. *)
Lemma applyEntry_keys (entry : string * string) (f : Form) :
  map fst (others (applyEntry b entry f)) = map fst (others f).
Proof.
  unfold applyEntry. destruct (getElementById (fst entry) f) as [e |]; [| reflexivity].
  cbv zeta.
  repeat match goal with
         | |- context [if ?c then _ else _] => destruct c
         | |- context [match matchedOption ?o ?v with _ => _ end] =>
             destruct (matchedOption o v)
         end;
    now rewrite ?elementSetDisabled_keys, ?elementSetValue_keys, ?elementSetDisabled_keys.
Qed.






End UnknownField.

(** ** The first pass, field by field *)

Section FirstPass.

Variable b : Browser.

(** An entry only writes the element it names. *)
Lemma applyEntry_frame (entry : string * string) (f : Form) :
  let f' := applyEntry b entry f in
  (fst entry <> "doctor" -> doctor f' = doctor f)
  /\ (fst entry <> "appointment-type" -> appointment_type f' = appointment_type f)
  /\ (fst entry <> "appointment-location" -> appointment_location f' = appointment_location f)
  /\ (fst entry <> "appointment-date" -> appointment_date f' = appointment_date f)
  /\ (fst entry <> "appointment-time" -> appointment_time f' = appointment_time f).
Proof.
  destruct entry as [field v]. cbn [fst]. unfold applyEntry, getElementById. cbn [fst snd].
  repeat match goal with
         | |- context [String.eqb field ?k] =>
             destruct (String.eqb_spec field k) as [-> | ?]
         end;
    cbn;
    repeat match goal with
           | |- context [if ?c then _ else _] => destruct c
           | |- context [match matchedOption ?o ?w with _ => _ end] =>
               destruct (matchedOption o w)
           end;
    cbn; repeat split; intros; congruence.
Qed.



Section Projection.

Context {X : Type} (proj : Form -> X) (key : string).

Hypothesis frame :
  forall entry f, fst entry <> key -> proj (applyEntry b entry f) = proj f.

Lemma applyEntries_absent (batch : list (string * string)) :
  forall f, ~ In key (map fst batch) -> proj (applyEntries b batch f) = proj f.
Proof.
  induction batch as [| e batch IH]; intros f Hnot; [reflexivity |].
  cbn [applyEntries]. cbn [map In] in Hnot.
  rewrite IH by tauto. apply frame. intros Heq. apply Hnot. now left.
Qed.

(** With distinct keys, what a batch leaves in a component is what its
    entry for that component leaves. *)
Lemma applyEntries_key (v : string) (g : X -> X) :
  (forall f, proj (applyEntry b (key, v) f) = g (proj f)) ->
  forall batch f,
    NoDup (map fst batch) -> In (key, v) batch ->
    proj (applyEntries b batch f) = g (proj f).
Proof.
  intros Hkey. induction batch as [| e batch IH]; intros f Hnd Hin; [destruct Hin |].
  cbn [map] in Hnd. apply NoDup_cons_iff in Hnd as [Hfresh Hnd].
  cbn [applyEntries]. destruct Hin as [-> | Hin].
  - cbn [fst] in Hfresh. rewrite applyEntries_absent by assumption. apply Hkey.
  - rewrite IH by assumption. f_equal. apply frame.
    intros Heq. apply Hfresh. rewrite Heq. apply (in_map fst _ _ Hin).
Qed.

End Projection.


Lemma lookup_absent (key : string) (batch : list (string * string)) :
  lookup key batch = None -> ~ In key (map fst batch).
Proof.
  induction batch as [| [k w] batch IH]; cbn [lookup map fst In]; [tauto |].
  destruct (String.eqb_spec k key); [discriminate | intuition].
Qed.

(** The handler flags after the first pass. *)
Lemma stepAll_flags (batch : list (string * string)) :
  forall acc f,
    needsDoctorHandler (stepAll b acc batch f)
    = orb (needsDoctorHandler acc) (existsb (fun e => String.eqb (fst e) "doctor") batch)
    /\ needsDateHandler (stepAll b acc batch f)
       = orb (needsDateHandler acc)
             (existsb (fun e => String.eqb (fst e) "appointment-date") batch).
Proof.
  induction batch as [| [field v] batch IH]; intros acc f; cbn [stepAll existsb fst].
  - now rewrite !orb_false_r.
  - destruct (IH (stepLocals acc field f) (applyEntry b (field, v) f)) as [-> ->].
    unfold stepLocals, getElementById.
    repeat match goal with
           | |- context [String.eqb field ?k] =>
               destruct (String.eqb_spec field k) as [-> | ?]
           end;
      cbn; rewrite ?orb_true_r; try (split; reflexivity);
      destruct (existsb _ (others f)); cbn; split; reflexivity.
Qed.

Lemma existsb_key (key v : string) (batch : list (string * string)) :
  In (key, v) batch -> existsb (fun e => String.eqb (fst e) key) batch = true.
Proof.
  intros Hin. apply existsb_exists. exists (key, v). split; [assumption |].
  apply String.eqb_refl.
Qed.

Lemma existsb_no_key (key : string) (batch : list (string * string)) :
  lookup key batch = None -> existsb (fun e => String.eqb (fst e) key) batch = false.
Proof.
  induction batch as [| [k w] batch IH]; cbn [lookup existsb fst]; [reflexivity |].
  destruct (String.eqb k key); [discriminate | assumption].
Qed.

End FirstPass.

(** ** The rules of the second pass *)

(** Unfold the handlers down to the operations on the form. *)
Ltac handlers :=
  unfold doctorRule, dateRule, notifyUpdated, handleDoctorSelection, handleDateSelection,
    generateTimeSlots, autoSetAppointmentType, autoSetLocation, setupDateRestrictions,
    defined;
  run.

(** Split on every test of the goal. *)
Ltac cases :=
  run;
  repeat (match goal with
          | |- context [match lookup ?k ?l with _ => _ end] => destruct (lookup k l)
          | |- context [match ?x with Some _ => _ | None => _ end] => destruct x
          | |- context [if ?c then _ else _] => destruct c eqn:?
          end; run).

Section SecondPass.

Variable b : Browser.


Lemma fold_append_options (slots : list string) :
  forall el,
    fold_left (fun el slot => selectAppend (slotOption slot) el) slots el
    = {| options := (options el ++ map slotOption slots)%list;
         sel_value := sel_value el;
         sel_disabled := sel_disabled el |}.
Proof.
  induction slots as [| slot slots IH]; intros [opts v d]; cbn [fold_left map].
  - cbn. now rewrite app_nil_r.
  - rewrite IH. cbn. now rewrite <- app_assoc.
Qed.

Lemma generateTimeSlots_run (doctorName dayName : string) (a : Availability) (h : Hours)
    (s : App) :
  lookup doctorName doctorAvailability = Some a ->
  slotHours doctorName dayName a = Some h ->
  generateTimeSlots doctorName dayName s
  = (Normal tt, setForm (with_time (regenerated h) (form s)) s,
     [Log (GeneratedTimeSlots (List.length (slotsOf h)) doctorName (start h) (finish h))]).
Proof.
  intros Ha Hh. unfold generateTimeSlots. rewrite Ha. run. rewrite Hh. unfold defined. run.
  rewrite fold_append_options. reflexivity.
Qed.

(** Every doctor of the catalogue has hours for every day name, and the
    split entry has its schedule. *)
Lemma catalogue_slotHours (doctorName dayName : string) (a : Availability) :
  lookup doctorName doctorAvailability = Some a ->
  (exists h, slotHours doctorName dayName a = Some h)
  /\ (doctorName = "House, Gregory" -> exists segments, schedule a = Some segments).
Proof.
  unfold doctorAvailability. cbn [lookup].
  repeat match goal with
         | |- context [String.eqb ?k doctorName] =>
             destruct (String.eqb_spec k doctorName) as [<- | ?]
         end;
    intros [= <-]; try discriminate;
    (split; [| intros Heq; try discriminate Heq; try congruence; cbn; eauto]).
  all: unfold slotHours; cbn.
  all: try (eexists; reflexivity).
  destruct (JS.truthy dayName); cbn; [| eexists; reflexivity].
  repeat match goal with
         | |- context [if ?c then _ else _] => destruct c
         end; eexists; reflexivity.
Qed.

(** A date on one of the doctor's days: the time select is regenerated. *)
Lemma handleDateSelection_accept (s : App) (a : Availability) :
  let f := form s in
  let selectedDoctor := sel_value (doctor f) in
  let selectedDate := date_value (appointment_date f) in
  let dayName := dayNameOf b selectedDate in
  selectedDoctor <> "" -> selectedDate <> "" ->
  lookup selectedDoctor doctorAvailability = Some a ->
  arrayIncludes (days a) dayName = true ->
  exists h,
    slotHours selectedDoctor dayName a = Some h
    /\ completion (handleDateSelection b s) = Normal tt
    /\ appointment_time (form (finalState (handleDateSelection b s))) = regenerated h
    /\ currentPatient (finalState (handleDateSelection b s)) = currentPatient s.
Proof.
  intros f selectedDoctor selectedDate dayName Hdoc Hdate Ha Hday.
  destruct (catalogue_slotHours selectedDoctor dayName a Ha) as [[h Hh] Hsched].
  exists h. split; [assumption |].
  unfold handleDateSelection. run. fold f selectedDoctor selectedDate.
  rewrite (truthy_nonempty _ Hdoc), (truthy_nonempty _ Hdate). cbn [negb orb].
  rewrite Ha. fold dayName. rewrite Hday. cbn [negb]. run.
  destruct (String.eqb_spec selectedDoctor "House, Gregory") as [Heq | Hne].
  - destruct (Hsched Heq) as [segments ->].
    destruct (scheduleForDay segments dayName); run;
      rewrite (generateTimeSlots_run _ _ a h) by assumption; repeat split.
  - run. rewrite (generateTimeSlots_run _ _ a h) by assumption. repeat split.
Qed.

(** What the date handler leaves alone. *)
Lemma handleDateSelection_frame (s : App) :
  let f := form s in
  let s' := finalState (handleDateSelection b s) in
  let f' := form s' in
  currentPatient s' = currentPatient s
  /\ doctor f' = doctor f
  /\ appointment_type f' = appointment_type f
  /\ (sel_value (doctor f) <> "House, Gregory" ->
      appointment_location f' = appointment_location f)
  /\ date_disabled (appointment_date f') = date_disabled (appointment_date f)
  /\ date_min (appointment_date f') = date_min (appointment_date f)
  /\ date_max (appointment_date f') = date_max (appointment_date f)
  /\ date_validation (appointment_date f') = date_validation (appointment_date f).
Proof.
  destruct s as [patient f]. handlers.
  destruct (String.eqb_spec (sel_value (doctor f)) "House, Gregory") as [Heq | Hne];
    cases; repeat split; intros; congruence.
Qed.

End SecondPass.

Section Rules.

Variable b : Browser.


Lemma negb_truthy (v : string) : negb (JS.truthy v) = true -> v = "".
Proof. destruct v; [reflexivity | discriminate]. Qed.

Lemma notifyUpdated_state (acc : Locals) (s : App) :
  finalState (notifyUpdated acc s) = s.
Proof. unfold notifyUpdated. destruct s. cases; reflexivity. Qed.

(** The doctor rule ends normally and keeps the doctor; it keeps the date
    when a doctor is selected. *)
Lemma doctorRule_frame (fu : list (string * string)) (acc : Locals) (s : App) :
  let s' := finalState (doctorRule b fu acc s) in
  completion (doctorRule b fu acc s) = Normal tt
  /\ currentPatient s' = currentPatient s
  /\ doctor (form s') = doctor (form s)
  /\ (sel_value (doctor (form s)) <> "" ->
      date_value (appointment_date (form s')) = date_value (appointment_date (form s))).
Proof.
  destruct s as [patient f]. handlers.
  cases; repeat split; intros;
    try match goal with E : negb (JS.truthy _) = true |- _ => apply negb_truthy in E end;
    congruence.
Qed.

(** With an explicit location in the batch the doctor handler is skipped:
    only the date input is touched, to enable it and set its restrictions. *)
Lemma doctorRule_skip (fu : list (string * string)) (acc : Locals) (s : App) :
  needsDoctorHandler acc = true ->
  truthyProp fu "appointment-location" = true ->
  let f := form s in
  let f' := form (finalState (doctorRule b fu acc s)) in
  let doc := sel_value (doctor f) in
  doctor f' = doctor f
  /\ appointment_type f' = appointment_type f
  /\ appointment_location f' = appointment_location f
  /\ appointment_time f' = appointment_time f
  /\ date_value (appointment_date f') = date_value (appointment_date f)
  /\ (doc <> "" ->
      date_disabled (appointment_date f') = false
      /\ forall a, lookup doc doctorAvailability = Some a ->
           date_min (appointment_date f') = toISODate b (addDays b 1 (now b))
           /\ date_max (appointment_date f') = toISODate b (addMonths b 3 (now b))
           /\ date_validation (appointment_date f') = Some (days a)).
Proof.
  intros Hneeds Hloc. destruct s as [patient f].
  unfold doctorRule. rewrite Hneeds, Hloc. cbn [negb andb]. handlers.
  destruct (JS.truthy (sel_value (doctor f))) eqn:Hdoc; run.
  - destruct (lookup (sel_value (doctor f)) doctorAvailability) as [a |] eqn:Ha; run;
      repeat split; intros; try congruence.
    all: match goal with H : Some _ = Some _ |- _ => injection H as <- end; reflexivity.
  - repeat split; try reflexivity; intros;
      match goal with
      | Hne : _ <> "" |- _ => apply truthy_nonempty in Hne; congruence
      end.
Qed.

(** What the date rule leaves alone. *)
Lemma dateRule_frame (fu : list (string * string)) (acc : Locals) (s : App) :
  let f := form s in
  let f' := form (finalState (dateRule b fu acc s)) in
  doctor f' = doctor f
  /\ appointment_type f' = appointment_type f
  /\ (needsDateHandler acc = false \/ sel_value (doctor f) <> "House, Gregory" ->
      appointment_location f' = appointment_location f)
  /\ date_disabled (appointment_date f') = date_disabled (appointment_date f)
  /\ date_min (appointment_date f') = date_min (appointment_date f)
  /\ date_max (appointment_date f') = date_max (appointment_date f)
  /\ date_validation (appointment_date f') = date_validation (appointment_date f).
Proof.
  unfold dateRule. destruct (needsDateHandler acc) eqn:Hneeds.
  2:{ destruct s. run. repeat split. }
  assert (Hframe := handleDateSelection_frame b s). cbv zeta in Hframe.
  run. revert Hframe. generalize (handleDateSelection b s).
  intros [[c s1] ev1] (_ & Hdoc & Htype & Hloc & Hdis & Hmin & Hmax & Hval).
  cbn [finalState fst snd] in *.
  destruct c as [[] |]; [destruct (lookup "appointment-time" fu) as [t |]; run;
                         [destruct (JS.truthy t); run |] |];
    repeat split; intros; cbn; auto;
    match goal with
    | H : _ \/ _ |- _ => destruct H as [Hc | Hne]; [discriminate Hc | exact (Hloc Hne)]
    end.
Qed.




End Rules.

(** ** Explicit values of a batch *)




(** ** Explicit time and slot regeneration *)

Section TimeRestore.

Variable b : Browser.




End TimeRestore.




(** * Further properties of the controller *)

(** ** Doctor selection *)

(** X1. Whatever the state, the doctor handler ends normally, keeps the
    doctor select, and leaves the time select disabled with the placeholder
    as its only option and nothing selected.  With no doctor selected it
    also clears and disables the date input, emits nothing and keeps type
    and location; with a doctor selected it enables the date input and
    keeps the date that was chosen before. *)
Theorem doctor_selection_resets_time (b : Browser) (s : App) :
  let r := handleDoctorSelection b s in
  let f := form s in
  let f' := form (finalState r) in
  completion r = Normal tt
  /\ doctor f' = doctor f
  /\ sel_disabled (appointment_time f') = true
  /\ sel_value (appointment_time f') = ""
  /\ map value (options (appointment_time f')) = [""]
  /\ (sel_value (doctor f) = "" ->
      date_value (appointment_date f') = ""
      /\ date_disabled (appointment_date f') = true
      /\ appointment_type f' = appointment_type f
      /\ appointment_location f' = appointment_location f
      /\ events r = [])
  /\ (sel_value (doctor f) <> "" ->
      date_value (appointment_date f') = date_value (appointment_date f)
      /\ date_disabled (appointment_date f') = false).
Proof.
  destruct s as [patient f]. handlers.
  destruct (JS.truthy (sel_value (doctor f))) eqn:Hdoc; run.
  - apply truthy_true in Hdoc.
    cases; repeat split; intros; try reflexivity; congruence.
  - assert (sel_value (doctor f) = "") by (destruct (sel_value (doctor f)); easy).
    repeat split; intros; congruence.
Qed.

(** X2. The location that the doctor handler infers agrees with the
    catalogue: for a doctor whose catalogue entry has a location, the
    location select ends with that location when it offers it; for the
    split-schedule doctor the selection is cleared; for a doctor outside
    the catalogue the select is left as it was. *)
Theorem inferred_location_matches_catalogue (doctorName : string) (s : App) :
  let r := autoSetLocation doctorName s in
  let chosen := sel_value (appointment_location (form (finalState r))) in
  completion r = Normal tt
  /\ (forall a loc,
        lookup doctorName doctorAvailability = Some a ->
        location a = Some loc ->
        hasOption loc (appointment_location (form s)) = true ->
        chosen = loc)
  /\ (doctorName = "House, Gregory" -> chosen = "")
  /\ (lookup doctorName doctorAvailability = None -> finalState r = s).
Proof.
  destruct s as [patient f]. unfold autoSetLocation, doctorLocationMap, doctorAvailability.
  cbn [lookup].
  repeat match goal with
         | |- context [String.eqb ?k doctorName] =>
             destruct (String.eqb_spec k doctorName) as [<- | ?]
         end;
    cbn [String.eqb Ascii.eqb Bool.eqb JS.truthy]; run;
    try (destruct (String.eqb_spec doctorName "House, Gregory") as [-> | ?];
         [congruence |]; run);
    (split; [reflexivity |]);
    (split; [intros a loc [= <-] [= <-] Hopt; cbn [selectSetValue sel_value appointment_location with_location];
             try rewrite Hopt; try reflexivity; try discriminate |]);
    (split; [intros Heq; try discriminate Heq; try congruence;
             cbn; now destruct (hasOption "" (appointment_location f))
            | intros Hnone; try discriminate Hnone; reflexivity]).
Qed.

(** ** Date selection: missing pieces *)

(** X3. The date handler does nothing at all while the doctor or the date
    is missing.  With both present and a doctor that has no catalogue
    entry it raises a [TypeError] before touching the form, although the
    date restrictions and the slot generation treat the same doctor as a
    case to skip; a batch that sets the date for such a doctor is thus
    aborted after the date was written and before any notification. *)
Theorem date_selection_without_catalogue_entry (b : Browser) (s : App) (d : string) :
  let doc := sel_value (doctor (form s)) in
  let date := date_value (appointment_date (form s)) in
  (doc = "" \/ date = "" -> handleDateSelection b s = (Normal tt, s, []))
  /\ (doc <> "" -> date <> "" -> lookup doc doctorAvailability = None ->
      handleDateSelection b s = (Thrown, s, []))
  /\ (lookup doc doctorAvailability = None ->
      setupDateRestrictions b doc s = (Normal tt, s, [Log (NoAvailabilityData doc)])
      /\ forall dayName, generateTimeSlots doc dayName s = (Normal tt, s, []))
  /\ (doc <> "" -> d <> "" -> validDateString b d = true ->
      lookup doc doctorAvailability = None ->
      let r := updateAppointmentForm b [("appointment-date", d)] s in
      completion r = Thrown
      /\ date_value (appointment_date (form (finalState r))) = d
      /\ Spec.visible (events r) = []).
Proof.
  intros doc date. split; [| split; [| split]].
  - intros Hmissing. unfold handleDateSelection. run. fold doc date.
    destruct Hmissing as [-> | ->]; [| destruct (JS.truthy doc)]; destruct s; reflexivity.
  - intros Hdoc Hdate Hnone. unfold handleDateSelection. run. fold doc date.
    rewrite (truthy_nonempty _ Hdoc), (truthy_nonempty _ Hdate), Hnone. reflexivity.
  - intros Hnone. unfold setupDateRestrictions, generateTimeSlots. rewrite Hnone.
    split; reflexivity.
  - intros Hdoc Hd Hvalid Hnone r. subst r.
    destruct (updateAppointmentForm_run b [("appointment-date", d)] s) as (Hv & ->).
    cbn [stepAll applyEntries fst snd]. unfold stepLocals, applyEntry, emptyLocals.
    cbn [getElementById String.eqb Ascii.eqb Bool.eqb fst snd tagName isSelect andb orb
         elementSetValue elementDisabled elementSetDisabled needsDoctorHandler
         needsDateHandler updatedFields].
    unfold sanitizeDate. rewrite Hvalid.
    unfold secondPass, doctorRule, dateRule, notifyUpdated.
    cbn [needsDoctorHandler needsDateHandler updatedFields andb lookup String.eqb Ascii.eqb
         Bool.eqb List.length app Nat.ltb Nat.leb].
    unfold handleDateSelection. run. subst doc date.
    destruct (date_disabled (appointment_date (form s)));
      cbn [with_date doctor appointment_date date_value dateSet dateSetDisabled];
      rewrite (truthy_nonempty _ Hdoc), (truthy_nonempty _ Hd), Hnone; run;
      (split; [reflexivity |]; split; [reflexivity |]);
      unfold emptyLocals in Hv; rewrite visible_log, visible_app, Hv; reflexivity.
Qed.

Lemma date_selection_without_catalogue_entry_witness :
  let s := {| currentPatient := None;
              form := with_doctor
                        {| options := [Reference.opt "Shepherd, Derek"];
                           sel_value := "Shepherd, Derek"; sel_disabled := false |}
                        Reference.page |} in
  let r := updateAppointmentForm Reference.browser [("appointment-date", "2025-11-10")] s in
  completion r = Thrown
  /\ date_value (appointment_date (form (finalState r))) = "2025-11-10"
  /\ Spec.visible (events r) = [].
Proof.
  intros s.
  exact (proj2 (proj2 (proj2 (date_selection_without_catalogue_entry
           Reference.browser s "2025-11-10")))
           ltac:(discriminate) ltac:(discriminate) eq_refl eq_refl).
Defined.

(** ** Date selection on a working day *)

Section DateAccepted.

Variable b : Browser.

(** An accepted date stays in the date input. *)
Lemma handleDateSelection_keeps_date (s : App) (a : Availability) :
  let f := form s in
  lookup (sel_value (doctor f)) doctorAvailability = Some a ->
  arrayIncludes (days a) (dayNameOf b (date_value (appointment_date f))) = true ->
  date_value (appointment_date (form (finalState (handleDateSelection b s))))
  = date_value (appointment_date f).
Proof.
  destruct s as [patient f]. cbn [form]. intros Ha Hday.
  unfold handleDateSelection, generateTimeSlots, defined. run.
  rewrite Ha, Hday. cases; reflexivity.
Qed.

Lemma validateDate_accepts (availableDays : list string) (v : string) :
  validateDate b availableDays v = ""
  <-> arrayIncludes availableDays (dayNameOf b v) = true.
Proof.
  unfold validateDate. destruct (arrayIncludes availableDays (dayNameOf b v)); cbn [negb].
  - split; reflexivity.
  - split; discriminate.
Qed.

End DateAccepted.

(** For the split-schedule doctor, a date whose computed day name is one
    of the working days sets the location to the one of that day's
    segment, keeps the date, and leaves the time select enabled,
    unselected, with the slots from 09:00 to 16:30. *)
Lemma split_schedule_location_by_day (b : Browser) (s : App) :
  let f := form s in
  let dayName := dayNameOf b (date_value (appointment_date f)) in
  sel_value (doctor f) = "House, Gregory" ->
  date_value (appointment_date f) <> "" ->
  arrayIncludes ["monday"; "tuesday"; "wednesday"; "thursday"; "friday"] dayName = true ->
  hasOption "PPTH Orthopedics" (appointment_location f) = true ->
  hasOption "Jefferson Hospital" (appointment_location f) = true ->
  let r := handleDateSelection b s in
  let f' := form (finalState r) in
  completion r = Normal tt
  /\ sel_value (appointment_location f')
     = (if arrayIncludes ["monday"; "tuesday"; "wednesday"] dayName
        then "PPTH Orthopedics" else "Jefferson Hospital")
  /\ date_value (appointment_date f') = date_value (appointment_date f)
  /\ appointment_time f' = regenerated {| start := "09:00"; finish := "17:00" |}.
Proof.
  destruct s as [patient f]. cbn [form]. intros Hdoc Hdate Hday Hppth Hjeff.
  set (dayName := dayNameOf b (date_value (appointment_date f))) in *.
  unfold handleDateSelection, generateTimeSlots, defined, slotHours. run.
  rewrite Hdoc. fold dayName.
  rewrite (truthy_nonempty _ Hdate).
  cbn [JS.truthy negb orb lookup doctorAvailability String.eqb Ascii.eqb Bool.eqb days
       schedule andb].
  rewrite Hday. cbn [negb]. run.
  assert (Htruthy : JS.truthy dayName = true).
  { destruct dayName; [discriminate Hday | reflexivity]. }
  rewrite Htruthy. unfold scheduleForDay. cbn [find seg_days].
  destruct (arrayIncludes ["monday"; "tuesday"; "wednesday"] dayName) eqn:H1; run.
  - cbn [seg_location seg_hours]. rewrite fold_append_options.
    unfold selectSetValue. rewrite Hppth. repeat split.
  - assert (H2 : arrayIncludes ["thursday"; "friday"] dayName = true).
    { unfold arrayIncludes in *. cbn [existsb] in *.
      repeat match goal with
             | H : context [String.eqb dayName ?k] |- _ => destruct (String.eqb dayName k)
             end; try discriminate; reflexivity. }
    rewrite H2. run. cbn [seg_location seg_hours]. rewrite fold_append_options.
    unfold selectSetValue. rewrite Hjeff. repeat split.
Qed.

(** ** The weekday of a date and the zone of the browser *)

Section Zones.

Variables zone clock : Z.
Hypothesis Hzone : -1440 < zone < 1440.

(** A date string that names a calendar day is one the date input keeps. *)
Lemma dayNumber_valid (d : string) (n : Z) :
  Spec.dayNumber d = Some n ->
  validDateString (Reference.zoned zone clock) d = true /\ d <> "".
Proof.
  unfold Spec.dayNumber. cbn [validDateString Reference.zoned Reference.utc].
  destruct (Reference.parseISO d) as [[[y m] dd] |] eqn:Hp; [| discriminate].
  intros _. split; [reflexivity |]. intros ->. discriminate Hp.
Qed.

(** The day name computed for a date is the weekday of the date in a zone
    at or east of UTC, and the weekday of the day before in a zone west of
    UTC: the date is read as midnight UTC and named in local time. *)
Lemma dayNameOf_zoned (d : string) (n : Z) :
  Spec.dayNumber d = Some n ->
  dayNameOf (Reference.zoned zone clock) d
  = JS.toLowerCase (Spec.weekdayOfDay (if zone <? 0 then n - 1 else n)).
Proof.
  unfold Spec.dayNumber, dayNameOf, Spec.weekdayOfDay.
  cbn [dateTime weekdayLong Reference.zoned Reference.utc].
  destruct (Reference.parseISO d) as [[[y m] dd] |]; [| discriminate].
  intros [= <-]. cbn [option_map Reference.timeOfCivil].
  set (k := Reference.daysFromCivil y m dd).
  assert (Hday : (k * Reference.msPerDay + 0 + zone * 60000) / Reference.msPerDay
                 = if zone <? 0 then k - 1 else k).
  { unfold Reference.msPerDay. destruct (Z.ltb_spec zone 0).
    - symmetry. apply (Z.div_unique _ _ _ (86400000 + zone * 60000)); lia.
    - symmetry. apply (Z.div_unique _ _ _ (zone * 60000)); lia. }
  rewrite Hday. f_equal. apply nth_indep.
  pose proof (Z.mod_pos_bound ((if zone <? 0 then k - 1 else k) + 4) 7 ltac:(lia)).
  cbn [Reference.weekdayNames List.length]. lia.
Qed.

End Zones.

Section DateKept.

Variable b : Browser.

(** An accepted date shows nothing to the user. *)
Lemma handleDateSelection_quiet (s : App) (a : Availability) :
  let f := form s in
  let selectedDoctor := sel_value (doctor f) in
  let selectedDate := date_value (appointment_date f) in
  selectedDoctor <> "" -> selectedDate <> "" ->
  lookup selectedDoctor doctorAvailability = Some a ->
  arrayIncludes (days a) (dayNameOf b selectedDate) = true ->
  Spec.visible (events (handleDateSelection b s)) = [].
Proof.
  intros f selectedDoctor selectedDate Hdoc Hdate Ha Hday.
  destruct (catalogue_slotHours selectedDoctor (dayNameOf b selectedDate) a Ha)
    as [[h Hh] Hsched].
  unfold handleDateSelection. run. fold f selectedDoctor selectedDate.
  rewrite (truthy_nonempty _ Hdoc), (truthy_nonempty _ Hdate). cbn [negb orb].
  rewrite Ha, Hday. cbn [negb]. run.
  destruct (String.eqb_spec selectedDoctor "House, Gregory") as [Heq | Hne].
  - destruct (Hsched Heq) as [segments ->].
    destruct (scheduleForDay segments (dayNameOf b selectedDate)); run;
      rewrite (generateTimeSlots_run _ _ a h) by assumption; reflexivity.
  - run. rewrite (generateTimeSlots_run _ _ a h) by assumption. reflexivity.
Qed.

End DateKept.

(** C6. The date step judges a date by the day name it computes: the date
    is read as midnight UTC and its weekday is taken in the local time of
    the browser.  In a zone at or east of UTC this is the weekday of the
    date, and a date whose weekday is not among the days of the selected
    catalogue doctor is rejected at once, when the user picks it and when a
    batch sets it: the date field is cleared, the error is shown, the time
    select keeps its options and is disabled.  In a zone west of UTC it is
    the weekday of the day before: a date is then rejected or kept by the
    day before it, so a date outside the doctor's days is kept, with time
    slots generated, when the day before is a working day. *)
Theorem date_judged_by_local_weekday
    (zone clock : Z) (s : App) (a : Availability) (d : string) (n : Z) :
  let b := Reference.zoned zone clock in
  let selectedDoctor := sel_value (doctor (form s)) in
  -1440 < zone < 1440 ->
  selectedDoctor <> "" ->
  lookup selectedDoctor doctorAvailability = Some a ->
  Spec.dayNumber d = Some n ->
  let judged := JS.toLowerCase (Spec.weekdayOfDay (if zone <? 0 then n - 1 else n)) in
  let msg := selectedDoctor ++ " is not available on " ++ judged
             ++ "s. Available days: " ++ JS.join ", " (days a) in
  let r := handleDateSelection b (dateInputChanged d s) in
  let r' := updateAppointmentForm b [("appointment-date", d)] s in
  (arrayIncludes (days a) judged = false ->
   (completion r = Normal tt
    /\ date_value (appointment_date (form (finalState r))) = ""
    /\ events r = [Log (ErrorDisplayed msg); Alert msg]
    /\ options (appointment_time (form (finalState r))) = options (appointment_time (form s))
    /\ sel_disabled (appointment_time (form (finalState r))) = true)
   /\ (completion r' = Normal tt
       /\ date_value (appointment_date (form (finalState r'))) = ""
       /\ In (Alert msg) (events r')
       /\ options (appointment_time (form (finalState r')))
          = options (appointment_time (form s))
       /\ sel_disabled (appointment_time (form (finalState r'))) = true))
  /\ (arrayIncludes (days a) judged = true ->
      completion r = Normal tt
      /\ date_value (appointment_date (form (finalState r))) = d
      /\ Spec.visible (events r) = []
      /\ exists h, appointment_time (form (finalState r)) = regenerated h).
Proof.
  intros b selectedDoctor Hzone Hdoc Ha Hn judged msg r r'.
  destruct (dayNumber_valid zone clock d n Hn) as [Hvalid Hd].
  pose proof (dayNameOf_zoned zone clock Hzone d n Hn) as Hname. fold b judged in Hname.
  split; intros Hday.
  - pose proof (date_outside_days_rejected b s a d) as H. cbv zeta in H.
    fold selectedDoctor in H. rewrite Hname in H. fold msg r r' in H.
    exact (H Hdoc Hd Hvalid Ha Hday).
  - assert (Hdoc' : sel_value (doctor (form (dateInputChanged d s))) <> "") by exact Hdoc.
    assert (Hdate' : date_value (appointment_date (form (dateInputChanged d s))) <> "")
      by exact Hd.
    assert (Ha' : lookup (sel_value (doctor (form (dateInputChanged d s))))
                    doctorAvailability = Some a) by exact Ha.
    assert (Hday' : arrayIncludes (days a)
                      (dayNameOf b (date_value (appointment_date
                                                  (form (dateInputChanged d s))))) = true).
    { change (date_value (appointment_date (form (dateInputChanged d s)))) with d.
      now rewrite Hname. }
    destruct (handleDateSelection_accept b _ a Hdoc' Hdate' Ha' Hday')
      as (h & _ & Hc & Htime & _).
    split; [exact Hc |]. split; [| split].
    + exact (handleDateSelection_keeps_date b _ a Ha' Hday').
    + exact (handleDateSelection_quiet b _ a Hdoc' Hdate' Ha' Hday').
    + exists h. exact Htime.
Qed.

(** Five hours west of UTC, with Dr. Grey selected, who works Monday to
    Friday: Saturday 8 November 2025 is kept and its time slots are
    offered, and Monday 10 November 2025 is refused as a Sunday. *)
Lemma date_judged_by_local_weekday_witness :
  let b := Reference.zoned (-300) Reference.clock in
  let grey := simple ["monday"; "tuesday"; "wednesday"; "thursday"; "friday"]
                     "09:00" "17:00" "Sloan Primary Care" in
  let s := Reference.selected "Grey, Meredith" in
  let saturday := handleDateSelection b (dateInputChanged "2025-11-08" s) in
  let monday := handleDateSelection b (dateInputChanged "2025-11-10" s) in
  (option_map Spec.weekdayOfDay (Spec.dayNumber "2025-11-08") = Some "Saturday"
   /\ date_value (appointment_date (form (finalState saturday))) = "2025-11-08"
   /\ Spec.visible (events saturday) = []
   /\ sel_disabled (appointment_time (form (finalState saturday))) = false)
  /\ (option_map Spec.weekdayOfDay (Spec.dayNumber "2025-11-10") = Some "Monday"
      /\ date_value (appointment_date (form (finalState monday))) = ""
      /\ In (Alert ("Grey, Meredith is not available on sundays. "
                    ++ "Available days: monday, tuesday, wednesday, thursday, friday"))
            (events monday)).
Proof.
  intros b grey s saturday monday. subst saturday monday b. split.
  - destruct (proj2 (date_judged_by_local_weekday (-300) Reference.clock s grey
                       "2025-11-08" 20400 ltac:(lia) ltac:(discriminate) eq_refl eq_refl)
                eq_refl) as (_ & Hdate & Hquiet & h & Htime).
    split; [reflexivity |]. split; [exact Hdate |]. split; [exact Hquiet |].
    rewrite Htime. reflexivity.
  - destruct (proj1 (date_judged_by_local_weekday (-300) Reference.clock s grey
                       "2025-11-10" 20402 ltac:(lia) ltac:(discriminate) eq_refl eq_refl)
                eq_refl) as [(_ & Hdate & Hev & _) _].
    split; [reflexivity |]. split; [exact Hdate |].
    rewrite Hev. right. left. reflexivity.
Defined.

(** X4. For the split-schedule doctor the location follows the day by
    which the browser judges the date: the weekday of the date in a zone at
    or east of UTC, the weekday of the day before in a zone west of UTC.
    When that day is one of the working days, the location is set to the
    one of its segment (PPTH Orthopedics from Monday to Wednesday,
    Jefferson Hospital on Thursday and Friday, when the select offers
    them), the date is kept, and the time select is left enabled,
    unselected, with the slots from 09:00 to 16:30. *)
Theorem split_schedule_date_sets_location (zone clock : Z) (s : App) (n : Z) :
  let b := Reference.zoned zone clock in
  let f := form s in
  -1440 < zone < 1440 ->
  sel_value (doctor f) = "House, Gregory" ->
  Spec.dayNumber (date_value (appointment_date f)) = Some n ->
  let judged := JS.toLowerCase (Spec.weekdayOfDay (if zone <? 0 then n - 1 else n)) in
  arrayIncludes ["monday"; "tuesday"; "wednesday"; "thursday"; "friday"] judged = true ->
  hasOption "PPTH Orthopedics" (appointment_location f) = true ->
  hasOption "Jefferson Hospital" (appointment_location f) = true ->
  let r := handleDateSelection b s in
  let f' := form (finalState r) in
  completion r = Normal tt
  /\ sel_value (appointment_location f')
     = (if arrayIncludes ["monday"; "tuesday"; "wednesday"] judged
        then "PPTH Orthopedics" else "Jefferson Hospital")
  /\ date_value (appointment_date f') = date_value (appointment_date f)
  /\ appointment_time f' = regenerated {| start := "09:00"; finish := "17:00" |}.
Proof.
  intros b f Hzone Hdoc Hn judged Hday Hppth Hjeff r f'.
  destruct (dayNumber_valid zone clock _ n Hn) as [_ Hd].
  pose proof (dayNameOf_zoned zone clock Hzone _ n Hn) as Hname. fold b f judged in Hname.
  pose proof (split_schedule_location_by_day b s) as H. cbv zeta in H.
  fold f in H. rewrite Hname in H.
  exact (H Hdoc Hd Hday Hppth Hjeff).
Qed.

(** Thursday 13 November 2025: Jefferson Hospital in the zone of UTC, and
    PPTH Orthopedics five hours west of it, where the date is judged as a
    Wednesday. *)
Lemma split_schedule_date_sets_location_witness :
  let s := dateInputChanged "2025-11-13" (Reference.selected "House, Gregory") in
  let here := form (finalState (handleDateSelection (Reference.zoned 0 Reference.clock) s)) in
  let west := form (finalState (handleDateSelection
                                  (Reference.zoned (-300) Reference.clock) s)) in
  option_map Spec.weekdayOfDay (Spec.dayNumber "2025-11-13") = Some "Thursday"
  /\ sel_value (appointment_location here) = "Jefferson Hospital"
  /\ sel_value (appointment_location west) = "PPTH Orthopedics"
  /\ map value (options (appointment_time here))
     = ["";
        "09:00"; "09:30"; "10:00"; "10:30"; "11:00"; "11:30"; "12:00"; "12:30";
        "13:00"; "13:30"; "14:00"; "14:30"; "15:00"; "15:30"; "16:00"; "16:30"].
Proof.
  intros s here west. subst s here west.
  destruct (split_schedule_date_sets_location 0 Reference.clock
              (dateInputChanged "2025-11-13" (Reference.selected "House, Gregory")) 20405
              ltac:(lia) eq_refl eq_refl eq_refl eq_refl eq_refl)
    as (_ & Hloc & _ & Htime).
  destruct (split_schedule_date_sets_location (-300) Reference.clock
              (dateInputChanged "2025-11-13" (Reference.selected "House, Gregory")) 20405
              ltac:(lia) eq_refl eq_refl eq_refl eq_refl eq_refl)
    as (_ & Hwest & _).
  split; [reflexivity |]. split; [exact Hloc |]. split; [exact Hwest |].
  rewrite Htime. reflexivity.
Defined.

(** X5. The listener that the date restrictions install and the date
    handler judge a date alike: once the restrictions of the selected
    catalogue doctor are set up, the listener reports a date as
    unavailable exactly when the handler then clears it, and accepts it
    exactly when the handler keeps it. *)
Theorem listener_agrees_with_handler
    (b : Browser) (s : App) (a : Availability) (d : string) :
  let doc := sel_value (doctor (form s)) in
  doc <> "" -> d <> "" ->
  lookup doc doctorAvailability = Some a ->
  let s1 := finalState (setupDateRestrictions b doc s) in
  let kept := date_value (appointment_date
                (form (finalState (handleDateSelection b (dateInputChanged d s1))))) in
  date_validation (appointment_date (form s1)) = Some (days a)
  /\ (validateDate b (days a) d = "" <-> kept = d)
  /\ (validateDate b (days a) d <> "" <-> kept = "").
Proof.
  intros doc Hdoc Hd Ha s1 kept.
  assert (Hs1 : s1 = setForm (with_date
                   (dateSetRestrictions (toISODate b (addDays b 1 (now b)))
                      (toISODate b (addMonths b 3 (now b))) (days a)
                      (appointment_date (form s))) (form s)) s).
  { subst s1. unfold setupDateRestrictions. rewrite Ha. reflexivity. }
  split; [rewrite Hs1; reflexivity |].
  assert (Hkept : kept = if arrayIncludes (days a) (dayNameOf b d) then d else "").
  { subst kept. destruct (arrayIncludes (days a) (dayNameOf b d)) eqn:Hday.
    - rewrite (handleDateSelection_keeps_date b _ a); rewrite Hs1; [reflexivity | exact Ha | exact Hday].
    - rewrite (handleDateSelection_reject b _ a); rewrite Hs1; try assumption. reflexivity. }
  assert (Hv := validateDate_accepts b (days a) d).
  rewrite Hkept. destruct (arrayIncludes (days a) (dayNameOf b d)).
  - assert (Hok : validateDate b (days a) d = "") by now apply Hv.
    split; [tauto |]. split; [intros H; now contradiction H | congruence].
  - assert (Hbad : validateDate b (days a) d <> "")
      by (intros H; apply Hv in H; discriminate H).
    split; [| tauto]. split; [intros H; now contradiction Hbad | congruence].
Qed.

Lemma listener_agrees_with_handler_witness :
  let s1 := finalState (setupDateRestrictions Reference.browser "Perry, Chris"
                          (Reference.selected "Perry, Chris")) in
  dayNameOf Reference.browser "2025-11-13" = "thursday"
  /\ (validateDate Reference.browser ["monday"; "tuesday"; "wednesday"] "2025-11-13" <> ""
      <-> date_value (appointment_date
            (form (finalState (handleDateSelection Reference.browser
                                 (dateInputChanged "2025-11-13" s1))))) = "").
Proof.
  split; [reflexivity |].
  exact (proj2 (proj2 (listener_agrees_with_handler Reference.browser
           (Reference.selected "Perry, Chris")
           (simple ["monday"; "tuesday"; "wednesday"] "09:00" "17:00"
                   "Sacred Heart Surgical Department")
           "2025-11-13" ltac:(discriminate) ltac:(discriminate) eq_refl))).
Defined.

(** ** Slots as times of day *)

Section SlotTimes.

Lemma formatTime_wellformed (m : Z) :
  0 <= m <= 1439 ->
  Spec.isHHMM (formatTime m) = true /\ parseTime (formatTime m) = Some m.
Proof.
  intros Hm.
  assert (Hdm := Z.div_mod m 60 ltac:(lia)).
  assert (Hr := Z.mod_pos_bound m 60 ltac:(lia)).
  assert (Hq : 0 <= m / 60 <= 23).
  { split; [apply Z.div_pos; lia |].
    assert (m / 60 < 24); [apply Z.div_lt_upper_bound; lia | lia]. }
  assert (Hfmt : formatTime m = JS.pad2 (m / 60) ++ ":" ++ JS.pad2 (m mod 60)).
  { replace m with (m / 60 * 60 + m mod 60) at 1 by lia. apply formatTime_pad2; lia. }
  rewrite Hfmt.
  destruct (pad2_digits (m / 60) ltac:(lia)) as (a & b & Ha & Hb & -> & Hab).
  destruct (pad2_digits (m mod 60) ltac:(lia)) as (c & d & Hc & Hd & -> & Hcd).
  cbn [append]. split.
  - cbn [Spec.isHHMM forallb]. rewrite Ha, Hb, Hc, Hd, Hab, Hcd. cbn [andb].
    change (Ascii.eqb ":" ":") with true. cbn [andb].
    apply andb_true_iff. split; apply Z.leb_le; lia.
  - rewrite parseTime_HHMM by assumption. f_equal. lia.
Qed.

Lemma nth_error_seq_from (a n i : nat) :
  nth_error (seq a n) i = if Nat.ltb i n then Some (a + i)%nat else None.
Proof.
  revert a i. induction n as [| n IH]; intros a [| i]; cbn [seq nth_error]; try reflexivity.
  - change (Nat.ltb 0 (S n)) with true. cbn iota. now rewrite Nat.add_0_r.
  - rewrite IH. change (Nat.ltb (S i) (S n)) with (Nat.ltb i n).
    destruct (Nat.ltb i n); [f_equal; apply Nat.add_succ_comm | reflexivity].
Qed.

Lemma slot_nth (s e : Z) (i : nat) (slot : string) :
  nth_error (timeSlots s e) i = Some slot ->
  slot = formatTime (s + 30 * Z.of_nat i) /\ s + 30 * Z.of_nat i < e.
Proof.
  rewrite timeSlots_sequence. unfold Spec.slotSequence.
  rewrite nth_error_map, nth_error_seq_from.
  destruct (Nat.ltb_spec i (Z.to_nat (Spec.ceil30 (e - s)))) as [Hlt | Hge];
    [| discriminate].
  cbn [option_map Nat.add]. intros [= <-]. split; [reflexivity |].
  unfold Spec.ceil30 in Hlt.
  assert (Hi : Z.of_nat i + 1 <= (e - s + 29) / 30) by lia.
  assert (H30 := Z.mul_div_le (e - s + 29) 30 ltac:(lia)). lia.
Qed.

End SlotTimes.

(** X6. For hours within one day (from 00:00 up to 24:00), every slot that
    is generated is a zero-padded "HH:MM" before the end, the slot at
    position [i] reads back as [start + 30 i] minutes, and no slot occurs
    twice. *)
Theorem slots_are_times_of_day (s e : Z) :
  0 <= s -> e <= 1440 ->
  (forall i slot,
      nth_error (timeSlots s e) i = Some slot ->
      Spec.isHHMM slot = true
      /\ parseTime slot = Some (s + 30 * Z.of_nat i)
      /\ s + 30 * Z.of_nat i < e)
  /\ NoDup (timeSlots s e).
Proof.
  intros Hs He.
  assert (Hnth : forall i slot,
             nth_error (timeSlots s e) i = Some slot ->
             Spec.isHHMM slot = true
             /\ parseTime slot = Some (s + 30 * Z.of_nat i)
             /\ s + 30 * Z.of_nat i < e).
  { intros i slot H. destruct (slot_nth s e i slot H) as [-> Hlt].
    destruct (formatTime_wellformed (s + 30 * Z.of_nat i) ltac:(lia)) as [H1 H2]. auto. }
  split; [exact Hnth |].
  apply NoDup_nth_error. intros i j Hi Heq.
  destruct (nth_error (timeSlots s e) i) as [slot |] eqn:Hslot.
  - destruct (Hnth i slot Hslot) as (_ & Hpi & _).
    destruct (Hnth j slot (eq_sym Heq)) as (_ & Hpj & _).
    assert (s + 30 * Z.of_nat i = s + 30 * Z.of_nat j) by congruence. lia.
  - apply nth_error_None in Hslot. lia.
Qed.

Lemma slots_are_times_of_day_witness :
  nth_error (timeSlots 600 960) 11 = Some "15:30"
  /\ parseTime "15:30" = Some (600 + 30 * 11)
  /\ NoDup (timeSlots 600 960).
Proof.
  destruct (slots_are_times_of_day 600 960 ltac:(lia) ltac:(lia)) as [Hnth Hnd].
  split; [reflexivity |]. split; [| exact Hnd].
  exact (proj1 (proj2 (Hnth 11%nat "15:30" eq_refl))).
Defined.

(** ** Batches as a whole *)

Section Batches.

Variable b : Browser.

Lemma bind_completion {A B : Type} (m : M A) (k : A -> M B) (s : App) :
  completion (bind m k s)
  = match completion (m s) with
    | Normal a => completion (k a (finalState (m s)))
    | Thrown => Thrown
    end.
Proof.
  unfold bind, completion, finalState. destruct (m s) as [[[a |] s'] ev]; [| reflexivity].
  cbn [fst snd]. now destruct (k a s') as [[c s''] ev'].
Qed.

Lemma bind_events {A B : Type} (m : M A) (k : A -> M B) (s : App) :
  events (bind m k s)
  = (events (m s)
     ++ match completion (m s) with
        | Normal a => events (k a (finalState (m s)))
        | Thrown => []
        end)%list.
Proof.
  unfold bind, completion, finalState, events.
  destruct (m s) as [[[a |] s'] ev]; cbn [fst snd]; [| now rewrite app_nil_r].
  now destruct (k a s') as [[c s''] ev'].
Qed.

Lemma bind_state {A B : Type} (m : M A) (k : A -> M B) (s : App) :
  finalState (bind m k s)
  = match completion (m s) with
    | Normal a => finalState (k a (finalState (m s)))
    | Thrown => finalState (m s)
    end.
Proof.
  unfold bind, completion, finalState. destruct (m s) as [[[a |] s'] ev]; [| reflexivity].
  cbn [fst snd]. now destruct (k a s') as [[c s''] ev'].
Qed.

(** The date handler: what it leaves alone besides the booking fields, and
    what it emits. *)
Lemma handleDateSelection_identity (s : App) :
  let f := form s in
  let f' := form (finalState (handleDateSelection b s)) in
  first_name f' = first_name f /\ last_name f' = last_name f /\ dob f' = dob f
  /\ others f' = others f
  /\ forall l, ~ In (Notification l) (events (handleDateSelection b s)).
Proof.
  destruct s as [patient f]. handlers.
  cases; repeat split; try reflexivity; intros; intros Hin;
    cbn in Hin; repeat (destruct Hin as [Hin | Hin]; [discriminate Hin |]); exact Hin.
Qed.

Lemma doctorRule_identity (fu : list (string * string)) (acc : Locals) (s : App) :
  let f := form s in
  let f' := form (finalState (doctorRule b fu acc s)) in
  first_name f' = first_name f /\ last_name f' = last_name f /\ dob f' = dob f
  /\ others f' = others f
  /\ forall l, ~ In (Notification l) (events (doctorRule b fu acc s)).
Proof.
  destruct s as [patient f]. handlers.
  cases; repeat split; try reflexivity; intros; intros Hin;
    cbn in Hin; repeat (destruct Hin as [Hin | Hin]; [discriminate Hin |]); exact Hin.
Qed.

Lemma dateRule_identity (fu : list (string * string)) (acc : Locals) (s : App) :
  let f := form s in
  let f' := form (finalState (dateRule b fu acc s)) in
  first_name f' = first_name f /\ last_name f' = last_name f /\ dob f' = dob f
  /\ others f' = others f
  /\ forall l, ~ In (Notification l) (events (dateRule b fu acc s)).
Proof.
  unfold dateRule. destruct (needsDateHandler acc).
  2:{ destruct s. run. repeat split. intros l []. }
  assert (Hid := handleDateSelection_identity s). cbv zeta in Hid.
  run. revert Hid. generalize (handleDateSelection b s).
  intros [[c s1] ev1] (H1 & H2 & H3 & H4 & Hev). cbn [finalState events fst snd] in *.
  destruct c as [[] |];
    [destruct (lookup "appointment-time" fu) as [t |]; run; [destruct (JS.truthy t); run |] |];
    repeat split; try assumption; intros; intros Hin;
    cbn [In app] in Hin;
    destruct Hin as [Hin | Hin]; try discriminate Hin;
    try (apply in_app_or in Hin as [Hin | Hin];
         [| cbn in Hin; destruct Hin as [Hin | []]; discriminate Hin]);
    try rewrite app_nil_r in Hin; exact (Hev _ Hin).
Qed.

Lemma dateRule_idle (fu : list (string * string)) (acc : Locals) (s : App) :
  needsDateHandler acc = false -> dateRule b fu acc s = (Normal tt, s, []).
Proof. intros H. unfold dateRule. now rewrite H. Qed.

End Batches.

Section WholeBatch.

Variable b : Browser.

Lemma foundFields_keys (batch : list (string * string)) (f f' : Form) :
  map fst (others f) = map fst (others f') ->
  foundFields batch f = foundFields batch f'.
Proof.
  intros H. unfold foundFields. apply filter_ext. intros field.
  now rewrite (getElementById_keys field f f' H).
Qed.

(** The fields recorded as updated are the batch fields found on the
    page. *)
Lemma stepAll_updated (batch : list (string * string)) :
  forall acc f,
    updatedFields (stepAll b acc batch f)
    = (updatedFields acc ++ foundFields batch f)%list.
Proof.
  induction batch as [| [field v] batch IH]; intros acc f; cbn [stepAll fst].
  - unfold foundFields. cbn. now rewrite app_nil_r.
  - rewrite IH. rewrite (foundFields_keys batch _ f (applyEntry_keys b (field, v) f)).
    unfold stepLocals, foundFields. cbn [map fst filter].
    destruct (getElementById field f); cbn [updatedFields];
      [now rewrite <- app_assoc | reflexivity].
Qed.

Lemma applyEntry_doctor (v : string) (f : Form) :
  doctor (applyEntry b ("doctor", v) f)
  = selectSetValue
      (match matchedOption (options (doctor f)) v with
       | Some o => value o
       | None => v
       end) (doctor f).
Proof.
  unfold applyEntry. cbn. destruct (matchedOption (options (doctor f)) v); reflexivity.
Qed.

Lemma selectSetValue_catalogued (v : string) (el : SelectEl) :
  forallb (fun o => catalogued (value o)) (options el) = true ->
  catalogued (sel_value (selectSetValue v el)) = true.
Proof.
  intros Hall. unfold selectSetValue, hasOption. cbn [sel_value].
  destruct (existsb (fun o => String.eqb (value o) v) (options el)) eqn:Hex; [| reflexivity].
  apply existsb_exists in Hex as (o & Hin & Ho). apply String.eqb_eq in Ho. subst v.
  rewrite forallb_forall in Hall. now apply Hall.
Qed.

(** The first pass keeps the doctor select within the catalogue. *)
Lemma applyEntries_catalogued (batch : list (string * string)) :
  forall f, doctorsCatalogued f = true -> doctorsCatalogued (applyEntries b batch f) = true.
Proof.
  induction batch as [| [field v] batch IH]; intros f Hf; [exact Hf |].
  cbn [applyEntries]. apply IH. unfold doctorsCatalogued in *.
  destruct (String.eqb_spec field "doctor") as [-> | Hne].
  - rewrite applyEntry_doctor. apply andb_true_iff in Hf as [_ Hall].
    apply andb_true_iff. split; [now apply selectSetValue_catalogued | exact Hall].
  - now rewrite (proj1 (applyEntry_frame b (field, v) f) Hne).
Qed.

Lemma handleDateSelection_completes (s : App) :
  catalogued (sel_value (doctor (form s))) = true ->
  completion (handleDateSelection b s) = Normal tt.
Proof.
  intros Hcat.
  destruct (String.eqb_spec (sel_value (doctor (form s))) "") as [Hdoc | Hdoc].
  - unfold handleDateSelection. run. rewrite Hdoc. reflexivity.
  - destruct (String.eqb_spec (date_value (appointment_date (form s))) "") as [Hdate | Hdate].
    + unfold handleDateSelection. run. rewrite Hdate.
      destruct (JS.truthy (sel_value (doctor (form s)))); reflexivity.
    + unfold catalogued in Hcat. rewrite (proj2 (String.eqb_neq _ _) Hdoc) in Hcat.
      cbn [orb] in Hcat.
      destruct (lookup (sel_value (doctor (form s))) doctorAvailability) as [a |] eqn:Ha;
        [| discriminate].
      destruct (arrayIncludes (days a)
                  (dayNameOf b (date_value (appointment_date (form s))))) eqn:Hday.
      * destruct (handleDateSelection_accept b s a Hdoc Hdate Ha Hday) as (h & _ & Hc & _).
        exact Hc.
      * now rewrite (handleDateSelection_reject b s a Hdoc Hdate Ha Hday).
Qed.

Lemma dateRule_completes (fu : list (string * string)) (acc : Locals) (s : App) :
  catalogued (sel_value (doctor (form s))) = true ->
  completion (dateRule b fu acc s) = Normal tt.
Proof.
  intros Hcat. assert (Hc := handleDateSelection_completes s Hcat).
  unfold dateRule. destruct (needsDateHandler acc); [| reflexivity].
  run. revert Hc. generalize (handleDateSelection b s).
  intros [[c s1] ev1] Hc. cbn [completion fst] in Hc. subst c.
  destruct (lookup "appointment-time" fu) as [t |]; run;
    [destruct (JS.truthy t) |]; reflexivity.
Qed.

(** The three parts of a run of the second pass. *)
Lemma secondPass_parts (fu : list (string * string)) (acc : Locals) (s : App) :
  let s2 := finalState (doctorRule b fu acc s) in
  let r3 := dateRule b fu acc s2 in
  completion (secondPass b fu acc s)
  = match completion r3 with
    | Normal _ => Normal tt
    | Thrown => Thrown
    end
  /\ finalState (secondPass b fu acc s) = finalState r3
  /\ events (secondPass b fu acc s)
     = (events (doctorRule b fu acc s) ++ events r3
        ++ match completion r3 with
           | Normal _ => events (notifyUpdated acc (finalState r3))
           | Thrown => []
           end)%list.
Proof.
  intros s2 r3.
  destruct (doctorRule_frame b fu acc s) as (Hnormal & _).
  unfold secondPass.
  rewrite bind_completion, bind_state, bind_events, Hnormal.
  rewrite bind_completion, bind_state, bind_events. fold s2 r3.
  destruct (completion r3) as [[] |]; repeat split.
  - unfold notifyUpdated. cases; reflexivity.
  - apply notifyUpdated_state.
Qed.

End WholeBatch.

(** X7. On a page whose doctor select offers, and holds, only doctors of
    the catalogue (or the empty value), applying a batch whose values are
    strings ends normally: the [TypeError] that the date handler raises
    for a doctor without a catalogue entry cannot arise, and the doctor
    select still holds a doctor of the catalogue afterwards.  Values that
    are not strings are not covered: on a null or a number the matcher
    itself throws. *)
Theorem catalogued_page_never_throws
    (b : Browser) (batch : list (string * string)) (s : App) :
  doctorsCatalogued (form s) = true ->
  let r := updateAppointmentForm b batch s in
  completion r = Normal tt
  /\ doctorsCatalogued (form (finalState r)) = true.
Proof.
  intros Hcat r. subst r.
  destruct (updateAppointmentForm_run b batch s) as (_ & ->).
  cbn [completion finalState fst snd].
  set (acc1 := stepAll b emptyLocals batch (form s)).
  set (s1 := setForm (applyEntries b batch (form s)) s).
  assert (Hcat1 : doctorsCatalogued (form s1) = true)
    by now apply applyEntries_catalogued.
  destruct (secondPass_parts b batch acc1 s1) as (Hc & Hf & _).
  destruct (doctorRule_frame b batch acc1 s1) as (_ & _ & Hdoc & _).
  destruct (dateRule_frame b batch acc1 (finalState (doctorRule b batch acc1 s1)))
    as (Hdoc' & _).
  assert (Hcat2 : catalogued (sel_value (doctor
             (form (finalState (doctorRule b batch acc1 s1))))) = true).
  { rewrite Hdoc. unfold doctorsCatalogued in Hcat1.
    now apply andb_true_iff in Hcat1 as [H _]. }
  change (fst (fst (secondPass b batch acc1 s1))) with (completion (secondPass b batch acc1 s1)).
  change (snd (fst (secondPass b batch acc1 s1))) with (finalState (secondPass b batch acc1 s1)).
  rewrite Hc, Hf, (dateRule_completes b batch acc1 _ Hcat2).
  split; [reflexivity |].
  unfold doctorsCatalogued. now rewrite Hdoc', Hdoc.
Qed.

Lemma catalogued_page_never_throws_witness :
  let r := updateAppointmentForm Reference.browser
             [("doctor", "Dr. Shepherd"); ("appointment-date", "2025-11-10")]
             Reference.app in
  completion r = Normal tt.
Proof.
  exact (proj1 (catalogued_page_never_throws Reference.browser
                  [("doctor", "Dr. Shepherd"); ("appointment-date", "2025-11-10")]
                  Reference.app eq_refl)).
Defined.

(** X8. The notification of a batch lists exactly the batch fields that
    name an element of the page, in batch order.  It is the only
    notification a batch can show; it is shown whenever the batch ends
    normally and names at least one element, and never when it names
    none. *)
Theorem notification_lists_found_fields
    (b : Browser) (batch : list (string * string)) (s : App) :
  let r := updateAppointmentForm b batch s in
  let found := foundFields batch (form s) in
  (forall l, In (Notification l) (events r) -> l = found /\ found <> [])
  /\ (completion r = Normal tt -> found <> [] -> In (Notification found) (events r)).
Proof.
  intros r found. subst r.
  destruct (updateAppointmentForm_run b batch s) as (Hv & ->).
  cbn [completion finalState events fst snd].
  set (acc1 := stepAll b emptyLocals batch (form s)).
  set (s1 := setForm (applyEntries b batch (form s)) s).
  set (ev1 := events (firstPass b emptyLocals batch s)) in *.
  assert (Hupd : updatedFields acc1 = found)
    by (unfold acc1; now rewrite stepAll_updated).
  destruct (secondPass_parts b batch acc1 s1) as (Hc & _ & He).
  change (fst (fst (secondPass b batch acc1 s1))) with (completion (secondPass b batch acc1 s1)).
  change (snd (secondPass b batch acc1 s1)) with (events (secondPass b batch acc1 s1)).
  rewrite Hc, He.
  assert (Hnotify : forall s', events (notifyUpdated acc1 s')
                               = match found with
                                 | [] => []
                                 | _ => [Notification found; Log (UpdatedFormFields found)]
                                 end).
  { intros s'. unfold notifyUpdated. rewrite Hupd. destruct found; reflexivity. }
  split.
  - intros l Hin. destruct Hin as [Hin | Hin]; [discriminate Hin |].
    apply in_app_or in Hin as [Hin | Hin].
    { exfalso. assert (Hin' : In (Notification l) (Spec.visible ev1))
        by (apply filter_In; split; [exact Hin | reflexivity]).
      rewrite Hv in Hin'. destruct Hin'. }
    apply in_app_or in Hin as [Hin | Hin].
    { exfalso. exact (proj2 (proj2 (proj2 (proj2 (doctorRule_identity b batch acc1 s1)))) l Hin). }
    apply in_app_or in Hin as [Hin | Hin].
    { exfalso.
      exact (proj2 (proj2 (proj2 (proj2 (dateRule_identity b batch acc1 _)))) l Hin). }
    destruct (completion (dateRule b batch acc1 (finalState (doctorRule b batch acc1 s1))));
      [| destruct Hin].
    rewrite Hnotify in Hin. destruct found as [| x rest]; [destruct Hin |].
    destruct Hin as [[= <-] | [Hin | []]]; [| discriminate Hin].
    split; [reflexivity | discriminate].
  - intros Hdone Hne.
    destruct (completion (dateRule b batch acc1 (finalState (doctorRule b batch acc1 s1))));
      [| discriminate Hdone].
    right. apply in_or_app. right. apply in_or_app. right. apply in_or_app. right.
    rewrite Hnotify. destruct found; [congruence | now left].
Qed.

Section DoctorChange.

Variable b : Browser.

Lemma doctorRule_triggers (fu : list (string * string)) (acc : Locals) (s : App) :
  needsDoctorHandler acc = true ->
  truthyProp fu "appointment-location" = false ->
  let time := appointment_time (form (finalState (doctorRule b fu acc s))) in
  sel_value time = "" /\ sel_disabled time = true /\ map value (options time) = [""].
Proof.
  intros Hneeds Hloc. destruct s as [patient f].
  unfold doctorRule. rewrite Hneeds, Hloc. cbn [negb andb]. handlers.
  cases; repeat split.
Qed.

End DoctorChange.

(** X9. A batch that names the doctor but no date either keeps or resets
    what was chosen before.  With a non-empty location in the batch (and no
    time), the doctor handler is skipped and the date and the whole time
    select, with its options and its selection, stay as they were, whether
    or not the new doctor works on that day.  Without a location the time
    select ends disabled, unselected and reduced to its placeholder, even
    if the batch itself set a time. *)
Theorem doctor_change_and_previous_choice
    (b : Browser) (batch : list (string * string)) (s : App) (dv : string) :
  NoDup (map fst batch) ->
  In ("doctor", dv) batch ->
  lookup "appointment-date" batch = None ->
  let r := updateAppointmentForm b batch s in
  let f' := form (finalState r) in
  completion r = Normal tt
  /\ (truthyProp batch "appointment-location" = true ->
      lookup "appointment-time" batch = None ->
      date_value (appointment_date f') = date_value (appointment_date (form s))
      /\ appointment_time f' = appointment_time (form s))
  /\ (truthyProp batch "appointment-location" = false ->
      sel_value (appointment_time f') = ""
      /\ sel_disabled (appointment_time f') = true
      /\ map value (options (appointment_time f')) = [""]).
Proof.
  intros Hnd Hdoc Hnodate r f'. subst f' r.
  destruct (updateAppointmentForm_run b batch s) as (_ & ->).
  cbn [completion finalState fst snd].
  set (acc1 := stepAll b emptyLocals batch (form s)).
  set (f1 := applyEntries b batch (form s)).
  set (s1 := setForm f1 s).
  destruct (stepAll_flags b batch emptyLocals (form s)) as [Hflag1 Hflag2].
  fold acc1 in Hflag1, Hflag2.
  cbn [emptyLocals needsDoctorHandler needsDateHandler orb] in Hflag1, Hflag2.
  rewrite (existsb_key _ _ _ Hdoc) in Hflag1.
  rewrite (existsb_no_key _ _ Hnodate) in Hflag2.
  destruct (secondPass_parts b batch acc1 s1) as (Hc & Hf & _).
  change (fst (fst (secondPass b batch acc1 s1))) with (completion (secondPass b batch acc1 s1)).
  change (snd (fst (secondPass b batch acc1 s1))) with (finalState (secondPass b batch acc1 s1)).
  rewrite Hc, Hf, (dateRule_idle b batch acc1 _ Hflag2). cbn [completion finalState fst snd].
  split; [reflexivity |]. split.
  - intros Hloc Hnotime.
    destruct (doctorRule_skip b batch acc1 s1 Hflag1 Hloc) as (_ & _ & _ & Ht & Hd & _).
    rewrite Hd, Ht. change (form s1) with f1. unfold f1. split.
    + f_equal.
      apply (applyEntries_absent b appointment_date "appointment-date"
               (fun e f Hne => proj1 (proj2 (proj2 (proj2 (applyEntry_frame b e f)))) Hne)).
      now apply lookup_absent.
    + apply (applyEntries_absent b appointment_time "appointment-time"
               (fun e f Hne => proj2 (proj2 (proj2 (proj2 (applyEntry_frame b e f)))) Hne)).
      now apply lookup_absent.
  - intros Hloc. exact (doctorRule_triggers b batch acc1 s1 Hflag1 Hloc).
Qed.

Lemma doctor_change_and_previous_choice_witness :
  let chosen := finalState (updateAppointmentForm Reference.browser
                  [("doctor", "Grey, Meredith"); ("appointment-date", "2025-11-13");
                   ("appointment-time", "10:00")] Reference.app) in
  let r := updateAppointmentForm Reference.browser
             [("doctor", "Perry, Chris");
              ("appointment-location", "Sacred Heart Surgical Department")] chosen in
  let f' := form (finalState r) in
  sel_value (doctor f') = "Perry, Chris"
  /\ dayNameOf Reference.browser "2025-11-13" = "thursday"
  /\ lookup "Perry, Chris" doctorAvailability
     = Some (simple ["monday"; "tuesday"; "wednesday"] "09:00" "17:00"
                    "Sacred Heart Surgical Department")
  /\ date_value (appointment_date f') = "2025-11-13"
  /\ sel_value (appointment_time f') = "10:00".
Proof.
  intros chosen r f'.
  assert (Hnd : NoDup (map fst [("doctor", "Perry, Chris");
                                ("appointment-location",
                                 "Sacred Heart Surgical Department")])).
  { repeat constructor; cbn; intuition discriminate. }
  destruct (doctor_change_and_previous_choice Reference.browser
              [("doctor", "Perry, Chris");
               ("appointment-location", "Sacred Heart Surgical Department")]
              chosen "Perry, Chris" Hnd (or_introl eq_refl) eq_refl)
    as (_ & Hkeep & _).
  destruct (Hkeep eq_refl eq_refl) as [Hdate Htime].
  split; [reflexivity |]. split; [reflexivity |]. split; [reflexivity |].
  subst f' r. rewrite Hdate, Htime. split; reflexivity.
Defined.

Section IdentityFields.

Variable b : Browser.

Lemma applyEntry_frame_identity (entry : string * string) (f : Form) :
  let f' := applyEntry b entry f in
  (fst entry <> "first-name" -> first_name f' = first_name f)
  /\ (fst entry <> "last-name" -> last_name f' = last_name f)
  /\ (fst entry <> "dob" -> dob f' = dob f).
Proof.
  destruct entry as [field v]. cbn [fst]. unfold applyEntry, getElementById. cbn [fst snd].
  repeat match goal with
         | |- context [String.eqb field ?k] =>
             destruct (String.eqb_spec field k) as [-> | ?]
         end;
    cbn;
    repeat match goal with
           | |- context [if ?c then _ else _] => destruct c
           | |- context [match matchedOption ?o ?w with _ => _ end] =>
               destruct (matchedOption o w)
           end;
    cbn; repeat split; intros; congruence.
Qed.

(** The second pass never writes the identity fields. *)
Lemma secondPass_identity (fu : list (string * string)) (acc : Locals) (s : App) :
  let f := form s in
  let f' := form (finalState (secondPass b fu acc s)) in
  first_name f' = first_name f /\ last_name f' = last_name f /\ dob f' = dob f.
Proof.
  destruct (secondPass_parts b fu acc s) as (_ & Hf & _). cbv zeta. rewrite Hf.
  destruct (dateRule_identity b fu acc (finalState (doctorRule b fu acc s)))
    as (H1 & H2 & H3 & _).
  destruct (doctorRule_identity b fu acc s) as (H1' & H2' & H3' & _).
  cbv zeta in *. repeat split; congruence.
Qed.

End IdentityFields.

(** X10. What a batch writes into the identity fields is what the
    submission reads back: with distinct fields, a first or last name of
    the batch is submitted without its line breaks, which the text input
    drops, and trimmed; a date of birth is submitted as given when it is a
    valid date string and as empty otherwise; no handler of the second
    pass touches them. *)
Theorem identity_fields_read_back
    (b : Browser) (batch : list (string * string)) (s : App) (v : string) :
  NoDup (map fst batch) ->
  let data := getAppointmentFormData
                (form (finalState (updateAppointmentForm b batch s))) in
  (In ("first-name", v) batch ->
   lookup "firstName" data = Some (JS.trim (JS.stripLineBreaks v)))
  /\ (In ("last-name", v) batch ->
      lookup "lastName" data = Some (JS.trim (JS.stripLineBreaks v)))
  /\ (In ("dob", v) batch ->
      lookup "dob" data = Some (if validDateString b v then v else "")).
Proof.
  intros Hnd data. subst data.
  destruct (updateAppointmentForm_run b batch s) as (_ & ->).
  cbn [finalState fst snd].
  set (acc1 := stepAll b emptyLocals batch (form s)).
  set (s1 := setForm (applyEntries b batch (form s)) s).
  destruct (secondPass_identity b batch acc1 s1) as (H1 & H2 & H3).
  change (snd (fst (secondPass b batch acc1 s1))) with (finalState (secondPass b batch acc1 s1)).
  unfold getAppointmentFormData.
  cbn [lookup String.eqb Ascii.eqb Bool.eqb]. rewrite H1, H2, H3.
  change (form s1) with (applyEntries b batch (form s)).
  split; [| split]; intros Hin; f_equal.
  - f_equal.
    apply (applyEntries_key b first_name "first-name"
             (fun e f Hne => proj1 (applyEntry_frame_identity b e f) Hne) v
             (fun _ => JS.stripLineBreaks v)
             (fun f => eq_refl) batch (form s) Hnd Hin).
  - f_equal.
    apply (applyEntries_key b last_name "last-name"
             (fun e f Hne => proj1 (proj2 (applyEntry_frame_identity b e f)) Hne) v
             (fun _ => JS.stripLineBreaks v) (fun f => eq_refl) batch (form s) Hnd Hin).
  - apply (applyEntries_key b dob "dob"
             (fun e f Hne => proj2 (proj2 (applyEntry_frame_identity b e f)) Hne) v
             (fun _ => if validDateString b v then v else "")
             (fun f => eq_refl) batch (form s) Hnd Hin).
Qed.

Lemma identity_fields_read_back_witness :
  let name := String " " (String "J" (String "a" (String "n" (String "e"
                (String "010" (String "D" (String "o" (String "e" " ")))))))) in
  lookup "firstName"
    (getAppointmentFormData
       (form (finalState (updateAppointmentForm Reference.browser
                            [("first-name", name); ("doctor", "House")]
                            Reference.app))))
  = Some "JaneDoe".
Proof.
  intros name.
  assert (Hnd : NoDup (map fst [("first-name", name); ("doctor", "House")])).
  { repeat constructor; cbn; intuition discriminate. }
  exact (proj1 (identity_fields_read_back Reference.browser
                  [("first-name", name); ("doctor", "House")] Reference.app name
                  Hnd) (or_introl eq_refl)).
Defined.

(** ** Submission *)

Section Submission.

Variable b : Browser.

Lemma trimStart_blank (s : string) :
  JS.trimStart s = "" <-> blank s = true.
Proof.
  induction s as [| c s IH]; cbn [JS.trimStart blank]; [tauto |].
  destruct (JS.isSpace c); cbn [andb]; [exact IH | split; discriminate].
Qed.

Lemma trimStart_head (s : string) (c : ascii) (t : string) :
  JS.trimStart s = String c t -> JS.isSpace c = false.
Proof.
  induction s as [| d s IH]; cbn [JS.trimStart]; [discriminate |].
  destruct (JS.isSpace d) eqn:Hd; [exact IH | intros [= <- _]; exact Hd].
Qed.

(** Trimming gives the empty string exactly for a blank string. *)
Lemma trim_blank (s : string) : JS.trim s = "" <-> blank s = true.
Proof.
  rewrite <- trimStart_blank. unfold JS.trim.
  destruct (JS.trimStart s) as [| c t] eqn:Hs; [cbn; tauto |].
  apply trimStart_head in Hs. cbn [JS.trimEnd]. rewrite Hs.
  split; [| discriminate]. destruct (JS.trimEnd t); discriminate.
Qed.

End Submission.

(** X11. A name that consists of white space only counts as missing at
    submission: the first name is reported missing exactly when the first
    name input is blank, and likewise the last name, because the submitted
    names are trimmed; the other required fields are missing exactly when
    their element holds the empty value. *)
Theorem blank_names_are_missing (f : Form) :
  let missing := missingFields (getAppointmentFormData f) in
  (In "firstName" missing <-> blank (first_name f) = true)
  /\ (In "lastName" missing <-> blank (last_name f) = true)
  /\ (In "dob" missing <-> dob f = "")
  /\ (In "doctor" missing <-> sel_value (doctor f) = "")
  /\ (In "appointmentType" missing <-> sel_value (appointment_type f) = "")
  /\ (In "location" missing <-> sel_value (appointment_location f) = "")
  /\ (In "date" missing <-> date_value (appointment_date f) = "")
  /\ (In "time" missing <-> sel_value (appointment_time f) = "").
Proof.
  assert (Hfield : forall field v,
             In field required ->
             lookup field (getAppointmentFormData f) = Some v ->
             In field (missingFields (getAppointmentFormData f)) <-> v = "").
  { intros field v Hreq Hlook. rewrite missingFields_spec. unfold Spec.emptyField.
    rewrite Hlook. split.
    - intros [_ [H | H]]; congruence.
    - intros ->. auto. }
  cbv zeta. rewrite <- !trim_blank.
  repeat split; try (apply Hfield; [cbn; tauto | reflexivity]);
    apply Hfield; try reflexivity; cbn; tauto.
Qed.

(** X12. A booking whose form passes the validation ends in one of two
    ways.  When the booking service refuses, the form is left exactly as
    it was and the alert shows the service's error, or "Failed to book
    appointment" when it gives none.  When it accepts, the success alert
    carries the appointment id, and the form is reset with the date input
    and the time select disabled and the time select reduced to its
    unselected placeholder. *)
Theorem booking_outcomes (b : Browser) (response : BookingResponse) (s : App) :
  let data := getAppointmentFormData (form s) in
  missingFields data = [] ->
  dateIsPast b data = false ->
  let r := bookAppointment b response s in
  let f' := form (finalState r) in
  completion r = Normal tt
  /\ (success response = false ->
      finalState r = s
      /\ In (Alert (match error response with
                    | Some e => if JS.truthy e then e else "Failed to book appointment"
                    | None => "Failed to book appointment"
                    end)) (events r))
  /\ (success response = true ->
      In (Alert ("Appointment booked successfully! Appointment ID: "
                 ++ appointmentId response)) (events r)
      /\ date_disabled (appointment_date f') = true
      /\ sel_disabled (appointment_time f') = true
      /\ sel_value (appointment_time f') = ""
      /\ map value (options (appointment_time f')) = [""]
      /\ doctor f' = doctor (resetForm b (form s))
      /\ first_name f' = first_name (resetForm b (form s))).
Proof.
  intros data Hmissing Hpast r f'. subst f' r.
  assert (Hvalid : validateAppointmentForm b data s = (Normal true, s, [])).
  { rewrite validateAppointmentForm_run, Hmissing, Hpast. reflexivity. }
  unfold bookAppointment, clearAppointmentForm, showSuccessMessage, showError,
    logActivity.
  run. fold data. rewrite Hvalid. run.
  destruct (success response); destruct s as [patient f]; run; cbn.
  - split; [reflexivity |]. split; [discriminate |]. intros _. repeat split. auto.
  - split; [reflexivity |]. split; [| discriminate]. intros _. split; [reflexivity | auto].
Qed.

Lemma booking_outcomes_witness :
  let s := finalState (updateAppointmentForm Reference.browser
             [("doctor", "Grey, Meredith"); ("appointment-date", "2025-11-10");
              ("appointment-time", "10:00")] Reference.app) in
  let refused := {| success := false; appointmentId := "";
                    error := Some "Doctor not available at selected time" |} in
  let r := bookAppointment Reference.browser refused s in
  finalState r = s /\ In (Alert "Doctor not available at selected time") (events r).
Proof.
  intros s refused r.
  exact (proj1 (proj2 (booking_outcomes Reference.browser refused s eq_refl eq_refl))
           eq_refl).
Defined.

(** ** The matcher and an option with the empty value *)

Section EmptyOption.

Lemma includes_empty (s : string) : JS.includes s "" = true.
Proof. apply includes_spec. now exists EmptyString, s. Qed.

Lemma includes_refl (s : string) : JS.includes s s = true.
Proof.
  apply includes_spec. exists EmptyString, EmptyString. cbn [append].
  induction s as [| c s IH]; cbn [append]; [reflexivity | now rewrite <- IH].
Qed.

(** The tiers are nested: an exact match is a case-insensitive one, and a
    case-insensitive match is a substring match. *)
Lemma exact_is_substring (c : string) (o : OptionEl) :
  substringMatch c o = false ->
  exactMatch c o = false /\ caseInsensitiveMatch c o = false.
Proof.
  unfold substringMatch, exactMatch, caseInsensitiveMatch. intros H.
  apply orb_false_elim in H as [Hv Ht].
  assert (Hne : forall x, JS.includes (JS.toLowerCase x) (JS.toLowerCase c) = false ->
                          String.eqb (JS.toLowerCase x) (JS.toLowerCase c) = false
                          /\ String.eqb x c = false).
  { intros x Hx. split.
    - destruct (String.eqb_spec (JS.toLowerCase x) (JS.toLowerCase c)) as [E |]; [| reflexivity].
      rewrite E, includes_refl in Hx. discriminate.
    - destruct (String.eqb_spec x c) as [E |]; [| reflexivity].
      rewrite E, includes_refl in Hx. discriminate. }
  destruct (Hne _ Hv) as [-> ->], (Hne _ Ht) as [-> ->]. split; reflexivity.
Qed.

Lemma find_none_all {A : Type} (p : A -> bool) (l : list A) :
  (forall x, In x l -> p x = false) -> find p l = None.
Proof.
  induction l as [| a l IH]; intros H; cbn [find]; [reflexivity |].
  rewrite (H a (or_introl eq_refl)). apply IH. intros x Hx. apply H. now right.
Qed.

(** With an option of empty value first in the list, a name that no option
    contains is resolved to that option. *)
Lemma matchedOption_placeholder (p : OptionEl) (rest : list OptionEl) (c : string) :
  value p = "" ->
  (forall o, In o (p :: rest) -> substringMatch c o = false) ->
  matchedOption (p :: rest) c = Some p.
Proof.
  intros Hp Hnone. unfold matchedOption.
  rewrite (find_none_all (exactMatch c)), (find_none_all (caseInsensitiveMatch c)),
    (find_none_all (substringMatch c)); try assumption;
    try (intros o Ho; now destruct (exact_is_substring c o (Hnone o Ho))).
  cbn [find]. unfold reverseSubstringMatch. rewrite Hp.
  change (JS.toLowerCase "") with "". now rewrite includes_empty.
Qed.

End EmptyOption.

(** X13. An option with the empty value, such as the placeholder of a select,
    matches every name in the fourth tier, because every string contains
    the empty string.  So when the doctor select starts with such an
    option, the matcher never reports that nothing matched, and a batch
    that only names a doctor contained in no option ends normally with the
    doctor deselected, the date cleared and disabled, the time select
    reset, and the notification listing the doctor field as updated. *)
Theorem unmatched_doctor_selects_placeholder
    (b : Browser) (s : App) (p : OptionEl) (rest : list OptionEl) (c : string) :
  options (doctor (form s)) = p :: rest ->
  value p = "" ->
  (forall v t, completion (findMatchingOption (p :: rest) v t) <> Normal None)
  /\ ((forall o, In o (p :: rest) -> substringMatch c o = false) ->
      let r := updateAppointmentForm b [("doctor", c)] s in
      let f' := form (finalState r) in
      completion (findMatchingOption (p :: rest) c s) = Normal (Some p)
      /\ completion r = Normal tt
      /\ sel_value (doctor f') = ""
      /\ date_value (appointment_date f') = ""
      /\ date_disabled (appointment_date f') = true
      /\ sel_value (appointment_time f') = ""
      /\ sel_disabled (appointment_time f') = true
      /\ In (Notification ["doctor"]) (events r)).
Proof.
  intros Hopts Hp. split.
  - intros v t. destruct (findMatchingOption_run (p :: rest) v t) as (evs & -> & _).
    cbn [completion fst]. unfold matchedOption.
    destruct (find (exactMatch v) (p :: rest)); [discriminate |].
    destruct (find (caseInsensitiveMatch v) (p :: rest)); [discriminate |].
    destruct (find (substringMatch v) (p :: rest)); [discriminate |].
    cbn [find]. unfold reverseSubstringMatch at 1. rewrite Hp.
    change (JS.toLowerCase "") with "". rewrite includes_empty. discriminate.
  - intros Hnone r f'. subst f' r.
    pose proof (matchedOption_placeholder p rest c Hp Hnone) as Hm.
    split.
    { destruct (findMatchingOption_run (p :: rest) c s) as (evs & -> & _).
      cbn [completion fst]. now rewrite Hm. }
    destruct (updateAppointmentForm_run b [("doctor", c)] s) as (_ & ->).
    cbn [completion finalState events fst snd].
    destruct s as [patient f]. cbn [form] in Hopts.
    cbn [applyEntries stepAll setForm form currentPatient fst snd].
    assert (Hdoc : doctor (applyEntry b ("doctor", c) f)
                   = selectSetValue "" (doctor f)).
    { rewrite applyEntry_doctor, Hopts, Hm, Hp. reflexivity. }
    assert (Hval : sel_value (selectSetValue "" (doctor f)) = "").
    { unfold selectSetValue. cbn [sel_value]. now destruct (hasOption _ _). }
    assert (Hacc : stepLocals emptyLocals "doctor" f
                   = {| updatedFields := ["doctor"]; needsDoctorHandler := true;
                        needsDateHandler := false |}) by reflexivity.
    rewrite Hacc.
    unfold secondPass, doctorRule, dateRule.
    cbn [needsDoctorHandler needsDateHandler updatedFields truthyProp lookup fst snd
         String.eqb Ascii.eqb Bool.eqb andb negb].
    revert Hdoc. generalize (applyEntry b ("doctor", c) f). intros f1 Hdoc.
    handlers. rewrite Hdoc, Hval.
    cbn [JS.truthy negb updatedFields List.length Nat.ltb Nat.leb]. run.
    repeat split; try reflexivity.
    + cbn. now rewrite Hdoc, Hval.
    + right. apply in_or_app. right. cbn. auto 10.
Qed.

Lemma unmatched_doctor_selects_placeholder_witness :
  let s := finalState (updateAppointmentForm Reference.browser
             [("doctor", "Grey, Meredith"); ("appointment-date", "2025-11-10");
              ("appointment-time", "10:00")] Reference.app) in
  let r := updateAppointmentForm Reference.browser [("doctor", "Dr. Strange")] s in
  sel_value (doctor (form s)) = "Grey, Meredith"
  /\ date_value (appointment_date (form s)) = "2025-11-10"
  /\ sel_value (doctor (form (finalState r))) = ""
  /\ date_value (appointment_date (form (finalState r))) = "".
Proof.
  intros s r. split; [reflexivity |]. split; [reflexivity |].
  pose proof (proj2 (unmatched_doctor_selects_placeholder Reference.browser s
                       {| value := ""; textContent := "Select doctor" |}
                       (tl (options (doctor (form s)))) "Dr. Strange"
                       eq_refl eq_refl)) as H.
  cbv zeta in H.
  assert (Hnone : forall o, In o ({| value := ""; textContent := "Select doctor" |}
                                   :: tl (options (doctor (form s)))) ->
                            substringMatch "Dr. Strange" o = false).
  { intros o Ho. vm_compute in Ho.
    repeat (destruct Ho as [<- | Ho]; [reflexivity |]). destruct Ho. }
  destruct (H Hnone) as (_ & _ & Hd & Hdate & _).
  split; assumption.
Defined.

(** ** Pre-filling from the patient record *)

Section Prefill.

Lemma split_piece (sep : ascii) (pre rest : string) :
  without sep pre = true ->
  JS.split sep pre = [pre]
  /\ JS.split sep (pre ++ String sep rest) = pre :: JS.split sep rest.
Proof.
  induction pre as [| c pre IH]; cbn [without]; intros H.
  - cbn [append JS.split]. rewrite Ascii.eqb_refl. split; reflexivity.
  - apply andb_true_iff in H as [Hc Hpre]. apply negb_true_iff in Hc.
    destruct (IH Hpre) as [IH1 IH2].
    cbn [JS.split append]. rewrite Hc, IH1, IH2. split; reflexivity.
Qed.

(** A date of the form month/day/year is turned round; one without a
    slash has no day. *)
Lemma convertDob_parts (m d y : string) :
  without "/" m = true -> without "/" d = true -> without "/" y = true ->
  convertDob (m ++ "/" ++ d ++ "/" ++ y)
  = Some (y ++ "-" ++ JS.padStart 2 "0" m ++ "-" ++ JS.padStart 2 "0" d)
  /\ convertDob m = None.
Proof.
  intros Hm Hd Hy. unfold convertDob. cbn [append].
  rewrite (proj2 (split_piece "/" m _ Hm)), (proj2 (split_piece "/" d _ Hd)),
    (proj1 (split_piece "/" y "" Hy)), (proj1 (split_piece "/" m "" Hm)).
  split; reflexivity.
Qed.

Variable b : Browser.

(** The run of [prefillPatientInfo] for a loaded patient. *)
Lemma prefillPatientInfo_run (dob0 : option string) (p : Patient) (f : Form) :
  let s := {| currentPatient := Some p; form := f |} in
  let parts := JS.split " " (patient_name p) in
  let named := with_last_name (JS.stripLineBreaks (nth 1 parts ""))
                 (with_first_name (JS.stripLineBreaks (nth 0 parts "")) f) in
  let wanted := match dob0 with Some d => JS.truthy d | None => false end in
  prefillPatientInfo b dob0 s
  = if wanted
    then match match dob0 with Some d => convertDob d | None => None end with
         | Some iso =>
             (Normal tt,
              {| currentPatient := Some p; form := with_dob (sanitizeDate b iso) named |},
              [Log PatientInfoPrefilled])
         | None => (Thrown, {| currentPatient := Some p; form := named |}, [])
         end
    else (Normal tt, {| currentPatient := Some p; form := named |},
          [Log PatientInfoPrefilled]).
Proof.
  unfold prefillPatientInfo, defined, logActivity, getPatient. run.
  destruct dob0 as [d |]; run; [| reflexivity].
  destruct (JS.truthy d); run; [| reflexivity].
  destruct (convertDob d); run; reflexivity.
Qed.

End Prefill.

(** X14. Pre-filling takes the first two space-separated words of the
    patient's name as first and last name (as the text inputs keep them,
    without line breaks), so a middle name ends up as the last name and a
    single word leaves the last name empty.  A date of
    birth written month/day/year is written to the input as
    year-month-day with month and day padded to two digits (the input keeps
    it if it is a valid date).  A non-empty date of birth without a slash
    makes the call throw after the names were filled in, leaving the date
    of birth input as it was and the closing log line unwritten.  Without a
    loaded patient nothing happens. *)
Theorem prefill_from_patient_record
    (b : Browser) (dob0 : option string) (s : App) (p : Patient) :
  currentPatient s = Some p ->
  let r := prefillPatientInfo b dob0 s in
  let f' := form (finalState r) in
  (forall first second rest,
      without " " first = true -> without " " second = true ->
      (patient_name p = first ->
       first_name f' = JS.stripLineBreaks first /\ last_name f' = "")
      /\ (patient_name p = first ++ " " ++ second ->
          first_name f' = JS.stripLineBreaks first
          /\ last_name f' = JS.stripLineBreaks second)
      /\ (patient_name p = first ++ " " ++ second ++ " " ++ rest ->
          first_name f' = JS.stripLineBreaks first
          /\ last_name f' = JS.stripLineBreaks second))
  /\ (forall m d y,
        without "/" m = true -> without "/" d = true -> without "/" y = true ->
        dob0 = Some (m ++ "/" ++ d ++ "/" ++ y) ->
        completion r = Normal tt
        /\ dob f' = sanitizeDate b (y ++ "-" ++ JS.padStart 2 "0" m
                                      ++ "-" ++ JS.padStart 2 "0" d)
        /\ events r = [Log PatientInfoPrefilled])
  /\ (forall v,
        dob0 = Some v -> v <> "" -> without "/" v = true ->
        completion r = Thrown /\ dob f' = dob (form s) /\ events r = [])
  /\ ((dob0 = None \/ dob0 = Some "") ->
      completion r = Normal tt /\ dob f' = dob (form s))
  /\ (forall f, prefillPatientInfo b dob0 {| currentPatient := None; form := f |}
                = (Normal tt, {| currentPatient := None; form := f |}, [])).
Proof.
  intros Hp r f'. subst f' r. destruct s as [patient f]. cbn [currentPatient] in Hp.
  subst patient. rewrite prefillPatientInfo_run. cbv zeta.
  assert (Hnames : forall first second,
             JS.stripLineBreaks (nth 0 (JS.split " " (patient_name p)) "") = first ->
             JS.stripLineBreaks (nth 1 (JS.split " " (patient_name p)) "") = second ->
             forall r,
               r = (if match dob0 with Some d => JS.truthy d | None => false end
                    then match match dob0 with Some d => convertDob d | None => None end with
                         | Some iso =>
                             (Normal tt,
                              {| currentPatient := Some p;
                                 form := with_dob (sanitizeDate b iso)
                                   (with_last_name
                                      (JS.stripLineBreaks
                                         (nth 1 (JS.split " " (patient_name p)) ""))
                                      (with_first_name
                                         (JS.stripLineBreaks
                                            (nth 0 (JS.split " " (patient_name p)) "")) f)) |},
                              [Log PatientInfoPrefilled])
                         | None =>
                             (Thrown,
                              {| currentPatient := Some p;
                                 form := with_last_name
                                           (JS.stripLineBreaks
                                              (nth 1 (JS.split " " (patient_name p)) ""))
                                           (with_first_name
                                              (JS.stripLineBreaks
                                                 (nth 0 (JS.split " " (patient_name p)) "")) f) |},
                              [])
                         end
                    else (Normal tt,
                          {| currentPatient := Some p;
                             form := with_last_name
                                       (JS.stripLineBreaks
                                          (nth 1 (JS.split " " (patient_name p)) ""))
                                       (with_first_name
                                          (JS.stripLineBreaks
                                             (nth 0 (JS.split " " (patient_name p)) "")) f) |},
                          [Log PatientInfoPrefilled])) ->
               first_name (form (finalState r)) = first
               /\ last_name (form (finalState r)) = second).
  { intros first second <- <- r ->.
    destruct (match dob0 with Some d => JS.truthy d | None => false end);
      [destruct (match dob0 with Some d => convertDob d | None => None end) |];
      split; reflexivity. }
  split; [| split; [| split; [| split]]].
  - intros first second rest Hfirst Hsecond. split; [| split]; intros Hname.
    + apply Hnames; [| | reflexivity]; rewrite Hname;
        now rewrite (proj1 (split_piece " " first "" Hfirst)).
    + apply Hnames; [| | reflexivity]; rewrite Hname; cbn [append];
        now rewrite (proj2 (split_piece " " first _ Hfirst)),
          (proj1 (split_piece " " second "" Hsecond)).
    + apply Hnames; [| | reflexivity]; rewrite Hname; cbn [append];
        now rewrite (proj2 (split_piece " " first _ Hfirst)),
          (proj2 (split_piece " " second _ Hsecond)).
  - intros m d y Hm Hd Hy ->.
    rewrite (proj1 (convertDob_parts m d y Hm Hd Hy)).
    destruct (JS.truthy _) eqn:Ht; [repeat split |].
    destruct m; discriminate Ht.
  - intros v -> Hv Hslash. rewrite (truthy_nonempty v Hv).
    rewrite (proj2 (convertDob_parts v "" "" Hslash eq_refl eq_refl)).
    repeat split.
  - intros [-> | ->]; repeat split.
  - intros f0. unfold prefillPatientInfo, getPatient. run. reflexivity.
Qed.

Lemma prefill_from_patient_record_witness :
  let p := {| patient_name := "Mary Ann Smith"; appointments := None |} in
  let s := {| currentPatient := Some p; form := Reference.page |} in
  let f' := form (finalState (prefillPatientInfo Reference.browser (Some "3/7/1980") s)) in
  first_name f' = "Mary" /\ last_name f' = "Ann" /\ dob f' = "1980-03-07".
Proof.
  intros p s f'.
  destruct (prefill_from_patient_record Reference.browser (Some "3/7/1980") s p eq_refl)
    as (Hnames & Hdob & _).
  destruct (Hnames "Mary" "Ann" "Smith" eq_refl eq_refl) as (_ & _ & Hthree).
  destruct (Hthree eq_refl) as [Hf Hl].
  destruct (Hdob "3" "7" "1980" eq_refl eq_refl eq_refl eq_refl) as (_ & Hd & _).
  split; [exact Hf |]. split; [exact Hl |]. exact Hd.
Defined.

Section BirthDate.

Lemma isDigit_not_slash (c : ascii) : JS.isDigit c = true -> Ascii.eqb c "/" = false.
Proof.
  intros H. apply isDigit_enum in H.
  repeat (destruct H as [<- | H]; [reflexivity |]). destruct H.
Qed.

(** A year of four digits prints as its four digits. *)
Lemma year_digits (y : Z) :
  1000 <= y <= 9999 ->
  exists a b c d,
    forallb JS.isDigit [a; b; c; d] = true
    /\ JS.toString y = String a (String b (String c (String d EmptyString)))
    /\ 1000 * JS.digitValue a + 100 * JS.digitValue b
       + 10 * JS.digitValue c + JS.digitValue d = y.
Proof.
  intros Hy.
  assert (Hall : forallb (fun k =>
             match JS.toString (Z.of_nat k) with
             | String a (String b (String c (String d EmptyString))) =>
                 andb (forallb JS.isDigit [a; b; c; d])
                      (1000 * JS.digitValue a + 100 * JS.digitValue b
                       + 10 * JS.digitValue c + JS.digitValue d =? Z.of_nat k)
             | _ => false
             end) (seq (Z.to_nat 1000) (Z.to_nat 9000)) = true) by (vm_compute; reflexivity).
  rewrite forallb_forall in Hall.
  specialize (Hall (Z.to_nat y)). rewrite Z2Nat.id in Hall by lia.
  assert (Hin : In (Z.to_nat y) (seq (Z.to_nat 1000) (Z.to_nat 9000))) by (apply in_seq; lia).
  specialize (Hall Hin).
  destruct (JS.toString y) as [| a [| b' [| c [| d [| ? ?]]]]]; try discriminate Hall.
  apply andb_true_iff in Hall as [Hd Hv]. apply Z.eqb_eq in Hv.
  now exists a, b', c, d.
Qed.

(** Numbers below 100, printed plainly or padded, hold no slash and pad
    to their two digits. *)
Lemma small_number (k : Z) (ks : string) :
  0 <= k < 100 ->
  ks = JS.toString k \/ ks = JS.pad2 k ->
  without "/" ks = true /\ JS.padStart 2 "0" ks = JS.pad2 k.
Proof.
  intros Hk Hks.
  assert (Hall : forallb (fun n =>
             let plain := JS.toString (Z.of_nat n) in
             let padded := JS.pad2 (Z.of_nat n) in
             andb (andb (without "/" plain) (without "/" padded))
                  (String.eqb (JS.padStart 2 "0" padded) padded)) (seq 0 100) = true)
    by (vm_compute; reflexivity).
  rewrite forallb_forall in Hall.
  specialize (Hall (Z.to_nat k)). rewrite Z2Nat.id in Hall by lia.
  assert (Hin : In (Z.to_nat k) (seq 0 100)) by (apply in_seq; lia).
  specialize (Hall Hin). cbv zeta in Hall.
  apply andb_true_iff in Hall as [Hall Hpad]. apply andb_true_iff in Hall as [Hplain Hpadded].
  apply String.eqb_eq in Hpad.
  destruct Hks as [-> | ->]; split; auto.
Qed.

(** A calendar date printed as year-month-day is read back as itself. *)
Lemma parseISO_print (y m d : Z) :
  1000 <= y <= 9999 -> 1 <= m <= 12 -> 1 <= d <= Reference.daysInMonth y m ->
  Reference.parseISO (JS.toString y ++ "-" ++ JS.pad2 m ++ "-" ++ JS.pad2 d)
  = Some (y, m, d).
Proof.
  intros Hy Hm Hd.
  assert (Hd31 : Reference.daysInMonth y m <= 31).
  { unfold Reference.daysInMonth.
    repeat match goal with |- context [if ?c then _ else _] => destruct c end; lia. }
  destruct (year_digits y Hy) as (y1 & y2 & y3 & y4 & Hyd & -> & Hyv).
  destruct (pad2_digits m ltac:(lia)) as (m1 & m2 & Hm1 & Hm2 & -> & Hmv).
  destruct (pad2_digits d ltac:(lia)) as (d1 & d2 & Hd1 & Hd2 & -> & Hdv).
  unfold Reference.parseISO. cbn [append forallb] in *.
  apply andb_true_iff in Hyd as [Hy1 Hyd]. apply andb_true_iff in Hyd as [Hy2 Hyd].
  apply andb_true_iff in Hyd as [Hy3 Hyd]. apply andb_true_iff in Hyd as [Hy4 _].
  rewrite Hy1, Hy2, Hy3, Hy4, Hm1, Hm2, Hd1, Hd2. cbn [andb Ascii.eqb Bool.eqb].
  rewrite Hyv, Hmv, Hdv.
  replace (1 <=? y) with true by (symmetry; apply Z.leb_le; lia).
  replace (1 <=? m) with true by (symmetry; apply Z.leb_le; lia).
  replace (m <=? 12) with true by (symmetry; apply Z.leb_le; lia).
  replace (1 <=? d) with true by (symmetry; apply Z.leb_le; lia).
  replace (d <=? Reference.daysInMonth y m) with true by (symmetry; apply Z.leb_le; lia).
  reflexivity.
Qed.

End BirthDate.

(** X15. With the calendar of the reference browser, a date of birth of the
    patient record written month/day/year, with month and day either plain
    or zero-padded and a year of four digits, is pre-filled as exactly that
    calendar date: the call ends normally and the date of birth input then
    reads back as the same year, month and day. *)
Theorem prefilled_birth_date
    (clock y m d : Z) (ms ds : string) (s : App) (p : Patient) :
  currentPatient s = Some p ->
  1000 <= y <= 9999 -> 1 <= m <= 12 -> 1 <= d <= Reference.daysInMonth y m ->
  ms = JS.toString m \/ ms = JS.pad2 m ->
  ds = JS.toString d \/ ds = JS.pad2 d ->
  let r := prefillPatientInfo (Reference.utc clock)
             (Some (ms ++ "/" ++ ds ++ "/" ++ JS.toString y)) s in
  completion r = Normal tt
  /\ dob (form (finalState r)) = JS.toString y ++ "-" ++ JS.pad2 m ++ "-" ++ JS.pad2 d
  /\ Reference.parseISO (dob (form (finalState r))) = Some (y, m, d).
Proof.
  intros Hp Hy Hm Hd Hms Hds r. subst r.
  destruct s as [patient f]. cbn [currentPatient] in Hp. subst patient.
  assert (Hd31 : Reference.daysInMonth y m <= 31).
  { unfold Reference.daysInMonth.
    repeat match goal with |- context [if ?c then _ else _] => destruct c end; lia. }
  destruct (small_number m ms ltac:(lia) Hms) as [Hms1 Hms2].
  destruct (small_number d ds ltac:(lia) Hds) as [Hds1 Hds2].
  assert (Hys : without "/" (JS.toString y) = true).
  { destruct (year_digits y Hy) as (y1 & y2 & y3 & y4 & Hyd & -> & _).
    cbn [forallb] in Hyd.
    apply andb_true_iff in Hyd as [H1 Hyd]. apply andb_true_iff in Hyd as [H2 Hyd].
    apply andb_true_iff in Hyd as [H3 Hyd]. apply andb_true_iff in Hyd as [H4 _].
    cbn [without].
    now rewrite (isDigit_not_slash _ H1), (isDigit_not_slash _ H2),
      (isDigit_not_slash _ H3), (isDigit_not_slash _ H4). }
  pose proof (parseISO_print y m d Hy Hm Hd) as Hparse.
  rewrite prefillPatientInfo_run. cbv zeta.
  rewrite (proj1 (convertDob_parts ms ds (JS.toString y) Hms1 Hds1 Hys)), Hms2, Hds2.
  replace (JS.truthy (ms ++ "/" ++ ds ++ "/" ++ JS.toString y)) with true
    by (destruct ms; reflexivity).
  cbn [completion finalState fst snd form].
  unfold sanitizeDate. cbn [validDateString Reference.utc]. rewrite Hparse.
  cbn [dob with_dob]. rewrite Hparse. repeat split.
Qed.

Lemma prefilled_birth_date_witness :
  let p := {| patient_name := "John Doe"; appointments := None |} in
  let s := {| currentPatient := Some p; form := Reference.page |} in
  dob (form (finalState (prefillPatientInfo Reference.browser (Some "01/01/1975") s)))
  = "1975-01-01".
Proof.
  intros p s.
  exact (proj1 (proj2 (prefilled_birth_date Reference.clock 1975 1 1 "01" "01" s p
                         eq_refl ltac:(lia) ltac:(lia) ltac:(vm_compute; split; discriminate)
                         (or_intror eq_refl) (or_intror eq_refl)))).
Defined.

(** ** The next available date *)

Section NextAvailable.

Variable b : Browser.
Variable formatDay : Z -> string.

(** The search over consecutive day offsets returns the first day whose
    weekday is available, or the fallback text. *)
Lemma nextAvailableFrom_search (tomorrow : Z) (availableDays : list string) (n : nat) :
  forall a : nat,
  let works := fun i : nat =>
    arrayIncludes availableDays
      (JS.toLowerCase (weekdayLong b (Some (addDays b (Z.of_nat i) tomorrow)))) in
  (exists i, (a <= i < a + n)%nat /\ works i = true
             /\ (forall j, (a <= j < i)%nat -> works j = false)
             /\ nextAvailableFrom b formatDay tomorrow availableDays (seq a n)
                = formatDay (addDays b (Z.of_nat i) tomorrow))
  \/ ((forall i, (a <= i < a + n)%nat -> works i = false)
      /\ nextAvailableFrom b formatDay tomorrow availableDays (seq a n) = "Check calendar").
Proof.
  induction n as [| n IH]; intros a works.
  - right. split; [intros i Hi; lia | reflexivity].
  - cbn [seq nextAvailableFrom]. fold (works a).
    destruct (works a) eqn:Ha.
    + left. exists a. repeat split; try lia; try assumption.
    + destruct (IH (S a)) as [(i & Hi & Hw & Hmin & Hres) | [Hnone Hres]].
      * left. exists i. repeat split; try lia; try assumption.
        intros j Hj. destruct (Nat.eq_dec j a) as [-> | Hne]; [exact Ha |].
        apply Hmin. lia.
      * right. split; [| exact Hres].
        intros i Hi. destruct (Nat.eq_dec i a) as [-> | Hne]; [exact Ha |].
        apply Hnone. lia.
Qed.

End NextAvailable.

(** X16. The next available date is searched in the fourteen days that begin
    tomorrow, never today: the result is the formatted first day among
    them whose weekday is one of the doctor's days, and the text
    "Check calendar" exactly when none of the fourteen is. *)
Theorem next_available_date_search
    (b : Browser) (formatDay : Z -> string) (availableDays : list string) :
  let tomorrow := addDays b 1 (now b) in
  let day := fun i : nat => addDays b (Z.of_nat i) tomorrow in
  let works := fun i : nat =>
    arrayIncludes availableDays (JS.toLowerCase (weekdayLong b (Some (day i)))) in
  (exists i, (i < 14)%nat /\ works i = true
             /\ (forall j, (j < i)%nat -> works j = false)
             /\ getNextAvailableDate b formatDay availableDays = formatDay (day i))
  \/ ((forall i, (i < 14)%nat -> works i = false)
      /\ getNextAvailableDate b formatDay availableDays = "Check calendar").
Proof.
  intros tomorrow day works. unfold getNextAvailableDate. fold tomorrow.
  destruct (nextAvailableFrom_search b formatDay tomorrow availableDays 14 0)
    as [(i & Hi & Hw & Hmin & Hres) | [Hnone Hres]].
  - left. exists i. repeat split; try lia; try assumption.
    intros j Hj. apply Hmin. lia.
  - right. split; [| exact Hres]. intros i Hi. apply Hnone. lia.
Qed.

(** X17. With the calendar of the reference browser the seven days that
    begin tomorrow cover every weekday, so for a doctor with at least one
    weekday the search always succeeds within the first week: the result
    is the formatted first available day, at most six days after tomorrow,
    and the fallback text is not reached. *)
Theorem next_available_within_a_week
    (clock : Z) (formatDay : Z -> string) (availableDays : list string) (k : nat) :
  (k < 7)%nat ->
  arrayIncludes availableDays (JS.toLowerCase (nth k Reference.weekdayNames "")) = true ->
  let br := Reference.utc clock in
  exists i, (i < 7)%nat
    /\ getNextAvailableDate br formatDay availableDays
       = formatDay (addDays br (Z.of_nat i) (addDays br 1 (now br)))
    /\ arrayIncludes availableDays
         (JS.toLowerCase
            (weekdayLong br (Some (addDays br (Z.of_nat i) (addDays br 1 (now br))))))
       = true.
Proof.
  intros Hk Hin br.
  assert (Hday : forall i : nat,
             weekdayLong br (Some (addDays br (Z.of_nat i) (addDays br 1 (now br))))
             = nth (Z.to_nat ((clock / Reference.msPerDay + 5 + Z.of_nat i) mod 7))
                   Reference.weekdayNames "Invalid Date").
  { intros i. subst br. cbn [weekdayLong addDays now Reference.utc].
    assert (HD : Reference.msPerDay <> 0) by (unfold Reference.msPerDay; lia).
    rewrite !Z.div_add by exact HD. f_equal. f_equal. f_equal. lia. }
  set (i0 := Z.to_nat ((Z.of_nat k - 5 - clock / Reference.msPerDay) mod 7)).
  assert (Hi0 : (i0 < 7)%nat).
  { subst i0. pose proof (Z.mod_pos_bound (Z.of_nat k - 5 - clock / Reference.msPerDay) 7).
    lia. }
  assert (Hw0 : arrayIncludes availableDays
                  (JS.toLowerCase
                     (weekdayLong br (Some (addDays br (Z.of_nat i0) (addDays br 1 (now br))))))
                = true).
  { rewrite Hday.
    assert (Hidx : (clock / Reference.msPerDay + 5 + Z.of_nat i0) mod 7 = Z.of_nat k).
    { subst i0. rewrite Z2Nat.id
        by (pose proof (Z.mod_pos_bound (Z.of_nat k - 5 - clock / Reference.msPerDay) 7); lia).
      rewrite Z.add_mod_idemp_r by lia.
      replace (clock / Reference.msPerDay + 5
               + (Z.of_nat k - 5 - clock / Reference.msPerDay)) with (Z.of_nat k) by lia.
      apply Z.mod_small. lia. }
    rewrite Hidx, Nat2Z.id.
    rewrite (nth_indep Reference.weekdayNames "Invalid Date" "") by (cbn; lia).
    exact Hin. }
  unfold getNextAvailableDate.
  destruct (nextAvailableFrom_search br formatDay (addDays br 1 (now br)) availableDays 14 0)
    as [(i & Hi & Hw & Hmin & Hres) | [Hnone _]].
  - exists i. split; [| split; assumption].
    destruct (Nat.lt_ge_cases i 7) as [Hlt | Hge]; [exact Hlt |].
    rewrite (Hmin i0) in Hw0 by lia. discriminate Hw0.
  - rewrite (Hnone i0) in Hw0 by lia. discriminate Hw0.
Qed.

Lemma next_available_within_a_week_witness :
  exists i, (i < 7)%nat
    /\ getNextAvailableDate Reference.browser (toISODate Reference.browser)
         ["thursday"; "friday"]
       = toISODate Reference.browser
           (addDays Reference.browser (Z.of_nat i)
              (addDays Reference.browser 1 (now Reference.browser)))
    /\ arrayIncludes ["thursday"; "friday"]
         (JS.toLowerCase
            (weekdayLong Reference.browser
               (Some (addDays Reference.browser (Z.of_nat i)
                        (addDays Reference.browser 1 (now Reference.browser))))))
       = true.
Proof.
  exact (next_available_within_a_week Reference.clock (toISODate Reference.browser)
           ["thursday"; "friday"] 4 ltac:(lia) eq_refl).
Defined.

(** ** A turn of the chat *)

Section ChatTurn.

Variable b : Browser.

Lemma lookup_existsb (key v : string) (obj : list (string * string)) :
  lookup key obj = Some v -> existsb (fun p => String.eqb (fst p) key) obj = true.
Proof.
  induction obj as [| [k w] obj IH]; cbn [lookup existsb fst]; [discriminate |].
  destruct (String.eqb k key); [reflexivity | exact IH].
Qed.

(** The chat input is an element of the page when it is listed. *)
Lemma chat_input_found (f : Form) (text : string) :
  lookup "chat-input" (others f) = Some text ->
  getElementById "chat-input" f = Some (OtherEl "chat-input")
  /\ elementValue (OtherEl "chat-input") f = text.
Proof.
  intros H. unfold getElementById, elementValue.
  rewrite (lookup_existsb _ _ _ H), H. split; reflexivity.
Qed.

Lemma blank_truthy (text : string) :
  JS.truthy (JS.trim text) = negb (blank text).
Proof.
  destruct (blank text) eqn:Hb.
  - apply trim_blank in Hb. now rewrite Hb.
  - destruct (JS.trim text) eqn:Ht; [| reflexivity].
    apply trim_blank in Ht. congruence.
Qed.

End ChatTurn.

(** X18. A turn of the chat.  A blank input does nothing, and without a
    loaded patient only the alert asking to load one is shown.  Otherwise
    the trimmed text is shown as the user's message and the input is
    emptied; an error of the service is shown and the form stays as it is;
    a reply is shown and its batch of form updates, if any, is applied to
    the form.  When applying the batch throws, the turn itself still ends
    normally: the form keeps what the batch had written until then, and
    after the reply the chat shows the connection error message. *)
Theorem chat_turn_applies_updates
    (b : Browser) (response : ChatResponse) (s : App) (text : string) :
  lookup "chat-input" (others (form s)) = Some text ->
  let r := sendMessage b response s in
  let s1 := setForm (with_others (assign "chat-input" "" (others (form s))) (form s)) s in
  let user := ChatMessage "user" (JS.trim text) in
  (blank text = true -> r = (Normal tt, s, []))
  /\ (blank text = false -> currentPatient s = None ->
      completion r = Normal tt /\ finalState r = s
      /\ Spec.visible (events r) = [Alert "Please load a patient first"])
  /\ (blank text = false -> currentPatient s <> None ->
      completion r = Normal tt
      /\ (forall e, chat_error response = Some e -> e <> "" ->
            finalState r = s1
            /\ Spec.visible (events r)
               = [user; ChatMessage "assistant" ("Sorry, I encountered an error: " ++ e)])
      /\ (chat_error response = None \/ chat_error response = Some "" ->
          match form_updates response with
          | None =>
              finalState r = s1
              /\ Spec.visible (events r) = [user; ChatMessage "assistant" (reply response)]
          | Some batch =>
              let u := updateAppointmentForm b batch s1 in
              finalState r = finalState u
              /\ Spec.visible (events r)
                 = ([user; ChatMessage "assistant" (reply response)]
                    ++ Spec.visible (events u)
                    ++ match completion u with
                       | Thrown =>
                           [ChatMessage "assistant"
                              "Sorry, I encountered a connection error. Please try again."]
                       | Normal _ => []
                       end)%list
          end)).
Proof.
  intros Htext r s1 user. subst r s1 user. destruct s as [patient f].
  cbn [form currentPatient] in *.
  destruct (chat_input_found f text Htext) as [Hel Hval].
  unfold sendMessage, defined, addMessage, tryCatch. run.
  rewrite Hel. run. rewrite Hval, blank_truthy.
  split; [| split].
  - intros ->. reflexivity.
  - intros -> ->. cbn. repeat split.
  - intros -> Hp. destruct patient as [p |]; [clear Hp | congruence].
    cbn [negb]. run.
    destruct (chat_error response) as [e |] eqn:He.
    + destruct (JS.truthy e) eqn:Hte.
      * cbn. split; [reflexivity |]. split.
        -- intros e' [= <-] _. split; reflexivity.
        -- intros [Hc | Hc]; [discriminate Hc |]. injection Hc as ->. discriminate Hte.
      * assert (e = "") as -> by (destruct e; [reflexivity | discriminate Hte]).
        run. cbn [elementSetValue].
        destruct (form_updates response) as [batch |].
        -- run.
           generalize (updateAppointmentForm b batch
                         {| currentPatient := Some p;
                            form := with_others (assign "chat-input" "" (others f)) f |}).
           intros [[[[] |] u'] evu]; cbn;
             (split; [reflexivity |]); (split; [intros e' [= <-] Hne; congruence |]);
             intros _; (split; [reflexivity |]);
             rewrite ?visible_app; cbn; rewrite ?app_nil_r; reflexivity.
        -- cbn. split; [reflexivity |]. split; [intros e' [= <-] Hne; congruence |].
           intros _. split; reflexivity.
    + run. cbn [elementSetValue].
      destruct (form_updates response) as [batch |].
      * run.
        generalize (updateAppointmentForm b batch
                      {| currentPatient := Some p;
                         form := with_others (assign "chat-input" "" (others f)) f |}).
        intros [[[[] |] u'] evu]; cbn;
          (split; [reflexivity |]); (split; [intros e' He'; discriminate He' |]);
          intros _; (split; [reflexivity |]);
          rewrite ?visible_app; cbn; rewrite ?app_nil_r; reflexivity.
      * cbn. split; [reflexivity |]. split; [intros e' He'; discriminate He' |].
        intros _. split; reflexivity.
Qed.

Lemma chat_turn_applies_updates_witness :
  let page := with_others [("chat-input", "  Book with Dr. Strange on Monday ")]
                (with_doctor (selectAppend (Reference.opt "Strange, Stephen")
                                (doctor Reference.page)) Reference.page) in
  let s := {| currentPatient := Some Reference.johnDoe; form := page |} in
  let response := {| chat_error := None; reply := "Done.";
                     form_updates := Some [("doctor", "Strange, Stephen");
                                           ("appointment-date", "2025-11-10")] |} in
  let r := sendMessage Reference.browser response s in
  completion r = Normal tt
  /\ Spec.visible (events r)
     = [ChatMessage "user" "Book with Dr. Strange on Monday";
        ChatMessage "assistant" "Done.";
        ChatMessage "assistant" "Sorry, I encountered a connection error. Please try again."]
  /\ sel_value (doctor (form (finalState r))) = "Strange, Stephen"
  /\ date_value (appointment_date (form (finalState r))) = "2025-11-10".
Proof.
  intros page s response r.
  pose proof (chat_turn_applies_updates Reference.browser response s
                "  Book with Dr. Strange on Monday " eq_refl) as H.
  cbv zeta in H. destruct H as (_ & _ & H).
  destruct (H eq_refl ltac:(discriminate)) as (Hc & _ & Hu).
  specialize (Hu (or_introl eq_refl)). cbn [form_updates response] in Hu.
  destruct Hu as [Hs Hv]. fold r in Hc, Hs, Hv.
  split; [exact Hc |]. split; [rewrite Hv; reflexivity |].
  rewrite Hs. split; reflexivity.
Defined.

(** ** Unknown fields of a batch, and the others *)

Section UnknownFieldEffects.

Variable b : Browser.




End UnknownFieldEffects.



